(** * Plan store (server.js): a shallow embedding and its verified properties

    The development follows the layout of [server.js]:
    - the JavaScript values that travel through the handlers (request
      bodies, stored strings, response bodies);
    - the runtime and library calls the handlers make ([JSON.stringify],
      [JSON.parse], [etag], [moment], Ajv's compiled validator, the Redis
      client);
    - the middleware ([transformDate], [validateSchema], the readiness
      check) and the three route handlers;
    - the theorems about them.

    Strings are byte strings: a JavaScript string is represented by its
    UTF-8 encoding, which is what travels over HTTP and what Redis stores.
    Numbers are the integers that a double holds exactly; a number
    written with a fraction or an exponent is floating point and lies
    outside the embedding.

    A handler is a computation over the state of the process (the Redis
    client with the keys of its server, and the current date) and over the
    response it builds; it may throw, and [try]/[catch] is modelled as
    such. What is thrown outside every [try], as [moment] may throw in
    [transformDate], leaves the route; Express answers in its place and
    the process goes on. [res.json] ends in Express's [res.send], which
    turns the reply to a fresh GET into a 304. A Redis command is
    accepted or rejected as the list of outcomes in the state of the
    client says; one request is served at a time. [planSchema] comes from
    [./schema], which is not part of the sources: the POST route takes it
    as a parameter. *)

From Stdlib Require Import ZArith NArith Ascii String List Bool Lia.
From Stdlib Require Import DecimalN DecimalFacts.
From stdpp Require Import base option list strings gmap.

Import ListNotations.
Local Open Scope Z_scope.

(* ================================================================== *)
(** * Part I. Definitions *)
(* ================================================================== *)

(** ** JavaScript values *)

Module JS.

(** A JSON-compatible JavaScript value. An object is the list of its own
    properties in enumeration order; in an engine that order has the keys
    that are array indices first, and a list in another order stands for
    no object of the engine. *)
Unset Elimination Schemes.
Inductive value : Type :=
  | JNull
  | JBool (b : bool)
  | JNum (n : Z)
  | JStr (s : string)
  | JArr (items : list value)
  | JObj (props : list (string * value)).
Set Elimination Schemes.

(** Induction over a value and, inside it, over the items of an array
    and the property values of an object. *)
Fixpoint value_ind (P : value -> Prop)
  (fnull : P JNull) (fbool : forall b, P (JBool b)) (fnum : forall n, P (JNum n))
  (fstr : forall s, P (JStr s))
  (farr : forall items, Forall P items -> P (JArr items))
  (fobj : forall props, Forall (fun kv => P (snd kv)) props -> P (JObj props))
  (v : value) {struct v} : P v :=
  let rec := value_ind P fnull fbool fnum fstr farr fobj in
  match v with
  | JNull => fnull
  | JBool b => fbool b
  | JNum n => fnum n
  | JStr s => fstr s
  | JArr items =>
      farr items
        ((fix go (l : list value) : Forall P l :=
            match l with
            | [] => List.Forall_nil P
            | x :: l' => List.Forall_cons P x l' (rec x) (go l')
            end) items)
  | JObj props =>
      fobj props
        ((fix go (l : list (string * value)) : Forall (fun kv => P (snd kv)) l :=
            match l with
            | [] => List.Forall_nil _
            | kv :: l' => List.Forall_cons _ kv l' (rec (snd kv)) (go l')
            end) props)
  end.

(** The result of a property read or of a call that may yield
    [undefined]: [None] is [undefined]. *)
Definition maybe := option value.

(** Every object, at any depth, has each of its keys once. The values the
    body parser hands over are of this kind. *)
Fixpoint well_formed (v : value) : bool :=
  match v with
  | JArr items => forallb well_formed items
  | JObj props =>
      bool_decide (NoDup (map fst props))
      && forallb (fun kv => well_formed (snd kv)) props
  | _ => true
  end.

(** A string or [null], as [client.get] resolves to: ToBoolean and
    ToString. *)
Definition truthy_text (t : option string) : bool :=
  match t with
  | Some s => negb (String.eqb s "")
  | None => false
  end.

Definition text_to_string (t : option string) : string :=
  match t with
  | Some s => s
  | None => "null"
  end.

(** ToBoolean. *)
Definition truthy (v : value) : bool :=
  match v with
  | JNull => false
  | JBool b => b
  | JNum n => negb (n =? 0)
  | JStr s => negb (String.eqb s "")
  | JArr _ | JObj _ => true
  end.

(** ToBoolean of a value or [undefined]. *)
Definition truthy_maybe (m : maybe) : bool :=
  match m with
  | None => false
  | Some v => truthy v
  end.

(** Lookup in a property list. *)
Fixpoint lookup_prop (k : string) (props : list (string * value)) : maybe :=
  match props with
  | [] => None
  | (k', v) :: rest => if String.eqb k k' then Some v else lookup_prop k rest
  end.

(** [o.k] for a JSON-compatible value: own properties of an object; every
    other value has no property of the names the handlers read. *)
Definition get (o : value) (k : string) : maybe :=
  match o with
  | JObj props => lookup_prop k props
  | _ => None
  end.

(** Property definition on a property list: an existing key keeps its
    place and takes the new value, a new key goes last. *)
Fixpoint define_prop (k : string) (v : value) (props : list (string * value))
  : list (string * value) :=
  match props with
  | [] => [(k, v)]
  | (k', v') :: rest =>
      if String.eqb k k' then (k, v) :: rest
      else (k', v') :: define_prop k v rest
  end.

(** [o.k = v]. The handlers assign only to objects. *)
Definition set (o : value) (k : string) (v : value) : value :=
  match o with
  | JObj props => JObj (define_prop k v props)
  | _ => o
  end.

(** Decimal digits of a natural number, most significant first. *)
Fixpoint string_of_uint (d : Decimal.uint) : string :=
  match d with
  | Decimal.Nil => ""
  | Decimal.D0 d => String "0" (string_of_uint d)
  | Decimal.D1 d => String "1" (string_of_uint d)
  | Decimal.D2 d => String "2" (string_of_uint d)
  | Decimal.D3 d => String "3" (string_of_uint d)
  | Decimal.D4 d => String "4" (string_of_uint d)
  | Decimal.D5 d => String "5" (string_of_uint d)
  | Decimal.D6 d => String "6" (string_of_uint d)
  | Decimal.D7 d => String "7" (string_of_uint d)
  | Decimal.D8 d => String "8" (string_of_uint d)
  | Decimal.D9 d => String "9" (string_of_uint d)
  end.

Definition string_of_N (n : N) : string := string_of_uint (N.to_uint n).

(** Number::toString for an integer value that a double holds exactly
    (up to 2^53 in absolute value): all its digits, with the sign. Beyond
    that a JavaScript number is rounded, and printed with an exponent from
    1e21 on; the embedding has no such numbers. *)
Definition string_of_Z (z : Z) : string :=
  match z with
  | Z0 => "0"
  | Zpos p => string_of_N (Npos p)
  | Zneg p => String "-" (string_of_N (Npos p))
  end.

(** [xs.join(sep)] on strings. *)
Fixpoint join (sep : string) (xs : list string) : string :=
  match xs with
  | [] => ""
  | [x] => x
  | x :: rest => x +:+ sep +:+ join sep rest
  end.

(** ToString, as in ['' + v]; [None] when it throws a TypeError. An
    object is converted by the first callable of its [valueOf] and
    [toString]: an own property named [toString] holds a JSON value, which
    is not callable and hides [Object.prototype.toString], and the
    inherited [valueOf] returns the object itself, so the conversion
    throws; any other object prints as [[object Object]]. An array prints
    its elements joined by commas; inside [Array.prototype.join] a [null]
    element counts as the empty string, and an element that cannot be
    converted makes the whole conversion throw. *)
Fixpoint to_string (v : value) : option string :=
  match v with
  | JNull => Some "null"
  | JBool true => Some "true"
  | JBool false => Some "false"
  | JNum n => Some (string_of_Z n)
  | JStr s => Some s
  | JArr items =>
      (fix each (l : list value) (acc : list string) : option string :=
         match l with
         | [] => Some (join "," (rev acc))
         | JNull :: l' => each l' ("" :: acc)
         | x :: l' =>
             match to_string x with
             | Some t => each l' (t :: acc)
             | None => None
             end
         end) items []
  | JObj props =>
      match lookup_prop "toString" props with
      | Some _ => None
      | None => Some "[object Object]"
      end
  end.

End JS.

Export JS (value(..)).

(** ** The JSON object of the runtime: [JSON.stringify] and [JSON.parse] *)

Module JSON.

(** The double quote and the backslash. *)
Definition dquote : ascii := "034"%char.
Definition backslash : ascii := "\"%char.

(** A hexadecimal digit, in lower case. *)
Definition hex_digit (n : N) : ascii :=
  if (n <? 10)%N then ascii_of_N (48 + n) else ascii_of_N (87 + n).

(** QuoteJSONString on one character: the two-character escapes, [\u00xx]
    for the other control characters, the character itself otherwise. *)
Definition quote_char (c : ascii) : string :=
  let n := N_of_ascii c in
  if (n =? 8)%N then "\b"
  else if (n =? 9)%N then "\t"
  else if (n =? 10)%N then "\n"
  else if (n =? 12)%N then "\f"
  else if (n =? 13)%N then "\r"
  else if (n =? 34)%N then String backslash (String dquote "")
  else if (n =? 92)%N then "\\"
  else if (n <? 32)%N then
    "\u00" +:+ String (hex_digit (n / 16)) (String (hex_digit (n mod 16)) "")
  else String c "".

(** QuoteJSONString: the escaped characters, then the quotes around them. *)
Fixpoint quote_body (s : string) : string :=
  match s with
  | EmptyString => ""
  | String c rest => quote_char c +:+ quote_body rest
  end.

Definition quote (s : string) : string :=
  String dquote (quote_body s +:+ String dquote "").

(** [JSON.stringify(v)] with no replacer and no indentation. *)
Fixpoint stringify (v : value) : string :=
  match v with
  | JNull => "null"
  | JBool true => "true"
  | JBool false => "false"
  | JNum n => JS.string_of_Z n
  | JStr s => quote s
  | JArr items => "[" +:+ JS.join "," (map stringify items) +:+ "]"
  | JObj props =>
      "{" +:+ JS.join ","
                (map (fun kv => quote (fst kv) +:+ ":" +:+ stringify (snd kv)) props)
          +:+ "}"
  end.

(** The number of values and of list positions in [v]: the recursion
    depth the reader needs for the text of [v]. *)
Fixpoint size (v : value) : nat :=
  match v with
  | JArr items => S (list_sum (map (fun x => S (size x)) items))
  | JObj props => S (list_sum (map (fun kv => S (size (snd kv))) props))
  | _ => 1%nat
  end.

(** *** Reading *)

(** JSON white space: space, tab, line feed, carriage return. *)
Definition is_ws (c : ascii) : bool :=
  let n := N_of_ascii c in
  (n =? 32)%N || (n =? 9)%N || (n =? 10)%N || (n =? 13)%N.

Fixpoint skip_ws (s : string) : string :=
  match s with
  | String c rest => if is_ws c then skip_ws rest else s
  | EmptyString => s
  end.

(** [expect lit s] removes the prefix [lit] from [s]. *)
Fixpoint expect (lit s : string) : option string :=
  match lit, s with
  | EmptyString, _ => Some s
  | String a lit', String b s' => if Ascii.eqb a b then expect lit' s' else None
  | String _ _, EmptyString => None
  end.

(** The value of a hexadecimal digit, and of four of them. *)
Definition hex_val (c : ascii) : option N :=
  let n := N_of_ascii c in
  if (48 <=? n)%N && (n <=? 57)%N then Some (n - 48)%N
  else if (97 <=? n)%N && (n <=? 102)%N then Some (n - 87)%N
  else if (65 <=? n)%N && (n <=? 70)%N then Some (n - 55)%N
  else None.

Definition hex4 (a b c d : ascii) : option N :=
  match hex_val a, hex_val b, hex_val c, hex_val d with
  | Some x, Some y, Some z, Some w => Some (((x * 16 + y) * 16 + z) * 16 + w)%N
  | _, _, _, _ => None
  end.

(** UTF-8 encoding of a code point. *)
Definition utf8 (cp : N) : string :=
  let byte (n : N) := ascii_of_N n in
  let cont (n : N) := byte (128 + n mod 64)%N in
  if (cp <? 128)%N then String (byte cp) ""
  else if (cp <? 2048)%N then
    String (byte (192 + cp / 64)%N) (String (cont cp) "")
  else if (cp <? 65536)%N then
    String (byte (224 + cp / 4096)%N) (String (cont (cp / 64)%N) (String (cont cp) ""))
  else
    String (byte (240 + cp / 262144)%N)
      (String (cont (cp / 4096)%N) (String (cont (cp / 64)%N) (String (cont cp) ""))).

(** The two halves of a surrogate pair. *)
Definition is_high_surrogate (u : N) : bool := (55296 <=? u)%N && (u <=? 56319)%N.
Definition is_low_surrogate (u : N) : bool := (56320 <=? u)%N && (u <=? 57343)%N.

(** The low half of a surrogate pair written as a second [\uXXXX]. *)
Definition low_surrogate_escape (s : string) : option (N * string) :=
  match s with
  | String e (String u (String a (String b (String c (String d rest))))) =>
      if Ascii.eqb e backslash && Ascii.eqb u "u" then
        match hex4 a b c d with
        | Some lo => if is_low_surrogate lo then Some (lo, rest) else None
        | None => None
        end
      else None
  | _ => None
  end.

(** The characters of a string literal after its opening quote, up to and
    including the closing quote. A surrogate pair of escapes is one code
    point; an unpaired surrogate has no UTF-8 form and is read as U+FFFD. *)
Fixpoint parse_string_body (s : string) : option (string * string) :=
  let prepend (pre : string) (r : option (string * string)) :=
    match r with
    | Some (body, rest) => Some (pre +:+ body, rest)
    | None => None
    end in
  match s with
  | EmptyString => None
  | String c r =>
      if Ascii.eqb c dquote then Some ("", r)
      else if Ascii.eqb c backslash then
        match r with
        | EmptyString => None
        | String e r' =>
            if Ascii.eqb e dquote then prepend (String dquote "") (parse_string_body r')
            else if Ascii.eqb e backslash then prepend "\" (parse_string_body r')
            else if Ascii.eqb e "/" then prepend "/" (parse_string_body r')
            else if Ascii.eqb e "b" then prepend (String "008" "") (parse_string_body r')
            else if Ascii.eqb e "f" then prepend (String "012" "") (parse_string_body r')
            else if Ascii.eqb e "n" then prepend (String "010" "") (parse_string_body r')
            else if Ascii.eqb e "r" then prepend (String "013" "") (parse_string_body r')
            else if Ascii.eqb e "t" then prepend (String "009" "") (parse_string_body r')
            else if Ascii.eqb e "u" then
              match r' with
              | String h1 (String h2 (String h3 (String h4 r4))) =>
                  match hex4 h1 h2 h3 h4 with
                  | None => None
                  | Some u =>
                      if is_high_surrogate u then
                        match r4 with
                        | String e1 (String e2 (String l1 (String l2 (String l3 (String l4 r10))))) =>
                            match low_surrogate_escape r4 with
                            | Some (lo, _) =>
                                prepend (utf8 (65536 + (u - 55296) * 1024 + (lo - 56320))%N)
                                        (parse_string_body r10)
                            | None => prepend (utf8 65533) (parse_string_body r4)
                            end
                        | _ => prepend (utf8 65533) (parse_string_body r4)
                        end
                      else if is_low_surrogate u then
                        prepend (utf8 65533) (parse_string_body r4)
                      else prepend (utf8 u) (parse_string_body r4)
                  end
              | _ => None
              end
            else None
        end
      else if (N_of_ascii c <? 32)%N then None
      else prepend (String c "") (parse_string_body r)
  end.

(** The decimal digit a character writes. *)
Definition digit_of (c : ascii) : option (Decimal.uint -> Decimal.uint) :=
  let n := N_of_ascii c in
  if (n =? 48)%N then Some Decimal.D0
  else if (n =? 49)%N then Some Decimal.D1
  else if (n =? 50)%N then Some Decimal.D2
  else if (n =? 51)%N then Some Decimal.D3
  else if (n =? 52)%N then Some Decimal.D4
  else if (n =? 53)%N then Some Decimal.D5
  else if (n =? 54)%N then Some Decimal.D6
  else if (n =? 55)%N then Some Decimal.D7
  else if (n =? 56)%N then Some Decimal.D8
  else if (n =? 57)%N then Some Decimal.D9
  else None.

(** The longest run of decimal digits at the head of [s]. *)
Fixpoint scan_digits (s : string) : Decimal.uint * string :=
  match s with
  | EmptyString => (Decimal.Nil, s)
  | String c rest =>
      match digit_of c with
      | Some d => let '(ds, rest') := scan_digits rest in (d ds, rest')
      | None => (Decimal.Nil, s)
      end
  end.

(** No digit. *)
Definition uint_is_nil (d : Decimal.uint) : bool :=
  match d with Decimal.Nil => true | _ => false end.

(** No digits at all, or a leading zero before more digits. *)
Definition bad_int (d : Decimal.uint) : bool :=
  match d with
  | Decimal.Nil => true
  | Decimal.D0 d' => negb (uint_is_nil d')
  | _ => false
  end.

(** A fraction or an exponent follows: the number is not an integer literal. *)
Definition starts_fraction (s : string) : bool :=
  match s with
  | String c _ => Ascii.eqb c "." || Ascii.eqb c "e" || Ascii.eqb c "E"
  | EmptyString => false
  end.

(** An unsigned integer literal. *)
Definition parse_nat (s : string) : option (N * string) :=
  let '(d, rest) := scan_digits s in
  if bad_int d || starts_fraction rest then None
  else Some (N.of_uint d, rest).

(** An integer literal, with its sign. *)
Definition parse_number (s : string) : option (value * string) :=
  match s with
  | String c rest =>
      if Ascii.eqb c "-" then
        match parse_nat rest with
        | Some (n, rest') => Some (JNum (- Z.of_N n), rest')
        | None => None
        end
      else
        match parse_nat s with
        | Some (n, rest') => Some (JNum (Z.of_N n), rest')
        | None => None
        end
  | EmptyString => None
  end.

(** The object a member list denotes: members are defined in the order
    written, so a repeated key keeps its first place and its last value.
    (An engine enumerates keys that are array indices first; the embedding
    keeps them where they were written.) *)
Definition object_of (members : list (string * value)) : list (string * value) :=
  fold_left (fun acc kv => JS.define_prop (fst kv) (snd kv) acc) members [].

(** Recursive descent; [fuel] bounds the number of nested and successive
    sub-values. [parse_value] reads a value, [parse_elements] the elements
    of an array after its opening bracket, [parse_members] the members of
    an object after its opening brace. *)
Fixpoint parse_value (fuel : nat) (s : string) {struct fuel} : option (value * string) :=
  match fuel with
  | O => None
  | S fuel' =>
      match skip_ws s with
      | EmptyString => None
      | String c r as s' =>
          if Ascii.eqb c "{" then
            match skip_ws r with
            | String c' r' =>
                if Ascii.eqb c' "}" then Some (JObj [], r')
                else
                  match parse_members fuel' r with
                  | Some (ms, rest) => Some (JObj (object_of ms), rest)
                  | None => None
                  end
            | EmptyString => None
            end
          else if Ascii.eqb c "[" then
            match skip_ws r with
            | String c' r' =>
                if Ascii.eqb c' "]" then Some (JArr [], r')
                else
                  match parse_elements fuel' r with
                  | Some (vs, rest) => Some (JArr vs, rest)
                  | None => None
                  end
            | EmptyString => None
            end
          else if Ascii.eqb c dquote then
            match parse_string_body r with
            | Some (str, rest) => Some (JStr str, rest)
            | None => None
            end
          else if Ascii.eqb c "t" then
            match expect "rue" r with Some rest => Some (JBool true, rest) | None => None end
          else if Ascii.eqb c "f" then
            match expect "alse" r with Some rest => Some (JBool false, rest) | None => None end
          else if Ascii.eqb c "n" then
            match expect "ull" r with Some rest => Some (JNull, rest) | None => None end
          else parse_number s'
      end
  end
with parse_elements (fuel : nat) (s : string) {struct fuel} : option (list value * string) :=
  match fuel with
  | O => None
  | S fuel' =>
      match parse_value fuel' s with
      | None => None
      | Some (v, rest) =>
          match skip_ws rest with
          | String c r =>
              if Ascii.eqb c "," then
                match parse_elements fuel' r with
                | Some (vs, rest') => Some (v :: vs, rest')
                | None => None
                end
              else if Ascii.eqb c "]" then Some ([v], r)
              else None
          | EmptyString => None
          end
      end
  end
with parse_members (fuel : nat) (s : string) {struct fuel}
  : option (list (string * value) * string) :=
  match fuel with
  | O => None
  | S fuel' =>
      match skip_ws s with
      | String q r =>
          if Ascii.eqb q dquote then
            match parse_string_body r with
            | None => None
            | Some (k, rest) =>
                match skip_ws rest with
                | String c r1 =>
                    if Ascii.eqb c ":" then
                      match parse_value fuel' r1 with
                      | None => None
                      | Some (v, rest1) =>
                          match skip_ws rest1 with
                          | String c' r2 =>
                              if Ascii.eqb c' "," then
                                match parse_members fuel' r2 with
                                | Some (ms, rest2) => Some ((k, v) :: ms, rest2)
                                | None => None
                                end
                              else if Ascii.eqb c' "}" then Some ([(k, v)], r2)
                              else None
                          | EmptyString => None
                          end
                      end
                    else None
                | EmptyString => None
                end
            end
          else None
      | EmptyString => None
      end
  end.

(** [JSON.parse(text)], for the texts [JSON.stringify] writes for the
    values of the embedding and for the texts that are no JSON at all:
    [None] stands for the SyntaxError it throws. A text with a number
    written with a fraction or an exponent, which [JSON.parse] reads as a
    floating-point number, has no value here and gets [None] as well; and
    the keys of an object stay in the order written. The fuel is the
    length of the text, which bounds what it nests and lists. *)
Definition parse (text : string) : option value :=
  match parse_value (S (String.length text)) text with
  | Some (v, rest) =>
      match skip_ws rest with
      | EmptyString => Some v
      | String _ _ => None
      end
  | None => None
  end.

(** A character no JSON value begins with: not a brace, a bracket, the
    quote, the minus sign, a digit, or the first letter of [true],
    [false] and [null]. *)
Definition opens_no_value (c : ascii) : bool :=
  negb (existsb (Ascii.eqb c)
          ["{"; "["; dquote; "-"; "t"; "f"; "n";
           "0"; "1"; "2"; "3"; "4"; "5"; "6"; "7"; "8"; "9"]%char).

(** A text that is seen not to be JSON at its first character: it is
    white space throughout, or what follows the white space begins no
    value. *)
Definition starts_no_value (text : string) : bool :=
  match skip_ws text with
  | EmptyString => true
  | String c _ => opens_no_value c
  end.

(** *** Notions for the proof that reading undoes writing *)

(** Where a value may end inside a text: at the end, or before a comma or
    a closing bracket. *)
Definition boundary (rest : string) : Prop :=
  rest = "" \/ exists c r, rest = String c r /\ (c = "," \/ c = "]" \/ c = "}")%char.

(** [rest] does not go on with a digit. *)
Definition no_digit_head (rest : string) : Prop :=
  match rest with
  | String c _ => digit_of c = None
  | EmptyString => True
  end.

(** The first character of the text of a value starts a value. *)
Definition value_head (c : ascii) : Prop :=
  is_ws c = false /\ Ascii.eqb c "]" = false /\ Ascii.eqb c "}" = false.

(** What the reader does with the text of [v] followed by [rest]. *)
Definition reads_back (v : value) : Prop :=
  forall fuel rest,
    (size v <= fuel)%nat -> boundary rest -> JS.well_formed v = true ->
    parse_value fuel (stringify v +:+ rest) = Some (v, rest).

(** The fuel the elements of an array and the members of an object need. *)
Definition elements_size (l : list value) : nat :=
  list_sum (map (fun x => S (size x)) l).

Definition members_size (l : list (string * value)) : nat :=
  list_sum (map (fun kv => S (size (snd kv))) l).

(** The text of one member of an object. *)
Definition member_text (kv : string * value) : string :=
  quote (fst kv) +:+ ":" +:+ stringify (snd kv).

(** Members whose values have each key of each object once. *)
Definition members_ok (l : list (string * value)) : Prop :=
  forallb (fun kv => JS.well_formed (snd kv)) l = true.

(** What [parse_members] does after one member. *)
Definition after_member (fuel : nat) (k : string) (v : value) (rest1 : string)
  : option (list (string * value) * string) :=
  match skip_ws rest1 with
  | String c' r2 =>
      if Ascii.eqb c' "," then
        match parse_members fuel r2 with
        | Some (ms, rest2) => Some ((k, v) :: ms, rest2)
        | None => None
        end
      else if Ascii.eqb c' "}" then Some ([(k, v)], r2)
      else None
  | EmptyString => None
  end.

End JSON.

(** ** The [etag] package: strong entity tags of strings *)

Module Etag.

Local Open Scope N_scope.

(** The bytes of an entity. *)
Definition bytes_of_string (s : string) : list N :=
  map N_of_ascii (list_ascii_of_string s).

(** 32-bit words: truncation and left rotation. *)
Definition w32 (x : N) : N := x mod 4294967296.

Definition rotl (k x : N) : N :=
  w32 (N.lor (N.shiftl x k) (N.shiftr x (32 - k))).

(** Big-endian bytes of [x], [n] of them. *)
Fixpoint be_bytes (n : nat) (x : N) : list N :=
  match n with
  | O => []
  | S n' => be_bytes n' (x / 256) ++ [x mod 256]
  end.

(** SHA-1 padding: a one bit, zeros up to 56 modulo 64, the bit length. *)
Definition sha1_pad (msg : list N) : list N :=
  let len := N.of_nat (length msg) in
  let zeros := N.to_nat ((119 - len mod 64) mod 64) in
  msg ++ [128] ++ repeat 0 zeros ++ be_bytes 8 (8 * len).

(** Big-endian 32-bit words of a block, at most [fuel] of them. *)
Fixpoint be_words (fuel : nat) (bs : list N) : list N :=
  match fuel, bs with
  | S fuel', a :: b :: c :: d :: rest =>
      (((a * 256 + b) * 256 + c) * 256 + d) :: be_words fuel' rest
  | _, _ => []
  end.

(** The message schedule, most recent word first. *)
Fixpoint schedule (n : nat) (rev_w : list N) : list N :=
  match n with
  | O => rev_w
  | S n' =>
      let x := N.lxor (N.lxor (nth 2 rev_w 0) (nth 7 rev_w 0))
                      (N.lxor (nth 13 rev_w 0) (nth 15 rev_w 0)) in
      schedule n' (rotl 1 x :: rev_w)
  end.

(** The five chaining words; one round, the eighty rounds of a block, the
    blocks of a message. *)
Definition sha1_state : Type := N * N * N * N * N.

Definition sha1_round (i : N) (st : sha1_state) (w : N) : sha1_state :=
  let '(a, b, c, d, e) := st in
  let not32 (x : N) := N.lxor x 4294967295 in
  let '(f, k) :=
    if i <? 20 then (N.lor (N.land b c) (N.land (not32 b) d), 1518500249)
    else if i <? 40 then (N.lxor (N.lxor b c) d, 1859775393)
    else if i <? 60 then
      (N.lor (N.lor (N.land b c) (N.land b d)) (N.land c d), 2400959708)
    else (N.lxor (N.lxor b c) d, 3395469782) in
  (w32 (rotl 5 a + f + e + k + w), a, rotl 30 b, c, d).

Fixpoint sha1_rounds (i : N) (st : sha1_state) (ws : list N) : sha1_state :=
  match ws with
  | [] => st
  | w :: rest => sha1_rounds (i + 1) (sha1_round i st w) rest
  end.

Definition sha1_block (h : sha1_state) (block : list N) : sha1_state :=
  let ws := rev (schedule 64 (rev (be_words 16 block))) in
  let '(h0, h1, h2, h3, h4) := h in
  let '(a, b, c, d, e) := sha1_rounds 0 h ws in
  (w32 (h0 + a), w32 (h1 + b), w32 (h2 + c), w32 (h3 + d), w32 (h4 + e)).

Fixpoint sha1_blocks (fuel : nat) (h : sha1_state) (bs : list N) : sha1_state :=
  match fuel, bs with
  | S fuel', _ :: _ => sha1_blocks fuel' (sha1_block h (firstn 64 bs)) (skipn 64 bs)
  | _, _ => h
  end.

(** The 20 bytes of the SHA-1 digest. *)
Definition sha1 (msg : list N) : list N :=
  let padded := sha1_pad msg in
  let '(h0, h1, h2, h3, h4) :=
    sha1_blocks (length padded)
      (1732584193, 4023233417, 2562383102, 271733878, 3285377520) padded in
  be_bytes 4 h0 ++ be_bytes 4 h1 ++ be_bytes 4 h2 ++ be_bytes 4 h3 ++ be_bytes 4 h4.

(** Base64 with padding. *)
Definition base64_char (n : N) : ascii :=
  if n <? 26 then ascii_of_N (65 + n)
  else if n <? 52 then ascii_of_N (71 + n)
  else if n <? 62 then ascii_of_N (n - 4)
  else if n =? 62 then "+"%char
  else "/"%char.

Fixpoint base64 (fuel : nat) (bs : list N) : string :=
  match fuel, bs with
  | S fuel', a :: b :: c :: rest =>
      String (base64_char (a / 4))
        (String (base64_char ((a mod 4) * 16 + b / 16))
           (String (base64_char ((b mod 16) * 4 + c / 64))
              (String (base64_char (c mod 64)) (base64 fuel' rest))))
  | S _, [a; b] =>
      String (base64_char (a / 4))
        (String (base64_char ((a mod 4) * 16 + b / 16))
           (String (base64_char ((b mod 16) * 4)) "="))
  | S _, [a] =>
      String (base64_char (a / 4)) (String (base64_char ((a mod 4) * 16)) "==")
  | _, _ => ""
  end.

(** [n.toString(16)]. *)
Fixpoint hex_digits (fuel : nat) (n : N) (acc : string) : string :=
  match fuel with
  | O => acc
  | S fuel' =>
      let acc' := String (JSON.hex_digit (n mod 16)) acc in
      if n <? 16 then acc' else hex_digits fuel' (n / 16) acc'
  end.

Definition to_hex (n : N) : string := hex_digits (S (N.to_nat (N.log2 n))) n "".

(** [entitytag]: the byte length in hexadecimal, a dash, and the first 27
    characters of the base64 SHA-1 digest, in double quotes. *)
Definition entitytag (entity : string) : string :=
  let bytes := bytes_of_string entity in
  let hash := substring 0 27 (base64 (length bytes + 20) (sha1 bytes)) in
  let len := N.of_nat (length bytes) in
  String JSON.dquote (to_hex len +:+ "-" +:+ hash +:+ String JSON.dquote "").

(** [etag(entity)] with no options: [entity == null] throws, a string
    gets its strong tag. [None] stands for the TypeError. *)
Definition etag (entity : option string) : option string :=
  match entity with
  | None => None
  | Some s => Some (entitytag s)
  end.

End Etag.

(** ** The [moment] package, for the two formats [transformDate] uses *)

Module Moment.

(** A calendar date: year, month (1 to 12), day of the month. *)
Record date := Date { year : Z; month : Z; day : Z }.

(** A decimal digit. *)
Definition is_digit (c : ascii) : bool :=
  let n := N_of_ascii c in (48 <=? n)%N && (n <=? 57)%N.

(** At most [max] digits from the head of [s]. *)
Fixpoint take_digits (max : nat) (s : string) : string * string :=
  match max, s with
  | S max', String c rest =>
      if is_digit c then
        let '(ds, rest') := take_digits max' rest in (String c ds, rest')
      else ("", s)
  | _, _ => ("", s)
  end.

(** The forgiving parser looks for each token anywhere in what is left of
    the input: the first run of one to [max] digits, with the text after
    it. [None] when no digit is left. *)
Fixpoint find_digits (max : nat) (s : string) : option (string * string) :=
  match s with
  | EmptyString => None
  | String c rest =>
      if is_digit c then Some (take_digits max s) else find_digits max rest
  end.

(** The text after the first dash, or [None] when there is no dash. *)
Fixpoint find_dash (s : string) : option string :=
  match s with
  | EmptyString => None
  | String c rest => if Ascii.eqb c "-" then Some rest else find_dash rest
  end.

(** A separator that is not found leaves the input where it was. *)
Definition skip_dash (s : string) : string :=
  match find_dash s with
  | Some rest => rest
  | None => s
  end.

(** toInt on a run of digits. *)
Fixpoint to_int_acc (acc : Z) (s : string) : Z :=
  match s with
  | EmptyString => acc
  | String c rest => to_int_acc (acc * 10 + (Z.of_N (N_of_ascii c) - 48)) rest
  end.

Definition to_int (s : string) : Z := to_int_acc 0 s.

(** The YYYY parse token: two digits are a two-digit year. *)
Definition parse_year (s : string) : Z :=
  if Nat.eqb (String.length s) 2
  then to_int s + (if 68 <? to_int s then 1900 else 2000)
  else to_int s.

(** isLeapYear. *)
Definition is_leap_year (y : Z) : bool :=
  ((y mod 4 =? 0) && negb (y mod 100 =? 0)) || (y mod 400 =? 0).

(** daysInMonth for a month from 1 to 12. *)
Definition days_in_month (y m : Z) : Z :=
  if m =? 2 then (if is_leap_year y then 29 else 28)
  else 31 - (((m - 1) mod 7) mod 2).

(** checkOverflow on the date parts. *)
Definition overflows (d : date) : bool :=
  (month d <? 1) || (12 <? month d) || (day d <? 1)
  || (days_in_month (year d) (month d) <? day d).

(** isMoment: the input has a property [_isAMomentObject] that is
    neither [undefined] nor [null]. *)
Definition is_moment (input : value) : bool :=
  match JS.get input "_isAMomentObject" with
  | None | Some JNull => false
  | Some _ => true
  end.

(** The string the parser works on: ['' + input], where an empty object
    and an empty array have first been replaced by [undefined]. [None]
    when the conversion throws. *)
Definition config_string (input : value) : option string :=
  match input with
  | JObj [] | JArr [] => Some "undefined"
  | _ => JS.to_string input
  end.

(** What [moment(input, 'DD-MM-YYYY').format('YYYY-MM-DD')] first makes
    of its input: the text to parse, or a TypeError, of which [msg] is
    the message. *)
Inductive input_text :=
  | Unreadable (msg : string)
  | Text (s : string).

(** An input that passes for a moment is copied as one; the copy has no
    locale (a JSON value holds no function) and printing it throws. The
    message is the one for an input with none of the keys [_d], [_pf] and
    [_locale]; with one of them the copy throws earlier, a TypeError too,
    with another message, which also varies with the versions of the
    library and of the engine: the properties below say that a TypeError
    is thrown, and nothing of its message. Any other input is converted
    to a string. *)
Definition config_input (input : value) : input_text :=
  if is_moment input
  then Unreadable "Cannot read properties of undefined (reading 'invalidDate')"
  else
    match config_string input with
    | None => Unreadable "Cannot convert object to primitive value"
    | Some s => Text s
    end.

(** What [moment(input, 'DD-MM-YYYY')] comes to, as far as
    [.format('YYYY-MM-DD')] tells: a TypeError, or a moment, valid
    ([Some]) or invalid ([None]). *)
Inductive parsed :=
  | Thrown (msg : string)
  | Read (m : option date).

(** The forgiving parser on the input string. Parts that the input does
    not give are taken from the current date [today]. [None] is an
    invalid moment. *)
Definition parse_DD_MM_YYYY (today : date) (s : string) : option date :=
  match find_digits 2 s with
  | None => None
  | Some (dd, s1) =>
      let d := to_int dd in
      let parts :=
        match find_digits 2 (skip_dash s1) with
        | None => Date (year today) (month today) d
        | Some (mm, s3) =>
            match find_digits 4 (skip_dash s3) with
            | None => Date (year today) (to_int mm) d
            | Some (yyyy, _) => Date (parse_year yyyy) (to_int mm) d
            end
        end in
      if overflows parts then None else Some parts
  end.

(** [moment(input, 'DD-MM-YYYY')] in forgiving mode, as far as
    [.format('YYYY-MM-DD')] tells it apart. *)
Definition moment_DD_MM_YYYY (today : date) (input : value) : parsed :=
  match config_input input with
  | Unreadable msg => Thrown msg
  | Text s => Read (parse_DD_MM_YYYY today s)
  end.

(** zeroFill for a non-negative number. *)
Definition zero_fill (width : nat) (n : Z) : string :=
  let digits := JS.string_of_Z n in
  string_of_list_ascii (repeat "0"%char (width - String.length digits)) +:+ digits.

(** [.format('YYYY-MM-DD')]. *)
Definition format_YYYY_MM_DD (m : option date) : string :=
  match m with
  | None => "Invalid date"
  | Some d =>
      zero_fill 4 (year d) +:+ "-" +:+ zero_fill 2 (month d) +:+ "-" +:+ zero_fill 2 (day d)
  end.

(** *** Notions for the proofs about written dates *)

(** The ten digits. *)
Definition digit_chars : list ascii := ["0"; "1"; "2"; "3"; "4"; "5"; "6"; "7"; "8"; "9"]%char.

(** Texts of two and of four characters. *)
Definition two (a b : ascii) : string := String a (String b "").
Definition four (a b c d : ascii) : string := String a (String b (String c (String d ""))).

End Moment.

(** ** Ajv: compiled JSON Schema validators

    The keywords modelled are [type], [required], [properties] and
    [items], with Ajv's defaults: validation stops at the first error. *)

Module Ajv.

(** The values of the [type] keyword. *)
Inductive jtype := TNull | TBoolean | TInteger | TNumber | TString | TArray | TObject.

Unset Elimination Schemes.
(** A schema: its [type], [required], [properties] and [items] keywords,
    each of which may be absent. *)
Inductive schema : Type :=
  | Schema (type : option jtype) (required : list string)
           (properties : list (string * schema)) (items : option schema).
Set Elimination Schemes.

(** Induction over a schema and, inside it, over the schemas of its
    properties and of its items. *)
Fixpoint schema_ind (P : schema -> Prop)
  (f : forall type required properties items,
       Forall (fun ks => P (snd ks)) properties ->
       match items with Some sub => P sub | None => True end ->
       P (Schema type required properties items))
  (s : schema) {struct s} : P s :=
  match s with
  | Schema type required properties items =>
      f type required properties items
        ((fix go (l : list (string * schema)) : Forall (fun ks => P (snd ks)) l :=
            match l with
            | [] => List.Forall_nil _
            | ks :: l' => List.Forall_cons _ ks l' (schema_ind P f (snd ks)) (go l')
            end) properties)
        (match items return match items with Some sub => P sub | None => True end with
         | Some sub => schema_ind P f sub
         | None => I
         end)
  end.

(** The keywords of a schema. *)
Definition schema_type (s : schema) : option jtype :=
  match s with Schema t _ _ _ => t end.
Definition schema_required (s : schema) : list string :=
  match s with Schema _ r _ _ => r end.
Definition schema_properties (s : schema) : list (string * schema) :=
  match s with Schema _ _ p _ => p end.
Definition schema_items (s : schema) : option schema :=
  match s with Schema _ _ _ i => i end.

(** One entry of [validate.errors]. *)
Record error := Error {
  instancePath : string;
  schemaPath : string;
  keyword : string;
  params : value;
  message : string
}.

(** The name of a type, as the error message and its [params] give it. *)
Definition type_name (t : jtype) : string :=
  match t with
  | TNull => "null"
  | TBoolean => "boolean"
  | TInteger => "integer"
  | TNumber => "number"
  | TString => "string"
  | TArray => "array"
  | TObject => "object"
  end.

(** The names every object inherits from [Object.prototype]. *)
Definition prototype_names : list string :=
  ["constructor"; "__defineGetter__"; "__defineSetter__"; "hasOwnProperty";
   "__lookupGetter__"; "__lookupSetter__"; "isPrototypeOf"; "propertyIsEnumerable";
   "toString"; "valueOf"; "__proto__"; "toLocaleString"].

(** What a compiled validator may come to look at. It reads a property
    with [data.name], which also finds what the data inherits: besides
    the JSON values of the data there are the methods of
    [Object.prototype] and, under the name [__proto__], that object
    itself. *)
Inductive instance :=
  | Data (v : value)
  | Inherited_function
  | Object_prototype.

(** What an object that has no own property [k] finds under [k];
    [None] is [undefined]. *)
Definition inherited (k : string) : option instance :=
  if String.eqb k "__proto__" then Some Object_prototype
  else if existsb (String.eqb k) prototype_names then Some Inherited_function
  else None.

(** [data.k], for the data the validator reads properties of: objects
    that are not arrays. The prototype of [Object.prototype] is [null]. *)
Definition read (data : instance) (k : string) : option instance :=
  match data with
  | Data (JObj props) =>
      match JS.lookup_prop k props with
      | Some v => Some (Data v)
      | None => inherited k
      end
  | Object_prototype =>
      if String.eqb k "__proto__" then Some (Data JNull)
      else if existsb (String.eqb k) prototype_names then Some Inherited_function
      else None
  | _ => None
  end.

(** checkDataType. Every number of the embedding is an integer; a
    function is of none of the types. *)
Definition has_type (t : jtype) (i : instance) : bool :=
  match t, i with
  | TNull, Data JNull => true
  | TBoolean, Data (JBool _) => true
  | TInteger, Data (JNum _) => true
  | TNumber, Data (JNum _) => true
  | TString, Data (JStr _) => true
  | TArray, Data (JArr _) => true
  | TObject, Data (JObj _) => true
  | TObject, Object_prototype => true
  | _, _ => false
  end.

(** The data the keywords [required] and [properties] apply to. *)
Definition is_object (i : instance) : bool :=
  match i with
  | Data (JObj _) | Object_prototype => true
  | _ => false
  end.

(** escapeJsonPointer. *)
Fixpoint escape_json_pointer (s : string) : string :=
  match s with
  | EmptyString => ""
  | String c rest =>
      if Ascii.eqb c "~" then "~0" +:+ escape_json_pointer rest
      else if Ascii.eqb c "/" then "~1" +:+ escape_json_pointer rest
      else String c (escape_json_pointer rest)
  end.

(** A hexadecimal digit, in upper case. *)
Definition upper_hex (n : N) : ascii :=
  if (n <? 10)%N then ascii_of_N (48 + n) else ascii_of_N (55 + n).

(** The characters [encodeURIComponent] leaves as they are. *)
Definition uri_unreserved (c : ascii) : bool :=
  let n := N_of_ascii c in
  ((48 <=? n)%N && (n <=? 57)%N) || ((65 <=? n)%N && (n <=? 90)%N)
  || ((97 <=? n)%N && (n <=? 122)%N)
  || existsb (Ascii.eqb c) ["-"; "_"; "."; "!"; "~"; "*"; "'"; "("; ")"]%char.

(** encodeURIComponent on the bytes of a string. *)
Fixpoint encode_uri_component (s : string) : string :=
  match s with
  | EmptyString => ""
  | String c rest =>
      if uri_unreserved c then String c (encode_uri_component rest)
      else
        let n := N_of_ascii c in
        String "%" (String (upper_hex (n / 16)) (String (upper_hex (n mod 16))
          (encode_uri_component rest)))
  end.

(** escapeFragment, for schema paths. *)
Definition escape_fragment (s : string) : string :=
  encode_uri_component (escape_json_pointer s).

(** The errors of the [type] and [required] keywords. *)
Definition type_error (ipath spath : string) (t : jtype) : error :=
  Error ipath (spath +:+ "/type") "type"
        (JObj [("type", JStr (type_name t))])
        ("must be " +:+ type_name t).

Definition required_error (ipath spath missing : string) : error :=
  Error ipath (spath +:+ "/required") "required"
        (JObj [("missingProperty", JStr missing)])
        ("must have required property '" +:+ missing +:+ "'").

(** The first name of [required] for which [data.name] is [undefined]. *)
Fixpoint first_missing (required : list string) (data : instance) : option string :=
  match required with
  | [] => None
  | k :: rest =>
      match read data k with
      | None => Some k
      | Some _ => first_missing rest data
      end
  end.

(** Validation stops at the first error: the errors of the first of
    [xs] that has some. *)
Definition first_errors {A} (check : A -> list error) : list A -> list error :=
  fix go (xs : list A) : list error :=
    match xs with
    | [] => []
    | x :: xs' =>
        match check x with
        | [] => go xs'
        | errs => errs
        end
    end.

(** The items of an array with their indices, from [i] on. *)
Fixpoint indexed (i : N) (l : list value) : list (N * value) :=
  match l with
  | [] => []
  | x :: l' => (i, x) :: indexed (i + 1)%N l'
  end.

(** The compiled validator of [s], at instance path [ipath] and schema
    path [spath]: the errors it leaves in [validate.errors], none when
    the data is valid. The type is checked first; then, on an array, the
    items in order; on an object, [required] and then the declared
    properties for which [data.name] is not [undefined], in the order of
    the schema. *)
Fixpoint validate_at (s : schema) (ipath spath : string) (data : instance) {struct s}
  : list error :=
  match s with
  | Schema type required properties items =>
      let by_kind :=
        match data with
        | Data (JArr elems) =>
            match items with
            | None => []
            | Some sub =>
                first_errors
                  (fun '(i, x) =>
                     validate_at sub (ipath +:+ "/" +:+ JS.string_of_N i)
                                 (spath +:+ "/items") (Data x))
                  (indexed 0 elems)
            end
        | _ =>
            if is_object data then
              match first_missing required data with
              | Some k => [required_error ipath spath k]
              | None =>
                  first_errors
                    (fun '(k, sub) =>
                       match read data k with
                       | None => []
                       | Some x =>
                           validate_at sub
                             (ipath +:+ "/" +:+ escape_json_pointer k)
                             (spath +:+ "/properties/" +:+ escape_fragment k) x
                       end)
                    properties
              end
            else []
        end in
      match type with
      | Some t => if has_type t data then by_kind else [type_error ipath spath t]
      | None => by_kind
      end
  end.

(** [ajv.compile(schema)] applied to [data]. *)
Definition validate (s : schema) (data : value) : list error :=
  validate_at s "" "#" (Data data).

(** A schema violated somewhere: the data is not of the declared type, a
    required name reads [undefined], a declared property that does not
    read [undefined] violates its schema, or an item of an array violates
    the schema of the items. *)
Inductive violates : schema -> instance -> Prop :=
  | violates_type s data t :
      schema_type s = Some t -> has_type t data = false -> violates s data
  | violates_required s data k :
      is_object data = true -> In k (schema_required s) -> read data k = None ->
      violates s data
  | violates_property s data k sub x :
      is_object data = true -> In (k, sub) (schema_properties s) ->
      read data k = Some x -> violates sub x ->
      violates s data
  | violates_item s elems sub x :
      schema_items s = Some sub -> In x elems -> violates sub (Data x) ->
      violates s (Data (JArr elems)).

(** An error as the plain object it is. *)
Definition error_value (e : error) : value :=
  JObj [("instancePath", JStr (instancePath e));
        ("schemaPath", JStr (schemaPath e));
        ("keyword", JStr (keyword e));
        ("params", params e);
        ("message", JStr (message e))].

End Ajv.

(** ** The [fresh] package: is the copy the peer holds still good

    Express asks it for [req.fresh]. The requests of the embedding carry
    [If-None-Match] as their only conditional header: no
    [If-Modified-Since] and no [Cache-Control]. *)

Module Fresh.

(** parseTokenList: the header split at commas; spaces before a token
    and after it are dropped, spaces inside it are kept. [tok] is the
    token read so far and [pending] the spaces read since its last
    character. *)
Fixpoint token_list_from (s tok pending : string) : list string :=
  match s with
  | EmptyString => [tok]
  | String c rest =>
      if Ascii.eqb c " " then
        if String.eqb tok "" then token_list_from rest "" ""
        else token_list_from rest tok (pending +:+ " ")
      else if Ascii.eqb c "," then tok :: token_list_from rest "" ""
      else token_list_from rest (tok +:+ pending +:+ String c "") ""
  end.

Definition token_list (s : string) : list string := token_list_from s "" "".

(** A text with no space and no comma: one token. *)
Definition plain (s : string) : bool :=
  forallb (fun c => negb (Ascii.eqb c " " || Ascii.eqb c ","))
          (list_ascii_of_string s).

(** One token of [If-None-Match] against the entity tag of the response:
    equal, or equal up to the weakness prefix of either. *)
Definition matches (etag token : string) : bool :=
  String.eqb token etag || String.eqb token ("W/" +:+ etag)
  || String.eqb ("W/" +:+ token) etag.

(** [fresh(reqHeaders, resHeaders)], from the [If-None-Match] header of
    the request and the [ETag] header of the response ([None]: the header
    is absent). *)
Definition fresh (none_match etag : option string) : bool :=
  match none_match with
  | None => false
  | Some header =>
      if String.eqb header "" then false
      else if String.eqb header "*" then true
      else
        match etag with
        | None => false
        | Some tag =>
            if String.eqb tag "" then false
            else existsb (matches tag) (token_list header)
        end
  end.

End Fresh.

(** ** The process state and the handler monad *)

(** The node-redis client as the handlers use it: the [isReady] flag, the
    keys of the server with their stored strings, and the outcome of the
    commands still to be sent ([true]: the command is rejected and leaves
    the server as it is; past the end of the list no command fails). *)
Record Client := MkClient {
  isReady : bool;
  db : gmap string string;
  faults : list bool
}.

(** The process: the shared client and the current date, which [moment]
    reads. *)
Record World := MkWorld {
  client : Client;
  today : Moment.date
}.

(** What has been sent to the peer: nothing yet, a reply with no body
    ([res.end()]), or a reply with a JSON body ([res.json(payload)]). *)
Inductive Sent :=
  | Pending
  | SentEmpty
  | SentJson (payload : value).

(** Express's [res], as far as the handlers drive it: the status code,
    the headers set with [res.set], and what has been sent. The headers
    Express adds by itself ([X-Powered-By], [Content-Type],
    [Content-Length], and an [ETag] of the body where the application has
    set none) are not listed. *)
Record Response := MkResponse {
  statusCode : Z;
  headers : list (string * string);
  sent : Sent
}.

(** [res] when a request comes in. *)
Definition fresh_res : Response := MkResponse 200 [] Pending.

(** Express's [req], as far as the handlers read it: [req.body] as the
    JSON body parser left it, [req.params.id], and
    [req.headers['if-none-match']] ([None] when the header is absent). A
    request has no [If-Modified-Since] and no [Cache-Control] header. *)
Record Request := MkRequest {
  body : value;
  params_id : string;
  if_none_match : option string
}.

(** [req.method]. The router runs a handler on the requests of the
    method it was registered for, so the method comes with the route. A
    HEAD request, which Express also gives to the GET route, is not
    modelled. *)
Inductive Method := GET | POST | DELETE.

(** What a call may throw: the TypeError of [etag], of [moment] and of
    the client on a bad argument, the SyntaxError of [JSON.parse], the
    error of a rejected command. *)
Inductive exn :=
  | TypeError (msg : string)
  | SyntaxError
  | RedisError.

(** A call returns a value or throws. *)
Inductive result (A : Type) :=
  | Ok (a : A)
  | Throw (e : exn).
Arguments Ok {A} a.
Arguments Throw {A} e.

(** What a handler works on: the process and the [res] of the request. *)
Record Ctx := MkCtx {
  world : World;
  res : Response
}.

(** A computation that reads and updates the process state and the
    response under construction, and may throw. *)
Definition M (A : Type) : Type := Ctx -> result A * Ctx.

(** Return, sequencing and [throw]. *)
Definition ret {A} (a : A) : M A := fun c => (Ok a, c).

Definition bind {A B} (m : M A) (k : A -> M B) : M B :=
  fun c =>
    match m c with
    | (Ok a, c') => k a c'
    | (Throw e, c') => (Throw e, c')
    end.

Definition throw {A} (e : exn) : M A := fun c => (Throw e, c).

(** [try { m } catch (err) { handler(err) }]. *)
Definition try_catch {A} (m : M A) (handler : exn -> M A) : M A :=
  fun c =>
    match m c with
    | (Ok a, c') => (Ok a, c')
    | (Throw e, c') => handler e c'
    end.

Declare Scope js_scope.
Delimit Scope js_scope with js.
Notation "x <- m ;; k" := (bind m (fun x => k))
  (at level 100, m at next level, right associativity) : js_scope.
Notation "m ;; k" := (bind m (fun _ => k))
  (at level 100, right associativity) : js_scope.
Local Open Scope js_scope.

(** *** The response *)

(** A change of [res]. *)
Definition update_res (f : Response -> Response) : M unit :=
  fun c => (Ok tt, MkCtx (world c) (f (res c))).

(** Setting and reading a header. *)
Fixpoint set_header (field val : string) (hs : list (string * string))
  : list (string * string) :=
  match hs with
  | [] => [(field, val)]
  | (f, v) :: rest =>
      if String.eqb field f then (field, val) :: rest
      else (f, v) :: set_header field val rest
  end.

Fixpoint get_header (field : string) (hs : list (string * string)) : option string :=
  match hs with
  | [] => None
  | (f, v) :: rest => if String.eqb field f then Some v else get_header field rest
  end.

(** [res.set(field, val)]. *)
Definition res_set (field val : string) : M unit :=
  update_res (fun r => MkResponse (statusCode r) (set_header field val (headers r)) (sent r)).

(** [res.status(code)]. *)
Definition res_status (code : Z) : M unit :=
  update_res (fun r => MkResponse code (headers r) (sent r)).

(** The entity tag [res.send] works with: the [ETag] header if the
    application has set one, and otherwise the weak tag Express generates
    from the body. *)
Definition send_etag (r : Response) (payload : value) : string :=
  match get_header "ETag" (headers r) with
  | Some tag => tag
  | None => "W/" +:+ Etag.entitytag (JSON.stringify payload)
  end.

(** [req.fresh], as [res.send] reads it: only a GET whose status is 2xx
    or 304 can be fresh. *)
Definition req_fresh (method : Method) (req : Request) (r : Response)
    (payload : value) : bool :=
  match method with
  | GET =>
      (((200 <=? statusCode r) && (statusCode r <? 300)) || (statusCode r =? 304))
      && Fresh.fresh (if_none_match req) (Some (send_etag r payload))
  | _ => false
  end.

(** [res.json(payload)], which ends in [res.send]: when the request is
    fresh the status becomes 304, and a reply of status 204 or 304 goes
    out with no body. The [ETag] header stays. *)
Definition res_json (method : Method) (req : Request) (payload : value) : M unit :=
  update_res (fun r =>
    let code := if req_fresh method req r payload then 304 else statusCode r in
    MkResponse code (headers r)
      (if (code =? 204) || (code =? 304) then SentEmpty else SentJson payload)).

(** [res.end()]. *)
Definition res_end : M unit :=
  update_res (fun r => MkResponse (statusCode r) (headers r) SentEmpty).

(** *** The Redis client *)

(** Reading the client, replacing it, reading the clock. *)
Definition get_client : M Client := fun c => (Ok (client (world c)), c).

Definition put_client (cl : Client) : M unit :=
  fun c => (Ok tt, MkCtx (MkWorld cl (today (world c))) (res c)).

Definition get_today : M Moment.date := fun c => (Ok (today (world c)), c).

(** One command sent to the server: it is rejected when the client is
    closed or when the next outcome in [faults] says so; otherwise [run]
    is applied to the keys. *)
Definition command {A} (run : gmap string string -> A * gmap string string) : M A :=
  cl <- get_client ;;
  if negb (isReady cl) then throw RedisError
  else
    match faults cl with
    | true :: later => put_client (MkClient (isReady cl) (db cl) later) ;; throw RedisError
    | outcomes =>
        let '(a, db') := run (db cl) in
        put_client (MkClient (isReady cl) db' (tail outcomes)) ;; ret a
    end.

(** A command argument must be a string. *)
Definition command_key (key : JS.maybe) : M string :=
  match key with
  | Some (JStr k) => ret k
  | _ => throw (TypeError "Invalid argument type")
  end.

(** [client.set(key, value)]. *)
Definition client_set (key : JS.maybe) (val : string) : M unit :=
  k <- command_key key ;;
  command (fun m => (tt, <[k := val]> m)).

(** [client.get(key)]: the stored string, or [None] for [null]. *)
Definition client_get (key : JS.maybe) : M (option string) :=
  k <- command_key key ;;
  command (fun m => (m !! k, m)).

(** [client.del(key)]: the number of keys removed. *)
Definition client_del (key : JS.maybe) : M Z :=
  k <- command_key key ;;
  command (fun m => (match m !! k with Some _ => 1 | None => 0 end, delete k m)).

(** *** Library calls that may throw *)

(** [etag(entity)]. *)
Definition etag (entity : option string) : M string :=
  match Etag.etag entity with
  | Some tag => ret tag
  | None => throw (TypeError "argument entity is required")
  end.

(** [JSON.parse(text)], where [text] is first converted to a string. *)
Definition JSON_parse (text : option string) : M value :=
  match JSON.parse (JS.text_to_string text) with
  | Some v => ret v
  | None => throw SyntaxError
  end.

(** [JSON.stringify(v)]. *)
Definition JSON_stringify (v : value) : string := JSON.stringify v.

(** ** server.js *)

(** A middleware gets the request and [next]; it replies or calls [next]
    with the request as it has left it. Where it replies, it is given the
    method of the request as well. *)
Definition middleware : Type := Request -> (Request -> M unit) -> M unit.

(** Middleware to ensure Redis client is connected. *)
Definition ensure_ready (method : Method) : middleware := fun req next =>
  cl <- get_client ;;
  if negb (isReady cl) then
    res_status 500 ;;
    res_json method req (JObj [("error", JStr "Redis client is not connected")])
  else next req.

(** [moment(input, 'DD-MM-YYYY').format('YYYY-MM-DD')] at the current
    date. *)
Definition moment_format (input : value) : M string :=
  now <- get_today ;;
  match Moment.moment_DD_MM_YYYY now input with
  | Moment.Thrown msg => throw (TypeError msg)
  | Moment.Read m => ret (Moment.format_YYYY_MM_DD m)
  end.

(** Function to transform date format. The call of [moment] is in no
    [try]: what it throws leaves the middleware. *)
Definition transformDate : middleware := fun req next =>
  match JS.get (body req) "creationDate" with
  | Some creationDate =>
      if JS.truthy creationDate then
        formatted <- moment_format creationDate ;;
        next (MkRequest (JS.set (body req) "creationDate" (JStr formatted))
                        (params_id req) (if_none_match req))
      else next req
  | None => next req
  end.

(** Middleware for validation. *)
Definition validateSchema (schema : Ajv.schema) (method : Method) : middleware :=
  fun req next =>
  match Ajv.validate schema (body req) with
  | [] => next req
  | errors =>
      res_status 400 ;;
      res_json method req
        (JObj [("message", JStr "Validation failed");
               ("errors", JArr (map Ajv.error_value errors))])
  end.

(** Create Plan (POST): the route handler. *)
Definition create_plan (req : Request) : M unit :=
  try_catch
    (let requestBodyString := JSON_stringify (body req) in
     let objectId := JS.get (body req) "objectId" in
     if negb (JS.truthy_maybe objectId) then
       res_status 400 ;;
       res_json POST req (JObj [("message", JStr "Missing objectId in the request body.")])
     else
       client_set objectId requestBodyString ;;
       dataString <- client_get objectId ;;
       generatedEtag <- etag dataString ;;
       res_set "ETag" generatedEtag ;;
       res_status 201 ;;
       parsed <- JSON_parse dataString ;;
       res_json POST req parsed)
    (fun err =>
       res_status 500 ;;
       res_json POST req (JObj [("error", JStr "Error creating plan")])).

(** Read Plan (GET): the route handler. *)
Definition read_plan (req : Request) : M unit :=
  try_catch
    (let key := params_id req in
     dataString <- client_get (Some (JStr key)) ;;
     if negb (JS.truthy_text dataString) then
       res_status 404 ;;
       res_json GET req (JObj [("error", JStr "Plan not found")])
     else
       etagHeader <- etag dataString ;;
       if bool_decide (if_none_match req = Some etagHeader) then
         res_status 304 ;;
         res_end
       else
         res_set "ETag" etagHeader ;;
         res_status 200 ;;
         parsed <- JSON_parse dataString ;;
         res_json GET req parsed)
    (fun err =>
       res_status 500 ;;
       res_json GET req (JObj [("error", JStr "Error retrieving plan")])).

(** Delete Plan (DELETE): the route handler. *)
Definition delete_plan (req : Request) : M unit :=
  try_catch
    (let key := params_id req in
     result <- client_del (Some (JStr key)) ;;
     if result =? 0 then
       res_status 404 ;;
       res_json DELETE req (JObj [("error", JStr "Plan not found")])
     else
       res_status 200 ;;
       res_json DELETE req (JObj [("message", JStr "Plan deleted successfully")]))
    (fun err =>
       res_status 500 ;;
       res_json DELETE req (JObj [("error", JStr "Error deleting plan")])).

(** What comes of one request: a reply of the route; an exception that
    has left the route, which Express catches and hands to its final
    handler (the peer gets a 500 with an error page, and the process goes
    on); or nothing. *)
Inductive Outcome :=
  | Replied (r : Response)
  | Uncaught (e : exn)
  | NoReply.

(** One request through a route: a fresh [res], the route run against the
    process state, and what came of it. *)
Definition serve (route : Request -> M unit) (req : Request) (w : World)
  : Outcome * World :=
  match route req (MkCtx w fresh_res) with
  | (Ok _, c) =>
      (match sent (res c) with
       | Pending => NoReply
       | _ => Replied (res c)
       end, world c)
  | (Throw e, c) => (Uncaught e, world c)
  end.

Section Routes.

(** [planSchema], the export of [./schema]. *)
Variable planSchema : Ajv.schema.

(** [app.post('/v1/plan', transformDate, validateSchema(planSchema), ...)]
    behind the readiness middleware. *)
Definition POST_v1_plan : Request -> M unit := fun req =>
  ensure_ready POST req (fun req =>
    transformDate req (fun req =>
      validateSchema planSchema POST req create_plan)).

(** [app.get('/v1/plan/:id', ...)] behind the readiness middleware. *)
Definition GET_v1_plan : Request -> M unit := fun req =>
  ensure_ready GET req read_plan.

(** [app.delete('/v1/plan/:id', ...)] behind the readiness middleware. *)
Definition DELETE_v1_plan : Request -> M unit := fun req =>
  ensure_ready DELETE req delete_plan.

End Routes.

(** The routes registered on [app]. *)
Inductive Route :=
  | POST_plan
  | GET_plan
  | DELETE_plan.

(** [app]: a request goes through the route it names. *)
Definition app (planSchema : Ajv.schema) (route : Route) : Request -> M unit :=
  match route with
  | POST_plan => POST_v1_plan planSchema
  | GET_plan => GET_v1_plan
  | DELETE_plan => DELETE_v1_plan
  end.

(** Requests to [app], one after the other. *)
Fixpoint serve_calls (planSchema : Ajv.schema) (calls : list (Route * Request))
    (w : World) : list Outcome * World :=
  match calls with
  | [] => ([], w)
  | (route, req) :: rest =>
      let '(o, w1) := serve (app planSchema route) req w in
      let '(os, w2) := serve_calls planSchema rest w1 in
      (o :: os, w2)
  end.

(** ** Notions used in the statements *)

(** The body [transformDate] hands to the next middleware when the
    current date is [now]. Where [moment] throws there is no such body,
    and [normalized] is the body as it came. *)
Definition normalized (now : Moment.date) (doc : value) : value :=
  match JS.get doc "creationDate" with
  | Some creationDate =>
      if JS.truthy creationDate then
        match Moment.moment_DD_MM_YYYY now creationDate with
        | Moment.Read m => JS.set doc "creationDate" (JStr (Moment.format_YYYY_MM_DD m))
        | Moment.Thrown _ => doc
        end
      else doc
  | None => doc
  end.

(** The message of the TypeError [transformDate] throws on a body, if it
    throws. *)
Definition date_error (doc : value) : option string :=
  match JS.get doc "creationDate" with
  | Some creationDate =>
      if JS.truthy creationDate then
        match Moment.config_input creationDate with
        | Moment.Unreadable msg => Some msg
        | Moment.Text _ => None
        end
      else None
  | None => None
  end.

(** [moment] reads the [creationDate] of the body, if it has a truthy
    one: [transformDate] does not throw. So it is for every
    [creationDate] that is a string, a number or a boolean. *)
Definition readable_date (doc : value) : Prop := date_error doc = None.

(** The request with another body. *)
Definition with_body (req : Request) (doc : value) : Request :=
  MkRequest doc (params_id req) (if_none_match req).

(** The client is connected. *)
Definition ready (w : World) : Prop := isReady (client w) = true.

(** The server accepts the next [n] commands. *)
Definition calm (n : nat) (w : World) : Prop :=
  forallb negb (take n (faults (client w))) = true.

(** The world after [n] accepted commands that left the keys as [m]. *)
Definition after_commands (n : nat) (m : gmap string string) (w : World) : World :=
  MkWorld (MkClient (isReady (client w)) m (drop n (faults (client w)))) (today w).

(** A stored record: the text [JSON.stringify] gives for a document. *)
Definition stored_record (text : string) : Prop :=
  exists doc, JS.well_formed doc = true /\ text = JSON.stringify doc.

(** Every key of the server holds a stored record. *)
Definition stored_records (m : gmap string string) : Prop :=
  forall k text, m !! k = Some text -> stored_record text.

(** The keys of the process. *)
Definition keys (w : World) : gmap string string := db (client w).

(** The value of a response header, if the header is set. *)
Definition header (field : string) (o : Outcome) : option string :=
  match o with
  | Replied r => get_header field (headers r)
  | _ => None
  end.

(** The status of a reply. *)
Definition status (o : Outcome) : option Z :=
  match o with
  | Replied r => Some (statusCode r)
  | _ => None
  end.

(** The [errors] list of a validation-failure body. *)
Definition error_list (o : Outcome) : list value :=
  match o with
  | Replied r =>
      match sent r with
      | SentJson payload =>
          match JS.get payload "errors" with
          | Some (JArr errs) => errs
          | _ => []
          end
      | _ => []
      end
  | _ => []
  end.

(** A text of two digits, a dash, two digits, a dash and four digits. *)
Definition dd_mm_yyyy (d1 d2 m1 m2 y1 y2 y3 y4 : ascii) : string :=
  String d1 (String d2 (String "-" (String m1 (String m2
    (String "-" (String y1 (String y2 (String y3 (String y4 ""))))))))).

(** The same digits as year, month, day. *)
Definition yyyy_mm_dd (d1 d2 m1 m2 y1 y2 y3 y4 : ascii) : string :=
  String y1 (String y2 (String y3 (String y4 (String "-"
    (String m1 (String m2 (String "-" (String d1 (String d2 ""))))))))).

(** The calendar date such a text writes. *)
Definition written_date (d1 d2 m1 m2 y1 y2 y3 y4 : ascii) : Moment.date :=
  Moment.Date (Moment.to_int (String y1 (String y2 (String y3 (String y4 "")))))
              (Moment.to_int (String m1 (String m2 "")))
              (Moment.to_int (String d1 (String d2 ""))).

(** What the forgiving parser reads from a text YYYY-MM-DD under the
    format DD-MM-YYYY: the first two digits of the year as the day, and
    the two digits of the day as a two-digit year. *)
Definition reread_date (d1 d2 m1 m2 y1 y2 : ascii) : Moment.date :=
  Moment.Date (Moment.parse_year (String d1 (String d2 "")))
              (Moment.to_int (String m1 (String m2 "")))
              (Moment.to_int (String y1 (String y2 ""))).

(** Requests one after the other through one route. *)
Fixpoint serve_all (route : Request -> M unit) (reqs : list Request) (w : World)
  : list Outcome * World :=
  match reqs with
  | [] => ([], w)
  | req :: rest =>
      let '(o, w1) := serve route req w in
      let '(os, w2) := serve_all route rest w1 in
      (o :: os, w2)
  end.

(** The reply to a GET whose command was accepted, from what the key
    holds. *)
Definition read_reply (req : Request) (stored : option string) : Response :=
  if negb (JS.truthy_text stored) then
    MkResponse 404 [] (SentJson (JObj [("error", JStr "Plan not found")]))
  else
    let text := JS.text_to_string stored in
    if bool_decide (if_none_match req = Some (Etag.entitytag text)) then
      MkResponse 304 [] SentEmpty
    else
      match JSON.parse text with
      | Some doc =>
          if Fresh.fresh (if_none_match req) (Some (Etag.entitytag text))
          then MkResponse 304 [("ETag", Etag.entitytag text)] SentEmpty
          else MkResponse 200 [("ETag", Etag.entitytag text)] (SentJson doc)
      | None =>
          MkResponse 500 [("ETag", Etag.entitytag text)]
            (SentJson (JObj [("error", JStr "Error retrieving plan")]))
      end.

(** Whatever [m] returns normally, by then a reply has been sent. *)
Definition replies (m : M unit) : Prop :=
  forall c, match m c with
            | (Ok _, c') => sent (res c') <> Pending
            | (Throw _, _) => True
            end.

(** [m] keeps the property [I] of the keys. *)
Definition preserves {A} (I : gmap string string -> Prop) (m : M A) : Prop :=
  forall c, I (db (client (world c))) -> I (db (client (world (snd (m c))))).

(** [m] returns normally and has sent a reply. *)
Definition answers (m : M unit) : Prop :=
  forall c, exists c', m c = (Ok tt, c') /\ sent (res c') <> Pending.

(** *** A schema and a process for the examples *)

(** Modelled from the spec: [planSchema], the export of [./schema], which
    the sources do not include. The spec fixes two attributes: [objectId],
    a required string, and [creationDate], a string; [plan] is the domain
    field of its example scenario. *)
Definition examplePlanSchema : Ajv.schema :=
  let str := Ajv.Schema (Some Ajv.TString) [] [] None in
  Ajv.Schema (Some Ajv.TObject) ["objectId"]
    [("objectId", str); ("creationDate", str); ("plan", str)] None.

(** A connected client on an empty server, on 2 November 2026. *)
Definition exampleWorld : World :=
  MkWorld (MkClient true ∅ []) (Moment.Date 2026 11 2).

(** The document of the spec's example scenario. *)
Definition exampleDoc : value :=
  JObj [("objectId", JStr "abc123"); ("creationDate", JStr "25-12-2023");
        ("plan", JStr "gold")].

(** The document of the scenario, normalized. *)
Definition exampleNormalized : value :=
  JObj [("objectId", JStr "abc123"); ("creationDate", JStr "2023-12-25");
        ("plan", JStr "gold")].

(** The process after the document of the scenario has been written. *)
Definition exampleStored : World :=
  snd (serve (POST_v1_plan examplePlanSchema) (MkRequest exampleDoc "" None) exampleWorld).

(** The fingerprint of the stored record of the scenario. *)
Definition exampleTag : string := Etag.entitytag (JSON_stringify exampleNormalized).

(** A request for the key of the scenario. *)
Definition exampleGet (token : option string) : Request :=
  MkRequest JNull "abc123" token.

(** A second document under the same identifier. *)
Definition exampleDoc' : value :=
  JObj [("objectId", JStr "abc123"); ("plan", JStr "silver")].

(** The example process with its client not ready. *)
Definition exampleDown : World :=
  MkWorld (MkClient false (keys exampleStored) []) (today exampleWorld).

(** The example process when the server rejects the next command. *)
Definition exampleFailing : World :=
  MkWorld (MkClient true (keys exampleStored) [true]) (today exampleWorld).

(** The example process when the server accepts the next command and
    rejects the one after it. *)
Definition exampleTorn : World :=
  MkWorld (MkClient true (keys exampleWorld) [false; true]) (today exampleWorld).

(** A server with two keys that no write of this application has left:
    a text that is not JSON, and the empty text. *)
Definition exampleForeign : World :=
  MkWorld (MkClient true (<["blank" := ""]> {["abc123" := "gold"]}) [])
          (today exampleWorld).

(** A schema that accepts every body. *)
Definition exampleOpenSchema : Ajv.schema := Ajv.Schema None [] [] None.

(** A schema with an object inside the object: [plan] has a required
    string [name]. *)
Definition exampleNestedSchema : Ajv.schema :=
  let str := Ajv.Schema (Some Ajv.TString) [] [] None in
  Ajv.Schema (Some Ajv.TObject) ["objectId"]
    [("objectId", str);
     ("plan", Ajv.Schema (Some Ajv.TObject) ["name"] [("name", str)] None)] None.

(** A document whose [objectId] is a number. *)
Definition exampleNumbered : value :=
  JObj [("objectId", JNum 7); ("plan", JStr "gold")].

(** A document whose [creationDate] is an object with a property
    [toString], and one whose [creationDate] passes for a moment. *)
Definition exampleUnreadable : value :=
  JObj [("objectId", JStr "abc123"); ("creationDate", JObj [("toString", JNum 1)])].

Definition exampleMomentLike : value :=
  JObj [("objectId", JStr "abc123");
        ("creationDate", JObj [("_isAMomentObject", JBool true)])].

(** The weak form of the fingerprint of the scenario. *)
Definition exampleWeakTag : string := "W/" +:+ exampleTag.

(* ================================================================== *)
(** * Part II. Properties *)
(* ================================================================== *)

(** ** The library models on known values *)

(** SHA-1 of "abc", in base64. *)
Example sha1_abc :
  Etag.base64 9 (Etag.sha1 (Etag.bytes_of_string "abc")) = "qZk+NkcGgWq6PiVxeFDCbJzQ2J0=".
Proof. vm_compute. reflexivity. Qed.

(** The tag of the empty entity, which the package writes out as a constant. *)
Example entitytag_empty :
  Etag.entitytag ""
  = String JSON.dquote ("0-2jmj7l5rSw0yVb/vlWAYkK/YBwk" +:+ String JSON.dquote "").
Proof. vm_compute. reflexivity. Qed.

Example entitytag_hello :
  Etag.entitytag "Hello World"
  = String JSON.dquote ("b-Ck1VqNd45QIvq3AZd8XYQLvEhtA" +:+ String JSON.dquote "").
Proof. vm_compute. reflexivity. Qed.

Example moment_examples :
  map (fun v =>
         match Moment.moment_DD_MM_YYYY (Moment.Date 2026 11 2) v with
         | Moment.Read m => Some (Moment.format_YYYY_MM_DD m)
         | Moment.Thrown _ => None
         end)
      [JStr "25-12-2023"; JStr "5/1/2023"; JStr "29-02-2024"; JStr "31-02-2023";
       JStr "2023-12-25"; JStr "soon"; JNum 25; JNum 31; JBool true;
       JArr [JStr "25-12-2023"]; JObj []; JObj [("valueOf", JNum 1)];
       JObj [("toString", JNum 1)]; JArr [JObj [("toString", JNull)]];
       JObj [("_isAMomentObject", JBool false)]; JObj [("_isAMomentObject", JNull)]]
  = [Some "2023-12-25"; Some "2023-01-05"; Some "2024-02-29"; Some "Invalid date";
     Some "2025-12-20"; Some "Invalid date"; Some "2026-11-25"; Some "Invalid date";
     Some "Invalid date"; Some "2023-12-25"; Some "Invalid date"; Some "Invalid date";
     None; None; None; Some "Invalid date"].
Proof. vm_compute. reflexivity. Qed.

Example parse_examples :
  map JSON.parse ["[1, -20 ,[true,null], {}]"; " 007"; "[1,]"; "nul"; "gold"; ""]
  = [Some (JArr [JNum 1; JNum (-20); JArr [JBool true; JNull]; JObj []]);
     None; None; None; None; None].
Proof. vm_compute. reflexivity. Qed.

Example fresh_examples :
  map (fun header => Fresh.fresh (Some header) (Some "tag"))
      ["tag"; "W/tag"; "*"; "other, tag"; " a b ,W/tag "; "other"; "ta"; ""]
  = [true; true; true; true; true; false; false; false]
  /\ Fresh.token_list " a b ,W/tag , " = ["a b"; "W/tag"; ""]
  /\ Fresh.fresh (Some "tag") (Some "W/tag") = true
  /\ Fresh.fresh None (Some "tag") = false.
Proof. vm_compute. repeat split. Qed.

Example validate_examples :
  Ajv.validate examplePlanSchema exampleNormalized = []
  /\ Ajv.validate examplePlanSchema (JObj [("plan", JStr "gold")])
     = [Ajv.required_error "" "#" "objectId"]
  /\ Ajv.validate examplePlanSchema (JObj [("objectId", JStr "a"); ("plan", JNum 7)])
     = [Ajv.type_error "/plan" "#/properties/plan" Ajv.TString]
  /\ Ajv.validate examplePlanSchema (JArr [])
     = [Ajv.type_error "" "#" Ajv.TObject]
  /\ Ajv.validate exampleNestedSchema (JObj [("objectId", JStr "a"); ("plan", JObj [])])
     = [Ajv.required_error "/plan" "#/properties/plan" "name"].
Proof. repeat split. Qed.

(** A name every object inherits is never missing, and what is inherited
    under it is a function, of none of the types. *)
Example inherited_examples :
  Ajv.validate (Ajv.Schema (Some Ajv.TObject) ["constructor"] [] None) (JObj []) = []
  /\ Ajv.validate (Ajv.Schema None ["constructor"] [] None) (JArr []) = []
  /\ Ajv.validate
       (Ajv.Schema None [] [("toString", Ajv.Schema (Some Ajv.TString) [] [] None)] None)
       (JObj [])
     = [Ajv.type_error "/toString" "#/properties/toString" Ajv.TString].
Proof. repeat split. Qed.

(** The scenario of the spec: write, conditional read, plain read, delete,
    read. *)
Example scenario :
  let post := MkRequest exampleDoc "" None in
  let '(o1, w1) := serve (POST_v1_plan examplePlanSchema) post exampleWorld in
  let '(o2, w2) := serve GET_v1_plan (exampleGet (Some exampleTag)) w1 in
  let '(o3, w3) := serve GET_v1_plan (exampleGet None) w2 in
  let '(o4, w4) := serve DELETE_v1_plan (exampleGet None) w3 in
  let '(o5, w5) := serve GET_v1_plan (exampleGet None) w4 in
  o1 = Replied (MkResponse 201 [("ETag", exampleTag)] (SentJson exampleNormalized))
  /\ status o2 = Some 304
  /\ o3 = Replied (MkResponse 200 [("ETag", exampleTag)] (SentJson exampleNormalized))
  /\ status o4 = Some 200
  /\ status o5 = Some 404.
Proof. vm_compute. repeat split. Qed.

(** ** Strings *)

#[local] Arguments String.append !s1 s2 : simpl nomatch.

Lemma append_assoc (a b c : string) : (a +:+ b) +:+ c = a +:+ (b +:+ c).
Proof. induction a as [|x a IH]; cbn; [reflexivity | now f_equal]. Qed.

Lemma append_nil_r (a : string) : a +:+ "" = a.
Proof. induction a as [|x a IH]; cbn; [reflexivity | now f_equal]. Qed.

Lemma length_append (a b : string) :
  String.length (a +:+ b) = (String.length a + String.length b)%nat.
Proof. induction a as [|x a IH]; cbn; [reflexivity | now f_equal]. Qed.

(** ** [JSON.parse] undoes [JSON.stringify] *)

Module JSONFacts.
Import JSON.

Lemma boundary_comma r : boundary (String "," r).
Proof. right; eauto. Qed.

Lemma boundary_bracket r : boundary (String "]" r).
Proof. right; eauto 6. Qed.

Lemma boundary_brace r : boundary (String "}" r).
Proof. right; eauto 6. Qed.

#[local] Hint Resolve boundary_comma boundary_bracket boundary_brace : core.

(** A string literal reads back as the string it quotes. *)
Lemma parse_string_body_quote (s rest : string) :
  parse_string_body (quote_body s +:+ String dquote rest) = Some (s, rest).
Proof.
  induction s as [|c s IH].
  - reflexivity.
  - change (quote_body (String c s)) with (quote_char c +:+ quote_body s).
    rewrite append_assoc.
    destruct c as [[] [] [] [] [] [] [] []];
      match goal with |- context [quote_char ?c] =>
        let q := eval vm_compute in (quote_char c) in change (quote_char c) with q
      end;
      simpl; rewrite IH; reflexivity.
Qed.

(** *** Numbers *)

Lemma boundary_no_digit rest : boundary rest -> no_digit_head rest.
Proof.
  intros [-> | (c & r & -> & [-> | [-> | ->]])]; reflexivity.
Qed.

Lemma boundary_no_fraction rest : boundary rest -> starts_fraction rest = false.
Proof.
  intros [-> | (c & r & -> & [-> | [-> | ->]])]; reflexivity.
Qed.

Lemma scan_digits_uint (d : Decimal.uint) (rest : string) :
  no_digit_head rest ->
  scan_digits (JS.string_of_uint d +:+ rest) = (d, rest).
Proof.
  intros Hrest.
  induction d; simpl; try (rewrite IHd; reflexivity).
  destruct rest as [|c r]; simpl in *; [reflexivity | now rewrite Hrest].
Qed.

Lemma nzhead_not_zero (d : Decimal.uint) :
  match Decimal.nzhead d with Decimal.D0 _ => False | _ => True end.
Proof. induction d; simpl; auto. Qed.

Lemma bad_int_unorm (d : Decimal.uint) : bad_int (Decimal.unorm d) = false.
Proof.
  unfold Decimal.unorm. pose proof (nzhead_not_zero d) as H.
  destruct (Decimal.nzhead d); simpl; auto. contradiction.
Qed.

Lemma to_uint_normal (n : N) : N.to_uint n = Decimal.unorm (N.to_uint n).
Proof.
  rewrite <- DecimalN.Unsigned.to_of. now rewrite DecimalN.Unsigned.of_to.
Qed.

Lemma bad_int_to_uint (n : N) : bad_int (N.to_uint n) = false.
Proof. rewrite to_uint_normal. apply bad_int_unorm. Qed.

Lemma parse_nat_string_of_N (n : N) (rest : string) :
  boundary rest ->
  parse_nat (JS.string_of_N n +:+ rest) = Some (n, rest).
Proof.
  intros Hb. unfold parse_nat, JS.string_of_N.
  rewrite scan_digits_uint by now apply boundary_no_digit.
  rewrite bad_int_to_uint, boundary_no_fraction by assumption. simpl.
  now rewrite DecimalN.Unsigned.of_to.
Qed.

(** The first character of a number's digits: a digit, so not a dash. *)
Lemma string_of_uint_head (d : Decimal.uint) :
  d <> Decimal.Nil ->
  exists c s, JS.string_of_uint d = String c s
              /\ digit_of c <> None /\ Ascii.eqb c "-" = false.
Proof.
  destruct d; intros H; try congruence; simpl; do 2 eexists;
    (split; [reflexivity | split; [discriminate | reflexivity]]).
Qed.

Lemma to_uint_not_nil (n : N) : N.to_uint n <> Decimal.Nil.
Proof.
  intros H. pose proof (bad_int_to_uint n) as Hb. rewrite H in Hb. discriminate.
Qed.

Lemma parse_number_string_of_Z (z : Z) (rest : string) :
  boundary rest ->
  parse_number (JS.string_of_Z z +:+ rest) = Some (JNum z, rest).
Proof.
  intros Hb. destruct z as [|p|p]; simpl JS.string_of_Z.
  - change ("0" +:+ rest) with (JS.string_of_N 0 +:+ rest).
    change (parse_number (JS.string_of_N 0 +:+ rest))
      with (match parse_nat (JS.string_of_N 0 +:+ rest) with
            | Some (n, r) => Some (JNum (Z.of_N n), r)
            | None => None
            end).
    now rewrite parse_nat_string_of_N.
  - pose proof (parse_nat_string_of_N (N.pos p) rest Hb) as Hn.
    destruct (string_of_uint_head (N.to_uint (N.pos p)) (to_uint_not_nil _))
      as (c & s & Hs & _ & Hc).
    unfold JS.string_of_N in *. rewrite Hs in *. simpl.
    rewrite Hc. simpl in Hn. rewrite Hn. reflexivity.
  - simpl. rewrite parse_nat_string_of_N by assumption. reflexivity.
Qed.

(** A text that starts with a digit or a dash is read as a number. *)
Lemma parse_value_number (fuel : nat) (c : ascii) (r : string) :
  digit_of c <> None \/ c = "-"%char ->
  parse_value (S fuel) (String c r) = parse_number (String c r).
Proof.
  intros H.
  destruct c as [[] [] [] [] [] [] [] []];
    first [ reflexivity
          | exfalso; destruct H as [H | H]; [apply H; reflexivity | discriminate H] ].
Qed.

Lemma parse_value_num (fuel : nat) (z : Z) (rest : string) :
  boundary rest ->
  parse_value (S fuel) (JS.string_of_Z z +:+ rest) = Some (JNum z, rest).
Proof.
  intros Hb. rewrite <- (parse_number_string_of_Z z rest Hb).
  destruct z as [|p|p]; simpl JS.string_of_Z.
  - apply parse_value_number. left. discriminate.
  - destruct (string_of_uint_head (N.to_uint (N.pos p)) (to_uint_not_nil _))
      as (c & s & Hs & Hd & _).
    unfold JS.string_of_N. rewrite Hs. simpl. apply parse_value_number. now left.
  - simpl. reflexivity.
Qed.

(** *** Objects *)

Lemma define_prop_fresh (k : string) (v : value) (acc : list (string * value)) :
  k ∉ map fst acc -> JS.define_prop k v acc = acc ++ [(k, v)].
Proof.
  induction acc as [|[k' v'] acc IH]; intros Hk; simpl; [reflexivity|].
  simpl in Hk. apply not_elem_of_cons in Hk as [Hne Hk].
  destruct (String.eqb_spec k k') as [->|_]; [congruence|].
  now rewrite IH.
Qed.

Lemma fold_define_nodup (l acc : list (string * value)) :
  NoDup (map fst (acc ++ l)) ->
  fold_left (fun a kv => JS.define_prop (fst kv) (snd kv) a) l acc = acc ++ l.
Proof.
  revert acc. induction l as [|[k v] l IH]; intros acc Hnd; simpl.
  - now rewrite app_nil_r.
  - rewrite define_prop_fresh.
    + rewrite IH; rewrite <- app_assoc; [reflexivity | exact Hnd].
    + rewrite map_app in Hnd. simpl in Hnd.
      apply NoDup_app in Hnd as (_ & Hdis & _).
      intros Hin. apply (Hdis k Hin). now left.
Qed.

(** Members with distinct keys denote the object that lists them. *)
Lemma object_of_nodup (l : list (string * value)) :
  NoDup (map fst l) -> object_of l = l.
Proof. intros H. unfold object_of. now rewrite fold_define_nodup. Qed.

(** *** Values *)

Lemma quote_head (s : string) : quote s = String dquote (quote_body s +:+ String dquote "").
Proof. reflexivity. Qed.

Lemma stringify_head (v : value) :
  exists c r, stringify v = String c r /\ value_head c.
Proof.
  destruct v as [|[]|z|s|l|l]; simpl; try (do 2 eexists; split; [reflexivity | now compute]).
  destruct z as [|p|p]; simpl; try (do 2 eexists; split; [reflexivity | now compute]).
  destruct (string_of_uint_head (N.to_uint (N.pos p)) (to_uint_not_nil _))
    as (c & s & Hs & Hd & _).
  unfold JS.string_of_N. rewrite Hs. exists c, s. split; [reflexivity|].
  destruct c as [[] [] [] [] [] [] [] []];
    first [ now compute | exfalso; apply Hd; reflexivity ].
Qed.

Lemma parse_elements_S (fuel : nat) (s : string) :
  parse_elements (S fuel) s =
    match parse_value fuel s with
    | None => None
    | Some (v, rest) =>
        match skip_ws rest with
        | String c r =>
            if Ascii.eqb c "," then
              match parse_elements fuel r with
              | Some (vs, rest') => Some (v :: vs, rest')
              | None => None
              end
            else if Ascii.eqb c "]" then Some ([v], r)
            else None
        | EmptyString => None
        end
    end.
Proof. reflexivity. Qed.

Lemma parse_elements_join (l : list value) :
  Forall reads_back l -> l <> [] ->
  forall fuel rest,
    (elements_size l <= fuel)%nat -> forallb JS.well_formed l = true ->
    parse_elements fuel (JS.join "," (map stringify l) +:+ String "]" rest)
    = Some (l, rest).
Proof.
  induction 1 as [|x l Hx Hl IH]; intros Hne fuel rest Hfuel Hwf; [congruence|].
  unfold elements_size in Hfuel. simpl in Hfuel, Hwf.
  apply andb_prop in Hwf as [Hwx Hwl].
  destruct fuel as [|fuel]; [lia|].
  destruct l as [|y l].
  - simpl JS.join. rewrite parse_elements_S.
    rewrite Hx by (auto; lia). reflexivity.
  - change (JS.join "," (map stringify (x :: y :: l)))
      with (stringify x +:+ "," +:+ JS.join "," (map stringify (y :: l))).
    rewrite append_assoc, parse_elements_S.
    rewrite Hx by (simpl; auto; lia).
    simpl skip_ws. cbv iota. simpl Ascii.eqb. cbv iota.
    fold (elements_size (y :: l)) in Hfuel.
    rewrite IH by (try congruence; try assumption; lia).
    reflexivity.
Qed.

#[local] Arguments member_text : simpl never.

Lemma parse_members_S (fuel : nat) (s : string) :
  parse_members (S fuel) s =
    match skip_ws s with
    | String q r =>
        if Ascii.eqb q dquote then
          match parse_string_body r with
          | None => None
          | Some (k', rest0) =>
              match skip_ws rest0 with
              | String c r1 =>
                  if Ascii.eqb c ":" then
                    match parse_value fuel r1 with
                    | None => None
                    | Some (v', rest1) => after_member fuel k' v' rest1
                    end
                  else None
              | EmptyString => None
              end
          end
        else None
    | EmptyString => None
    end.
Proof. reflexivity. Qed.

Lemma parse_member (k : string) (v : value) (fuel : nat) (rest : string) :
  reads_back v -> (size v <= fuel)%nat -> boundary rest -> JS.well_formed v = true ->
  forall A (cont : string -> value -> string -> option A),
    match skip_ws (member_text (k, v) +:+ rest) with
    | String q r =>
        if Ascii.eqb q dquote then
          match parse_string_body r with
          | None => None
          | Some (k', rest0) =>
              match skip_ws rest0 with
              | String c r1 =>
                  if Ascii.eqb c ":" then
                    match parse_value fuel r1 with
                    | None => None
                    | Some (v', rest1) => cont k' v' rest1
                    end
                  else None
              | EmptyString => None
              end
          end
        else None
    | EmptyString => None
    end = cont k v rest.
Proof.
  intros Hv Hfuel Hb Hwf A cont.
  unfold member_text, quote. simpl fst; simpl snd.
  rewrite !append_assoc. simpl. rewrite ?append_assoc. simpl.
  rewrite parse_string_body_quote. simpl.
  now rewrite Hv.
Qed.

Lemma parse_members_join (l : list (string * value)) :
  Forall (fun kv => reads_back (snd kv)) l -> l <> [] ->
  forall fuel rest,
    (members_size l <= fuel)%nat ->
    forallb (fun kv => JS.well_formed (snd kv)) l = true ->
    parse_members fuel (JS.join "," (map member_text l) +:+ String "}" rest)
    = Some (l, rest).
Proof.
  induction 1 as [|[k v] l Hx Hl IH]; intros Hne fuel rest Hfuel Hwf; [congruence|].
  unfold members_size in Hfuel. simpl in Hfuel, Hwf, Hx.
  apply andb_prop in Hwf as [Hwx Hwl].
  destruct fuel as [|fuel]; [lia|].
  destruct l as [|y l].
  - simpl JS.join. rewrite parse_members_S.
    rewrite (parse_member k v fuel (String "}" rest)) by (auto; lia).
    reflexivity.
  - change (JS.join "," (map member_text ((k, v) :: y :: l)))
      with (member_text (k, v) +:+ "," +:+ JS.join "," (map member_text (y :: l))).
    rewrite append_assoc, parse_members_S.
    rewrite (parse_member k v fuel) by (simpl; auto; lia).
    unfold after_member. simpl skip_ws. cbv iota. simpl Ascii.eqb. cbv iota.
    fold (members_size (y :: l)) in Hfuel.
    rewrite IH by (try congruence; try assumption; lia).
    reflexivity.
Qed.

Lemma join_head (f : value -> string) (x : value) (l : list value) (rest : string) :
  (forall v, exists c r, f v = String c r /\ value_head c) ->
  exists c r, JS.join "," (map f (x :: l)) +:+ rest = String c r /\ value_head c.
Proof.
  intros Hf. destruct (Hf x) as (c & r & Hc & Hh).
  destruct l as [|y l]; simpl; rewrite Hc; simpl; eauto.
Qed.

Lemma array_text (l : list value) (rest : string) :
  stringify (JArr l) +:+ rest
  = String "[" (JS.join "," (map stringify l) +:+ String "]" rest).
Proof. simpl. now rewrite append_assoc. Qed.

Lemma object_text (l : list (string * value)) (rest : string) :
  stringify (JObj l) +:+ rest
  = String "{" (JS.join "," (map member_text l) +:+ String "}" rest).
Proof. simpl. now rewrite append_assoc. Qed.

Lemma parse_value_array (fuel : nat) (c : ascii) (r : string) :
  value_head c ->
  parse_value (S fuel) (String "[" (String c r))
  = match parse_elements fuel (String c r) with
    | Some (vs, rest) => Some (JArr vs, rest)
    | None => None
    end.
Proof. intros (Hws & Hbr & _). simpl. now rewrite Hws, Hbr. Qed.

Lemma parse_value_object (fuel : nat) (r : string) :
  parse_value (S fuel) (String "{" (String dquote r))
  = match parse_members fuel (String dquote r) with
    | Some (ms, rest) => Some (JObj (object_of ms), rest)
    | None => None
    end.
Proof. reflexivity. Qed.

Lemma reads_back_all (v : value) : reads_back v.
Proof.
  induction v as [| b | z | s | l IH | l IH] using JS.value_ind;
    intros fuel rest Hfuel Hb Hwf;
    (destruct fuel as [|fuel]; [simpl in Hfuel; lia|]).
  - reflexivity.
  - destruct b; reflexivity.
  - now apply parse_value_num.
  - simpl stringify. unfold quote. simpl. rewrite append_assoc. simpl.
    now rewrite parse_string_body_quote.
  - destruct l as [|x l]; [reflexivity|].
    simpl in Hfuel, Hwf. apply Nat.succ_le_mono in Hfuel.
    pose proof (parse_elements_join (x :: l) IH ltac:(congruence) fuel rest
                  Hfuel Hwf) as Hp.
    rewrite array_text.
    destruct (join_head stringify x l (String "]" rest) stringify_head)
      as (c & r & Hc & Hhead).
    rewrite Hc, parse_value_array by assumption.
    rewrite <- Hc, Hp. reflexivity.
  - destruct l as [|[k x] l]; [reflexivity|].
    simpl in Hfuel, Hwf. apply Nat.succ_le_mono in Hfuel.
    apply andb_prop in Hwf as [Hnd Hwf]. apply bool_decide_eq_true in Hnd.
    pose proof (parse_members_join ((k, x) :: l) IH ltac:(congruence) fuel rest
                  Hfuel Hwf) as Hp.
    rewrite object_text.
    assert (exists r, JS.join "," (map member_text ((k, x) :: l)) +:+ String "}" rest
                      = String dquote r) as [r Hr].
    { destruct l; simpl; unfold member_text, quote; simpl; eauto. }
    rewrite Hr, parse_value_object. rewrite <- Hr, Hp.
    now rewrite (object_of_nodup ((k, x) :: l) Hnd).
Qed.

Lemma join_length_bound {A} (f : A -> string) (g : A -> nat) (l : list A) :
  Forall (fun x => (g x <= String.length (f x))%nat) l ->
  (list_sum (map (fun x => S (g x)) l) <= S (String.length (JS.join "," (map f l))))%nat.
Proof.
  induction 1 as [|x l Hx Hl IH]; [simpl; lia|].
  destruct l as [|y l]; [simpl; lia|].
  change (JS.join "," (map f (x :: y :: l)))
    with (f x +:+ "," +:+ JS.join "," (map f (y :: l))).
  rewrite !length_append.
  change (list_sum (map (fun x => S (g x)) (x :: y :: l)))
    with (S (g x) + list_sum (map (fun x => S (g x)) (y :: l)))%nat.
  remember (JS.join "," (map f (y :: l))) as tail_text.
  remember (list_sum (map (fun x => S (g x)) (y :: l))) as tail_size.
  simpl String.length. lia.
Qed.

(** The text is long enough to serve as fuel. *)
Lemma size_le_length (v : value) : (size v <= String.length (stringify v))%nat.
Proof.
  induction v as [| b | z | s | l IH | l IH] using JS.value_ind.
  - simpl; lia.
  - destruct b; simpl; lia.
  - destruct z as [|p|p]; simpl; try lia.
    destruct (string_of_uint_head (N.to_uint (N.pos p)) (to_uint_not_nil _))
      as (c & s & Hs & _).
    unfold JS.string_of_N. rewrite Hs. simpl. lia.
  - simpl; lia.
  - pose proof (join_length_bound stringify size l IH) as Hsum.
    rewrite <- (append_nil_r (stringify (JArr l))), array_text.
    simpl size. simpl String.length. rewrite length_append. simpl String.length. lia.
  - assert (Forall (fun kv => (size (snd kv) <= String.length (member_text kv))%nat) l)
      as IH'.
    { eapply Forall_impl; [exact IH|]. intros [k x] Hx. unfold member_text.
      rewrite !length_append. simpl in *. lia. }
    pose proof (join_length_bound member_text (fun kv => size (snd kv)) l IH') as Hsum.
    rewrite <- (append_nil_r (stringify (JObj l))), object_text.
    simpl size. simpl String.length. rewrite length_append. simpl String.length. lia.
Qed.

(** [JSON.parse(JSON.stringify(v))] is [v]. *)
Lemma parse_stringify (v : value) :
  JS.well_formed v = true -> parse (stringify v) = Some v.
Proof.
  intros Hwf. unfold parse.
  rewrite <- (append_nil_r (stringify v)) at 2.
  rewrite reads_back_all; [reflexivity | | now left | assumption].
  pose proof (size_le_length v). lia.
Qed.

End JSONFacts.

(** ** The middleware and the client, step by step *)

Module Steps.

Lemma calm_tail (n : nat) (fs : list bool) :
  forallb negb (take (S n) fs) = true -> forallb negb (take n (tail fs)) = true.
Proof.
  destruct fs as [|f fs]; simpl; [now destruct n|].
  intros H. now apply andb_prop in H as [_ H].
Qed.

Lemma calm_weaken (n : nat) (fs : list bool) :
  forallb negb (take (S n) fs) = true -> forallb negb (take n fs) = true.
Proof.
  revert fs. induction n as [|n IH]; intros fs; [reflexivity|].
  destruct fs as [|f fs]; [reflexivity|].
  change (take (S (S n)) (f :: fs)) with (f :: take (S n) fs).
  change (take (S n) (f :: fs)) with (f :: take n fs).
  simpl forallb. intros H. apply andb_prop in H as [Hf H].
  rewrite Hf. simpl. now apply IH.
Qed.

Lemma tail_drop (n : nat) (fs : list bool) : tail (drop n fs) = drop (S n) fs.
Proof.
  revert fs. induction n as [|n IH]; intros [|f fs]; simpl; auto.
Qed.

(** An accepted command runs on the keys and uses up one outcome. *)
Lemma command_accept {A} (run : gmap string string -> A * gmap string string)
    (m : gmap string string) (fs : list bool) (td : Moment.date) (r : Response) :
  forallb negb (take 1 fs) = true ->
  command run (MkCtx (MkWorld (MkClient true m fs) td) r)
  = (Ok (fst (run m)),
     MkCtx (MkWorld (MkClient true (snd (run m)) (tail fs)) td) r).
Proof.
  intros Hfs. unfold command, bind, get_client, put_client, ret. simpl.
  destruct fs as [|[] fs]; simpl in *; try discriminate;
    destruct (run m); reflexivity.
Qed.

(** A rejected command throws and leaves the keys alone. *)
Lemma command_reject {A} (run : gmap string string -> A * gmap string string)
    (m : gmap string string) (later : list bool) (td : Moment.date) (r : Response) :
  command run (MkCtx (MkWorld (MkClient true m (true :: later)) td) r)
  = (Throw RedisError, MkCtx (MkWorld (MkClient true m later) td) r).
Proof. reflexivity. Qed.

(** [transformDate] hands on the request with its body normalized, when
    [moment] reads the date. *)
Lemma transformDate_normalized (req : Request) (next : Request -> M unit) (c : Ctx) :
  readable_date (body req) ->
  transformDate req next c
  = next (with_body req (normalized (today (world c)) (body req))) c.
Proof.
  unfold readable_date, date_error, transformDate, normalized, with_body,
    moment_format, Moment.moment_DD_MM_YYYY.
  destruct req as [doc id inm]; simpl.
  destruct (JS.get doc "creationDate") as [v|]; [|reflexivity].
  destruct (JS.truthy v); [|reflexivity].
  destruct (Moment.config_input v); [discriminate | reflexivity].
Qed.

(** Otherwise the TypeError leaves it, and [next] is not called. *)
Lemma transformDate_throws (req : Request) (next : Request -> M unit) (c : Ctx)
    (msg : string) :
  date_error (body req) = Some msg ->
  transformDate req next c = (Throw (TypeError msg), c).
Proof.
  unfold date_error, transformDate, moment_format, Moment.moment_DD_MM_YYYY.
  destruct (JS.get (body req) "creationDate") as [v|]; [|discriminate].
  destruct (JS.truthy v); [|discriminate].
  unfold bind, get_today.
  destruct (Moment.config_input v); [|discriminate].
  now intros [= ->].
Qed.

Lemma ensure_ready_on (method : Method) (req : Request) (next : Request -> M unit)
    (m : gmap string string) (fs : list bool) (td : Moment.date) (r : Response) :
  ensure_ready method req next (MkCtx (MkWorld (MkClient true m fs) td) r)
  = next req (MkCtx (MkWorld (MkClient true m fs) td) r).
Proof. reflexivity. Qed.

Lemma validateSchema_pass (schema : Ajv.schema) (method : Method) (req : Request)
    (next : Request -> M unit) (c : Ctx) :
  Ajv.validate schema (body req) = [] ->
  validateSchema schema method req next c = next req c.
Proof. intros H. unfold validateSchema. now rewrite H. Qed.

(** Outside a GET no request is fresh, and no reply of status 4xx or 5xx
    is sent in place of another. *)
Lemma res_json_plain (method : Method) (req : Request) (payload : value) (c : Ctx) :
  method <> GET \/ 400 <= statusCode (res c) ->
  statusCode (res c) <> 204 -> statusCode (res c) <> 304 ->
  res_json method req payload c
  = (Ok tt, MkCtx (world c)
              (MkResponse (statusCode (res c)) (headers (res c)) (SentJson payload))).
Proof.
  intros Hplain H204 H304. unfold res_json, update_res, req_fresh.
  assert (Hfresh : (match method with
                    | GET =>
                        (((200 <=? statusCode (res c)) && (statusCode (res c) <? 300))
                         || (statusCode (res c) =? 304))
                        && Fresh.fresh (if_none_match req)
                             (Some (send_etag (res c) payload))
                    | _ => false
                    end) = false).
  { destruct method; try reflexivity.
    destruct Hplain as [H|H]; [congruence|].
    replace (statusCode (res c) <? 300) with false by (symmetry; apply Z.ltb_ge; lia).
    replace (statusCode (res c) =? 304) with false by (symmetry; apply Z.eqb_neq; lia).
    now rewrite andb_false_r. }
  rewrite Hfresh.
  replace (statusCode (res c) =? 204) with false by (symmetry; now apply Z.eqb_neq).
  replace (statusCode (res c) =? 304) with false by (symmetry; now apply Z.eqb_neq).
  reflexivity.
Qed.

Lemma bind_ok {A B} (m : M A) (k : A -> M B) (c c' : Ctx) (a : A) :
  m c = (Ok a, c') -> bind m k c = k a c'.
Proof. intros H. unfold bind. now rewrite H. Qed.

Lemma bind_throw {A B} (m : M A) (k : A -> M B) (c c' : Ctx) (e : exn) :
  m c = (Throw e, c') -> bind m k c = (Throw e, c').
Proof. intros H. unfold bind. now rewrite H. Qed.

Lemma try_catch_ok {A} (m : M A) (h : exn -> M A) (c c' : Ctx) (a : A) :
  m c = (Ok a, c') -> try_catch m h c = (Ok a, c').
Proof. intros H. unfold try_catch. now rewrite H. Qed.

Lemma try_catch_throw {A} (m : M A) (h : exn -> M A) (c c' : Ctx) (e : exn) :
  m c = (Throw e, c') -> try_catch m h c = h e c'.
Proof. intros H. unfold try_catch. now rewrite H. Qed.

Section Commands.

Variables (m : gmap string string) (fs : list bool) (td : Moment.date) (r : Response).

Local Abbreviation ctx m' fs' := (MkCtx (MkWorld (MkClient true m' fs') td) r).

Lemma client_set_accept (k val : string) :
  forallb negb (take 1 fs) = true ->
  client_set (Some (JStr k)) val (ctx m fs) = (Ok tt, ctx (<[k := val]> m) (tail fs)).
Proof.
  intros H. unfold client_set, command_key. erewrite bind_ok by reflexivity.
  now rewrite command_accept.
Qed.

Lemma client_get_accept (k : string) :
  forallb negb (take 1 fs) = true ->
  client_get (Some (JStr k)) (ctx m fs) = (Ok (m !! k), ctx m (tail fs)).
Proof.
  intros H. unfold client_get, command_key. erewrite bind_ok by reflexivity.
  now rewrite command_accept.
Qed.

Lemma client_del_accept (k : string) :
  forallb negb (take 1 fs) = true ->
  client_del (Some (JStr k)) (ctx m fs)
  = (Ok (match m !! k with Some _ => 1 | None => 0 end), ctx (delete k m) (tail fs)).
Proof.
  intros H. unfold client_del, command_key. erewrite bind_ok by reflexivity.
  now rewrite command_accept.
Qed.

Lemma client_set_reject (k val : string) (later : list bool) :
  client_set (Some (JStr k)) val (ctx m (true :: later)) = (Throw RedisError, ctx m later).
Proof. reflexivity. Qed.

Lemma client_get_reject (k : string) (later : list bool) :
  client_get (Some (JStr k)) (ctx m (true :: later)) = (Throw RedisError, ctx m later).
Proof. reflexivity. Qed.

Lemma client_del_reject (k : string) (later : list bool) :
  client_del (Some (JStr k)) (ctx m (true :: later)) = (Throw RedisError, ctx m later).
Proof. reflexivity. Qed.

End Commands.

Lemma JSON_parse_stored (doc : value) (c : Ctx) :
  JS.well_formed doc = true ->
  JSON_parse (Some (JSON.stringify doc)) c = (Ok doc, c).
Proof.
  intros H. unfold JSON_parse, JS.text_to_string.
  now rewrite JSONFacts.parse_stringify.
Qed.

(** One step of a [bind] whose first computation returns normally;
    [tac] proves what it returns. *)
Ltac step tac := erewrite bind_ok; [cbv beta | solve [tac]].

End Steps.

(** ** Date normalization *)

Module Normalize.

Lemma lookup_define_same (k : string) (v : value) (l : list (string * value)) :
  JS.lookup_prop k (JS.define_prop k v l) = Some v.
Proof.
  induction l as [|[k' v'] l IH]; simpl.
  - now rewrite String.eqb_refl.
  - destruct (String.eqb_spec k k') as [->|Hne]; simpl.
    + now rewrite String.eqb_refl.
    + apply String.eqb_neq in Hne. now rewrite Hne.
Qed.

Lemma lookup_define_other (k f : string) (v : value) (l : list (string * value)) :
  f <> k -> JS.lookup_prop f (JS.define_prop k v l) = JS.lookup_prop f l.
Proof.
  intros Hne. induction l as [|[k' v'] l IH]; simpl.
  - apply String.eqb_neq in Hne. now rewrite Hne.
  - destruct (String.eqb_spec k k') as [->|Hk]; simpl.
    + apply String.eqb_neq in Hne. now rewrite Hne.
    + now rewrite IH.
Qed.

(** Assigning to a property the object has keeps the keys and their order. *)
Lemma define_existing_keys (k : string) (v : value) (l : list (string * value)) :
  JS.lookup_prop k l <> None -> map fst (JS.define_prop k v l) = map fst l.
Proof.
  induction l as [|[k' v'] l IH]; simpl; [congruence|].
  destruct (String.eqb_spec k k') as [->|Hk]; simpl; [reflexivity|].
  intros H. now rewrite IH.
Qed.

Lemma define_well_formed (k : string) (v : value) (l : list (string * value)) :
  JS.well_formed v = true ->
  forallb (fun kv => JS.well_formed (snd kv)) l = true ->
  forallb (fun kv => JS.well_formed (snd kv)) (JS.define_prop k v l) = true.
Proof.
  intros Hv. induction l as [|[k' v'] l IH]; simpl; intros H.
  - now rewrite Hv.
  - apply andb_prop in H as [H1 H2].
    destruct (String.eqb k k'); simpl.
    + now rewrite Hv, H2.
    + now rewrite H1, IH.
Qed.

(** [transformDate] touches no property other than [creationDate]. *)
Lemma normalized_get_other (now : Moment.date) (doc : value) (f : string) :
  f <> "creationDate" -> JS.get (normalized now doc) f = JS.get doc f.
Proof.
  intros Hne. unfold normalized.
  destruct (JS.get doc "creationDate") as [v|]; [|reflexivity].
  destruct (JS.truthy v); [|reflexivity].
  destruct (Moment.moment_DD_MM_YYYY now v); [reflexivity|].
  destruct doc; try reflexivity. simpl. now apply lookup_define_other.
Qed.

(** It adds no property, removes none, and keeps their order. *)
Lemma normalized_keys (now : Moment.date) (props : list (string * value)) :
  exists props', normalized now (JObj props) = JObj props'
                 /\ map fst props' = map fst props.
Proof.
  unfold normalized. simpl.
  destruct (JS.lookup_prop "creationDate" props) as [v|] eqn:Hget; [|eauto].
  destruct (JS.truthy v); [|eauto].
  destruct (Moment.moment_DD_MM_YYYY now v); [eauto|].
  eexists; split; [reflexivity|]. apply define_existing_keys. congruence.
Qed.

Lemma normalized_not_object (now : Moment.date) (doc : value) :
  (forall props, doc <> JObj props) -> normalized now doc = doc.
Proof. intros H. destruct doc; try reflexivity. now destruct (H props). Qed.

Lemma normalized_well_formed (now : Moment.date) (doc : value) :
  JS.well_formed doc = true -> JS.well_formed (normalized now doc) = true.
Proof.
  intros Hwf. unfold normalized.
  destruct (JS.get doc "creationDate") as [v|] eqn:Hget; [|assumption].
  destruct (JS.truthy v); [|assumption].
  destruct (Moment.moment_DD_MM_YYYY now v); [assumption|].
  destruct doc as [| | | | |props]; try assumption.
  simpl in *. apply andb_prop in Hwf as [Hnd Hall].
  rewrite define_existing_keys by congruence. rewrite Hnd. simpl.
  now apply define_well_formed.
Qed.

End Normalize.

(** ** The route handlers on a connected client *)

Module Handlers.
Import Steps.

Lemma stringify_nonempty (doc : value) : String.eqb (JSON.stringify doc) "" = false.
Proof.
  destruct (JSONFacts.stringify_head doc) as (c & r & -> & _). reflexivity.
Qed.

Lemma drop_two (fs : list bool) : tail (tail fs) = drop 2 fs.
Proof. now destruct fs as [|? [|? ?]]. Qed.

Lemma get_set_header (field val : string) (hs : list (string * string)) :
  get_header field (set_header field val hs) = Some val.
Proof.
  induction hs as [|[f v] hs IH]; simpl.
  - now rewrite String.eqb_refl.
  - destruct (String.eqb field f) eqn:Hf; simpl.
    + now rewrite String.eqb_refl.
    + now rewrite Hf.
Qed.

Section OnClient.

Variables (m : gmap string string) (td : Moment.date) (r : Response).

Local Abbreviation ctx m' fs' r' := (MkCtx (MkWorld (MkClient true m' fs') td) r').

(** POST: both commands accepted. *)
Lemma create_plan_accepted (req : Request) (k : string) (fs : list bool) :
  JS.get (body req) "objectId" = Some (JStr k) ->
  JS.truthy (JStr k) = true ->
  JS.well_formed (body req) = true ->
  forallb negb (take 2 fs) = true ->
  create_plan req (ctx m fs r)
  = (Ok tt,
     ctx (<[k := JSON.stringify (body req)]> m) (drop 2 fs)
       (MkResponse 201
          (set_header "ETag" (Etag.entitytag (JSON.stringify (body req))) (headers r))
          (SentJson (body req)))).
Proof.
  intros Hid Hk Hwf Hfs.
  unfold create_plan. erewrite try_catch_ok; [reflexivity|].
  rewrite Hid. unfold JS.truthy_maybe. rewrite Hk.
  change (negb true) with false. cbv iota.
  step ltac:(apply client_set_accept; now apply calm_weaken).
  step ltac:(apply client_get_accept; now apply calm_tail).
  rewrite lookup_insert_eq.
  step ltac:(reflexivity).
  step ltac:(reflexivity).
  step ltac:(reflexivity).
  step ltac:(apply JSON_parse_stored; assumption).
  unfold res_json, update_res. simpl. now rewrite drop_two.
Qed.

(** POST: no usable [objectId]. *)
Lemma create_plan_missing_id (req : Request) (c : Ctx) :
  JS.truthy_maybe (JS.get (body req) "objectId") = false ->
  create_plan req c
  = (Ok tt,
     MkCtx (world c)
       (MkResponse 400 (headers (res c))
          (SentJson (JObj [("message", JStr "Missing objectId in the request body.")])))).
Proof.
  intros H. unfold create_plan. erewrite try_catch_ok; [reflexivity|].
  rewrite H. reflexivity.
Qed.

(** POST: the SET is rejected. *)
Lemma create_plan_set_rejected (req : Request) (k : string) (later : list bool) :
  JS.get (body req) "objectId" = Some (JStr k) ->
  JS.truthy (JStr k) = true ->
  create_plan req (ctx m (true :: later) r)
  = (Ok tt,
     ctx m later
       (MkResponse 500 (headers r) (SentJson (JObj [("error", JStr "Error creating plan")])))).
Proof.
  intros Hid Hk. unfold create_plan.
  erewrite try_catch_throw; cycle 1.
  { rewrite Hid. unfold JS.truthy_maybe. rewrite Hk.
    change (negb true) with false. cbv iota.
    apply bind_throw. apply client_set_reject. }
  reflexivity.
Qed.

(** POST: the SET is accepted and the GET is rejected. *)
Lemma create_plan_get_rejected (req : Request) (k : string) (later : list bool) :
  JS.get (body req) "objectId" = Some (JStr k) ->
  JS.truthy (JStr k) = true ->
  create_plan req (ctx m (false :: true :: later) r)
  = (Ok tt,
     ctx (<[k := JSON.stringify (body req)]> m) later
       (MkResponse 500 (headers r) (SentJson (JObj [("error", JStr "Error creating plan")])))).
Proof.
  intros Hid Hk. unfold create_plan.
  erewrite try_catch_throw; cycle 1.
  { rewrite Hid. unfold JS.truthy_maybe. rewrite Hk.
    change (negb true) with false. cbv iota.
    step ltac:(apply client_set_accept; reflexivity).
    apply bind_throw. apply client_get_reject. }
  reflexivity.
Qed.

(** GET: the key is absent, or holds the empty string. *)
Lemma read_plan_absent (req : Request) (fs : list bool) :
  forallb negb (take 1 fs) = true ->
  JS.truthy_text (m !! params_id req) = false ->
  read_plan req (ctx m fs r)
  = (Ok tt,
     ctx m (tail fs)
       (MkResponse 404 (headers r) (SentJson (JObj [("error", JStr "Plan not found")])))).
Proof.
  intros Hfs Hm. unfold read_plan. erewrite try_catch_ok; [reflexivity|].
  step ltac:(apply client_get_accept; assumption).
  rewrite Hm. reflexivity.
Qed.

(** GET: the token is the fingerprint of the stored text. *)
Lemma read_plan_not_modified (req : Request) (fs : list bool) (text : string) :
  forallb negb (take 1 fs) = true ->
  m !! params_id req = Some text ->
  String.eqb text "" = false ->
  if_none_match req = Some (Etag.entitytag text) ->
  read_plan req (ctx m fs r)
  = (Ok tt, ctx m (tail fs) (MkResponse 304 (headers r) SentEmpty)).
Proof.
  intros Hfs Hm Hne Htok. unfold read_plan. erewrite try_catch_ok; [reflexivity|].
  step ltac:(apply client_get_accept; assumption).
  rewrite Hm. unfold JS.truthy_text. rewrite Hne. change (negb (negb false)) with false.
  cbv iota. step ltac:(reflexivity).
  rewrite bool_decide_eq_true_2 by assumption. reflexivity.
Qed.

(** GET: any other token, or none, and a stored text that parses. The
    handler sends a 200, which [res.send] turns into a 304 with no body
    when the request is fresh. *)
Lemma read_plan_full (req : Request) (fs : list bool) (text : string) (doc : value) :
  forallb negb (take 1 fs) = true ->
  m !! params_id req = Some text ->
  String.eqb text "" = false ->
  if_none_match req <> Some (Etag.entitytag text) ->
  JSON.parse text = Some doc ->
  read_plan req (ctx m fs r)
  = (Ok tt,
     ctx m (tail fs)
       (if Fresh.fresh (if_none_match req) (Some (Etag.entitytag text))
        then MkResponse 304 (set_header "ETag" (Etag.entitytag text) (headers r)) SentEmpty
        else MkResponse 200 (set_header "ETag" (Etag.entitytag text) (headers r))
               (SentJson doc))).
Proof.
  intros Hfs Hm Hne Htok Hparse. unfold read_plan. erewrite try_catch_ok; [reflexivity|].
  step ltac:(apply client_get_accept; assumption).
  rewrite Hm. unfold JS.truthy_text. rewrite Hne. change (negb (negb false)) with false.
  cbv iota. step ltac:(reflexivity).
  rewrite bool_decide_eq_false_2 by assumption.
  step ltac:(reflexivity).
  step ltac:(reflexivity).
  unfold JSON_parse, JS.text_to_string. rewrite Hparse.
  step ltac:(reflexivity).
  unfold res_json, update_res, req_fresh, send_etag. cbn [res headers statusCode world].
  rewrite get_set_header.
  change (((200 <=? 200) && (200 <? 300)) || (200 =? 304)) with true.
  cbn [andb]. destruct (Fresh.fresh _ _); reflexivity.
Qed.

(** GET: a stored text that does not parse. The tag is already set. *)
Lemma read_plan_unreadable (req : Request) (fs : list bool) (text : string) :
  forallb negb (take 1 fs) = true ->
  m !! params_id req = Some text ->
  String.eqb text "" = false ->
  if_none_match req <> Some (Etag.entitytag text) ->
  JSON.parse text = None ->
  read_plan req (ctx m fs r)
  = (Ok tt,
     ctx m (tail fs)
       (MkResponse 500 (set_header "ETag" (Etag.entitytag text) (headers r))
          (SentJson (JObj [("error", JStr "Error retrieving plan")])))).
Proof.
  intros Hfs Hm Hne Htok Hparse. unfold read_plan.
  erewrite try_catch_throw; cycle 1.
  { step ltac:(apply client_get_accept; assumption).
    rewrite Hm. unfold JS.truthy_text. rewrite Hne.
    change (negb (negb false)) with false.
    cbv iota. step ltac:(reflexivity).
    rewrite bool_decide_eq_false_2 by assumption.
    step ltac:(reflexivity).
    step ltac:(reflexivity).
    unfold JSON_parse, JS.text_to_string. rewrite Hparse.
    apply bind_throw. reflexivity. }
  reflexivity.
Qed.

(** GET: the command is rejected. *)
Lemma read_plan_rejected (req : Request) (later : list bool) :
  read_plan req (ctx m (true :: later) r)
  = (Ok tt,
     ctx m later
       (MkResponse 500 (headers r) (SentJson (JObj [("error", JStr "Error retrieving plan")])))).
Proof. reflexivity. Qed.

(** DELETE: accepted. *)
Lemma delete_plan_accepted (req : Request) (fs : list bool) :
  forallb negb (take 1 fs) = true ->
  delete_plan req (ctx m fs r)
  = (Ok tt,
     ctx (delete (params_id req) m) (tail fs)
       (match m !! params_id req with
        | Some _ =>
            MkResponse 200 (headers r)
              (SentJson (JObj [("message", JStr "Plan deleted successfully")]))
        | None =>
            MkResponse 404 (headers r) (SentJson (JObj [("error", JStr "Plan not found")]))
        end)).
Proof.
  intros Hfs. unfold delete_plan. erewrite try_catch_ok; [reflexivity|].
  step ltac:(apply client_del_accept; assumption).
  destruct (m !! params_id req); reflexivity.
Qed.

(** DELETE: rejected. *)
Lemma delete_plan_rejected (req : Request) (later : list bool) :
  delete_plan req (ctx m (true :: later) r)
  = (Ok tt,
     ctx m later
       (MkResponse 500 (headers r) (SentJson (JObj [("error", JStr "Error deleting plan")])))).
Proof. reflexivity. Qed.

End OnClient.

(** *** Whole requests *)

(** POST on a connected client is validation and the handler applied to
    the normalized request. *)
Lemma serve_POST_normalized (schema : Ajv.schema) (req : Request)
    (m : gmap string string) (fs : list bool) (td : Moment.date) :
  readable_date (body req) ->
  serve (POST_v1_plan schema) req (MkWorld (MkClient true m fs) td)
  = serve (fun rq => validateSchema schema POST rq create_plan)
          (with_body req (normalized td (body req)))
          (MkWorld (MkClient true m fs) td).
Proof.
  intros Hdate. unfold serve, POST_v1_plan.
  rewrite ensure_ready_on, transformDate_normalized by assumption.
  reflexivity.
Qed.

(** POST on a connected client, with a date [moment] throws on: the
    TypeError leaves the route, and nothing is sent to the server. *)
Lemma serve_POST_unreadable (schema : Ajv.schema) (req : Request) (w : World)
    (msg : string) :
  ready w ->
  date_error (body req) = Some msg ->
  serve (POST_v1_plan schema) req w = (Uncaught (TypeError msg), w).
Proof.
  destruct w as [[rd m fs] td]. unfold ready. simpl. intros -> Hdate.
  unfold serve, POST_v1_plan.
  rewrite ensure_ready_on, (transformDate_throws _ _ _ msg) by assumption.
  reflexivity.
Qed.

Lemma serve_POST_accepted (schema : Ajv.schema) (req : Request) (k : string)
    (m : gmap string string) (fs : list bool) (td : Moment.date) :
  let doc := normalized td (body req) in
  readable_date (body req) ->
  Ajv.validate schema doc = [] ->
  JS.get doc "objectId" = Some (JStr k) ->
  JS.truthy (JStr k) = true ->
  JS.well_formed doc = true ->
  forallb negb (take 2 fs) = true ->
  serve (POST_v1_plan schema) req (MkWorld (MkClient true m fs) td)
  = (Replied (MkResponse 201 [("ETag", Etag.entitytag (JSON.stringify doc))] (SentJson doc)),
     MkWorld (MkClient true (<[k := JSON.stringify doc]> m) (drop 2 fs)) td).
Proof.
  intros doc Hdate Hvalid Hid Hk Hwf Hfs.
  rewrite serve_POST_normalized by assumption. unfold serve.
  rewrite validateSchema_pass by assumption.
  rewrite (create_plan_accepted m td fresh_res _ k fs) by assumption.
  reflexivity.
Qed.

(** POST: the normalized body fails validation. Nothing is sent to the
    server. *)
Lemma serve_POST_invalid (schema : Ajv.schema) (req : Request) (w : World) :
  ready w ->
  readable_date (body req) ->
  Ajv.validate schema (normalized (today w) (body req)) <> [] ->
  serve (POST_v1_plan schema) req w
  = (Replied
       (MkResponse 400 []
          (SentJson
             (JObj [("message", JStr "Validation failed");
                    ("errors",
                     JArr (map Ajv.error_value
                             (Ajv.validate schema (normalized (today w) (body req)))))]))),
     w).
Proof.
  destruct w as [[rd m fs] td]. unfold ready. simpl. intros -> Hdate Hinvalid.
  rewrite serve_POST_normalized by assumption. unfold serve, validateSchema.
  change (body (with_body req (normalized td (body req))))
    with (normalized td (body req)).
  destruct (Ajv.validate schema (normalized td (body req))) as [|e es]; [congruence|].
  reflexivity.
Qed.

(** POST: valid, and no usable [objectId]. Nothing is sent to the server. *)
Lemma serve_POST_missing_id (schema : Ajv.schema) (req : Request) (w : World) :
  ready w ->
  readable_date (body req) ->
  Ajv.validate schema (normalized (today w) (body req)) = [] ->
  JS.truthy_maybe (JS.get (normalized (today w) (body req)) "objectId") = false ->
  serve (POST_v1_plan schema) req w
  = (Replied
       (MkResponse 400 []
          (SentJson (JObj [("message", JStr "Missing objectId in the request body.")]))),
     w).
Proof.
  destruct w as [[rd m fs] td]. unfold ready. simpl. intros -> Hdate Hvalid Hid.
  rewrite serve_POST_normalized by assumption. unfold serve.
  rewrite validateSchema_pass by assumption.
  rewrite create_plan_missing_id by assumption. reflexivity.
Qed.

(** Any route behind the readiness middleware, on a client that is not
    ready. *)
Lemma serve_not_ready (method : Method) (next : Request -> M unit) (req : Request)
    (m : gmap string string) (fs : list bool) (td : Moment.date) :
  serve (fun rq => ensure_ready method rq next) req (MkWorld (MkClient false m fs) td)
  = (Replied
       (MkResponse 500 [] (SentJson (JObj [("error", JStr "Redis client is not connected")]))),
     MkWorld (MkClient false m fs) td).
Proof. destruct method; reflexivity. Qed.

Lemma serve_GET_accepted (req : Request)
    (m : gmap string string) (fs : list bool) (td : Moment.date) :
  forallb negb (take 1 fs) = true ->
  serve GET_v1_plan req (MkWorld (MkClient true m fs) td)
  = (Replied (read_reply req (m !! params_id req)), MkWorld (MkClient true m (tail fs)) td).
Proof.
  intros Hfs. unfold serve, GET_v1_plan, read_reply. rewrite ensure_ready_on.
  destruct (JS.truthy_text (m !! params_id req)) eqn:Htruthy; simpl negb; cbv iota.
  - destruct (m !! params_id req) as [text|] eqn:Hm; [|discriminate].
    simpl in Htruthy. apply negb_true_iff in Htruthy. simpl JS.text_to_string.
    destruct (decide (if_none_match req = Some (Etag.entitytag text))) as [Htok|Htok].
    + rewrite (read_plan_not_modified m td fresh_res req fs text) by assumption.
      rewrite bool_decide_eq_true_2 by assumption. reflexivity.
    + rewrite bool_decide_eq_false_2 by assumption.
      destruct (JSON.parse text) as [doc|] eqn:Hparse.
      * rewrite (read_plan_full m td fresh_res req fs text doc) by assumption.
        simpl. destruct (Fresh.fresh _ _); reflexivity.
      * rewrite (read_plan_unreadable m td fresh_res req fs text) by assumption.
        reflexivity.
  - rewrite (read_plan_absent m td fresh_res req fs) by assumption. reflexivity.
Qed.

Lemma serve_GET_rejected (req : Request)
    (m : gmap string string) (later : list bool) (td : Moment.date) :
  serve GET_v1_plan req (MkWorld (MkClient true m (true :: later)) td)
  = (Replied
       (MkResponse 500 [] (SentJson (JObj [("error", JStr "Error retrieving plan")]))),
     MkWorld (MkClient true m later) td).
Proof. reflexivity. Qed.

Lemma serve_DELETE_accepted (req : Request)
    (m : gmap string string) (fs : list bool) (td : Moment.date) :
  forallb negb (take 1 fs) = true ->
  serve DELETE_v1_plan req (MkWorld (MkClient true m fs) td)
  = (Replied
       (match m !! params_id req with
        | Some _ =>
            MkResponse 200 [] (SentJson (JObj [("message", JStr "Plan deleted successfully")]))
        | None => MkResponse 404 [] (SentJson (JObj [("error", JStr "Plan not found")]))
        end),
     MkWorld (MkClient true (delete (params_id req) m) (tail fs)) td).
Proof.
  intros Hfs. unfold serve, DELETE_v1_plan. rewrite ensure_ready_on.
  rewrite (delete_plan_accepted m td fresh_res req fs) by assumption.
  destruct (m !! params_id req); reflexivity.
Qed.

Lemma serve_DELETE_rejected (req : Request)
    (m : gmap string string) (later : list bool) (td : Moment.date) :
  serve DELETE_v1_plan req (MkWorld (MkClient true m (true :: later)) td)
  = (Replied
       (MkResponse 500 [] (SentJson (JObj [("error", JStr "Error deleting plan")]))),
     MkWorld (MkClient true m later) td).
Proof. reflexivity. Qed.

(** The outcomes of the next command: none listed, accepted, rejected. *)
Lemma faults_cases (fs : list bool) :
  forallb negb (take 1 fs) = true \/ exists later, fs = true :: later.
Proof. destruct fs as [|[] fs]; simpl; eauto. Qed.

End Handlers.

(** ** What the keys hold *)

Module Invariant.
Import Steps Handlers Normalize.

Lemma stored_records_insert (m : gmap string string) (k : string) (doc : value) :
  JS.well_formed doc = true -> stored_records m ->
  stored_records (<[k := JSON.stringify doc]> m).
Proof.
  intros Hwf Hm k' text. rewrite lookup_insert. case_decide.
  - intros [= <-]. now exists doc.
  - apply Hm.
Qed.

Lemma stored_records_delete (m : gmap string string) (k : string) :
  stored_records m -> stored_records (delete k m).
Proof.
  intros Hm k' text. rewrite lookup_delete. case_decide; [discriminate | apply Hm].
Qed.

Section Preservation.

Variable I : gmap string string -> Prop.

Lemma preserves_bind {A B} (m : M A) (k : A -> M B) :
  preserves I m -> (forall a, preserves I (k a)) -> preserves I (bind m k).
Proof.
  intros Hm Hk c Hc. unfold bind. specialize (Hm c Hc).
  destruct (m c) as [[a|e] c']; [now apply Hk | exact Hm].
Qed.

Lemma preserves_catch {A} (m : M A) (h : exn -> M A) :
  preserves I m -> (forall e, preserves I (h e)) -> preserves I (try_catch m h).
Proof.
  intros Hm Hh c Hc. unfold try_catch. specialize (Hm c Hc).
  destruct (m c) as [[a|e] c']; [exact Hm | now apply Hh].
Qed.

(** A computation that leaves the process state alone. *)
Lemma preserves_world {A} (m : M A) :
  (forall c, world (snd (m c)) = world c) -> preserves I m.
Proof. intros H c Hc. now rewrite H. Qed.

Lemma preserves_res (f : Response -> Response) : preserves I (update_res f).
Proof. now apply preserves_world. Qed.

Lemma preserves_status_json (method : Method) (req : Request) (code : Z) (v : value) :
  preserves I (res_status code ;; res_json method req v)%js.
Proof. now apply preserves_world. Qed.

Lemma preserves_command {A} (run : gmap string string -> A * gmap string string) :
  (forall m, I m -> I (snd (run m))) -> preserves I (command run).
Proof.
  intros Hrun [[[rd m fs] td] r] Hc. simpl in Hc.
  unfold command, bind, get_client, put_client, throw, ret. simpl.
  destruct rd; simpl; [|assumption].
  specialize (Hrun m Hc).
  destruct fs as [|[] fs]; simpl; try assumption; destruct (run m); exact Hrun.
Qed.

Lemma preserves_command_key (key : JS.maybe) : preserves I (command_key key).
Proof.
  apply preserves_world. intros c. now destruct key as [[]|].
Qed.

Lemma preserves_client_get (key : JS.maybe) : preserves I (client_get key).
Proof.
  apply preserves_bind; [apply preserves_command_key|].
  intros k. now apply preserves_command.
Qed.

Lemma preserves_etag (entity : option string) : preserves I (etag entity).
Proof. apply preserves_world. intros c. unfold etag. now destruct (Etag.etag entity). Qed.

Lemma preserves_parse (text : option string) : preserves I (JSON_parse text).
Proof.
  apply preserves_world. intros c. unfold JSON_parse. now destruct (JSON.parse _).
Qed.

Lemma read_plan_preserves (req : Request) : preserves I (read_plan req).
Proof.
  unfold read_plan.
  apply preserves_catch; [|intros; apply preserves_status_json].
  apply preserves_bind; [apply preserves_client_get|]. intros stored.
  destruct (negb _); [apply preserves_status_json|].
  apply preserves_bind; [apply preserves_etag|]. intros tag.
  destruct (bool_decide _).
  - now apply preserves_world.
  - apply preserves_bind; [apply preserves_res|]. intros _.
    apply preserves_bind; [apply preserves_res|]. intros _.
    apply preserves_bind; [apply preserves_parse|]. intros doc.
    apply preserves_res.
Qed.

Lemma ensure_ready_preserves (method : Method) (req : Request)
    (next : Request -> M unit) :
  preserves I (next req) -> preserves I (ensure_ready method req next).
Proof.
  intros H c Hc. unfold ensure_ready, bind, get_client.
  destruct (negb _); [now apply preserves_status_json | now apply H].
Qed.

(** [transformDate] does not touch the keys: it throws or goes on. *)
Lemma transformDate_preserves (req : Request) (next : Request -> M unit) :
  (forall now, preserves I (next (with_body req (normalized now (body req))))) ->
  preserves I (transformDate req next).
Proof.
  intros H c Hc. destruct (date_error (body req)) as [msg|] eqn:Hdate.
  - now rewrite (transformDate_throws _ _ _ msg Hdate).
  - rewrite transformDate_normalized by exact Hdate. now apply H.
Qed.

End Preservation.

Lemma create_plan_preserves (req : Request) :
  JS.well_formed (body req) = true -> preserves stored_records (create_plan req).
Proof.
  intros Hwf. unfold create_plan.
  apply preserves_catch; [|intros; apply preserves_status_json].
  destruct (negb _); [apply preserves_status_json|].
  apply preserves_bind.
  { apply preserves_bind; [apply preserves_command_key|]. intros k.
    apply preserves_command. intros m Hm. now apply stored_records_insert. }
  intros _.
  apply preserves_bind; [apply preserves_client_get|]. intros stored.
  apply preserves_bind; [apply preserves_etag|]. intros tag.
  apply preserves_bind; [apply preserves_res|]. intros _.
  apply preserves_bind; [apply preserves_res|]. intros _.
  apply preserves_bind; [apply preserves_parse|]. intros doc.
  apply preserves_res.
Qed.

Lemma delete_plan_preserves (req : Request) : preserves stored_records (delete_plan req).
Proof.
  unfold delete_plan.
  apply preserves_catch; [|intros; apply preserves_status_json].
  apply preserves_bind.
  { apply preserves_bind; [apply preserves_command_key|]. intros k.
    apply preserves_command. intros m Hm. now apply stored_records_delete. }
  intros count. destruct (count =? 0); apply preserves_status_json.
Qed.

Lemma serve_preserves (I : gmap string string -> Prop) (route : Request -> M unit)
    (req : Request) (w : World) :
  preserves I (route req) -> I (keys w) -> I (keys (snd (serve route req w))).
Proof.
  intros H Hw. unfold serve. specialize (H (MkCtx w fresh_res) Hw).
  now destruct (route req (MkCtx w fresh_res)) as [[[]|e] c'].
Qed.

(** Every request leaves stored records under all the keys: what a key
    holds is always a text written by POST. *)
Lemma stored_records_preserved (schema : Ajv.schema) (req : Request) (w : World) :
  JS.well_formed (body req) = true ->
  stored_records (keys w) ->
  stored_records (keys (snd (serve (POST_v1_plan schema) req w)))
  /\ stored_records (keys (snd (serve GET_v1_plan req w)))
  /\ stored_records (keys (snd (serve DELETE_v1_plan req w))).
Proof.
  intros Hwf Hw. split; [|split]; apply serve_preserves; try assumption.
  - apply ensure_ready_preserves, transformDate_preserves. intros now.
    unfold validateSchema. simpl body.
    destruct (Ajv.validate schema _); [|now apply preserves_status_json].
    apply create_plan_preserves.
    simpl. now apply normalized_well_formed.
  - apply ensure_ready_preserves, read_plan_preserves.
  - apply ensure_ready_preserves, delete_plan_preserves.
Qed.

End Invariant.

(** ** What the body parser hands over *)

Module Parsed.
Import JSON.

Lemma define_prop_keys (k x : string) (v : value) (l : list (string * value)) :
  x ∈ map fst (JS.define_prop k v l) -> x = k \/ x ∈ map fst l.
Proof.
  induction l as [|[k' v'] l IH]; simpl.
  - intros H. apply list_elem_of_singleton in H. now left.
  - destruct (String.eqb_spec k k') as [->|Hne]; simpl.
    + intros H. now right.
    + intros H. apply elem_of_cons in H as [->|H].
      * right. now left.
      * destruct (IH H) as [->|Hin]; [now left | right; now right].
Qed.

Lemma define_prop_nodup (k : string) (v : value) (l : list (string * value)) :
  NoDup (map fst l) -> NoDup (map fst (JS.define_prop k v l)).
Proof.
  induction l as [|[k' v'] l IH]; simpl; intros H.
  - apply NoDup_singleton.
  - apply NoDup_cons in H as [Hnotin H].
    destruct (String.eqb_spec k k') as [->|Hne]; simpl.
    + now apply NoDup_cons.
    + apply NoDup_cons. split; [|now apply IH].
      intros Hin. apply define_prop_keys in Hin as [->|Hin]; [congruence | contradiction].
Qed.

Lemma object_of_well_formed (ms : list (string * value)) :
  members_ok ms -> JS.well_formed (JObj (object_of ms)) = true.
Proof.
  intros Hms. unfold object_of.
  assert (forall acc,
            NoDup (map fst acc) -> members_ok acc ->
            let o := fold_left (fun a kv => JS.define_prop (fst kv) (snd kv) a) ms acc in
            NoDup (map fst o) /\ members_ok o) as H.
  { induction ms as [|[k v] ms IH]; intros acc Hnd Hacc; simpl; [auto|].
    unfold members_ok in Hms. simpl in Hms. apply andb_prop in Hms as [Hv Hms].
    apply IH; [assumption | now apply define_prop_nodup |].
    now apply Normalize.define_well_formed. }
  destruct (H [] (NoDup_nil_2) eq_refl) as [Hnd Hok].
  simpl. rewrite bool_decide_eq_true_2 by assumption. exact Hok.
Qed.

(** Every value [JSON.parse] returns has each key of each object once. *)
Lemma parse_value_well_formed (fuel : nat) :
  (forall s v r, parse_value fuel s = Some (v, r) -> JS.well_formed v = true)
  /\ (forall s vs r, parse_elements fuel s = Some (vs, r) ->
      forallb JS.well_formed vs = true)
  /\ (forall s ms r, parse_members fuel s = Some (ms, r) -> members_ok ms).
Proof.
  induction fuel as [|fuel (IHv & IHe & IHm)]; [repeat split; discriminate|].
  split; [|split].
  - intros s v r. simpl.
    repeat match goal with
           | |- context [match ?x with _ => _ end] => destruct x eqn:?
           end; try discriminate; intros [= <- <-]; try reflexivity.
    + eapply object_of_well_formed, IHm; eassumption.
    + simpl. eapply IHe; eassumption.
  - intros s vs r. simpl.
    repeat match goal with
           | |- context [match ?x with _ => _ end] => destruct x eqn:?
           end; try discriminate; intros [= <- <-]; simpl.
    + erewrite IHv by eassumption. simpl. eapply IHe; eassumption.
    + erewrite IHv by eassumption. reflexivity.
  - intros s ms r. simpl.
    repeat match goal with
           | |- context [match ?x with _ => _ end] => destruct x eqn:?
           end; try discriminate; intros [= <- <-]; unfold members_ok; simpl.
    + erewrite IHv by eassumption. simpl. eapply IHm; eassumption.
    + erewrite IHv by eassumption. reflexivity.
Qed.

Lemma parse_well_formed (text : string) (v : value) :
  parse text = Some v -> JS.well_formed v = true.
Proof.
  unfold parse.
  destruct (parse_value _ text) as [[v' r]|] eqn:Hp; [|discriminate].
  destruct (skip_ws r); [|discriminate]. intros [= <-].
  eapply (proj1 (parse_value_well_formed _)); eassumption.
Qed.

End Parsed.

(** ** Entity tags and freshness *)

Module Tags.

Local Open Scope N_scope.

Lemma be_bytes_length (n : nat) (x : N) : length (Etag.be_bytes n x) = n.
Proof.
  revert x. induction n as [|n IH]; intros x; [reflexivity|].
  simpl. rewrite length_app, IH. simpl. lia.
Qed.

(** The digest has 20 bytes. *)
Lemma sha1_length (msg : list N) : length (Etag.sha1 msg) = 20%nat.
Proof.
  unfold Etag.sha1.
  destruct (Etag.sha1_blocks _ _ _) as [[[[h0 h1] h2] h3] h4].
  rewrite !length_app, !be_bytes_length. reflexivity.
Qed.

Lemma base64_char_plain (n : N) :
  Ascii.eqb (Etag.base64_char n) " " || Ascii.eqb (Etag.base64_char n) "," = false.
Proof.
  assert (Hne : forall k c, k < 256 -> k <> N_of_ascii c -> Ascii.eqb (ascii_of_N k) c = false).
  { intros k c Hk Hc. apply Ascii.eqb_neq. intros <-.
    now rewrite N_ascii_embedding in Hc. }
  unfold Etag.base64_char.
  destruct (n <? 26) eqn:H1; [apply N.ltb_lt in H1|apply N.ltb_ge in H1].
  { rewrite !Hne; [reflexivity | lia | simpl; lia | lia | simpl; lia]. }
  destruct (n <? 52) eqn:H2; [apply N.ltb_lt in H2|apply N.ltb_ge in H2].
  { rewrite !Hne; [reflexivity | lia | simpl; lia | lia | simpl; lia]. }
  destruct (n <? 62) eqn:H3; [apply N.ltb_lt in H3|apply N.ltb_ge in H3].
  { rewrite !Hne; [reflexivity | lia | simpl; lia | lia | simpl; lia]. }
  destruct (n =? 62); reflexivity.
Qed.

Lemma hex_digit_plain (n : N) :
  Ascii.eqb (JSON.hex_digit (n mod 16)) " " || Ascii.eqb (JSON.hex_digit (n mod 16)) ","
  = false.
Proof.
  assert (Hlt : n mod 16 < 16) by now apply N.mod_lt.
  assert (Hne : forall k c, k < 256 -> k <> N_of_ascii c -> Ascii.eqb (ascii_of_N k) c = false).
  { intros k c Hk Hc. apply Ascii.eqb_neq. intros <-.
    now rewrite N_ascii_embedding in Hc. }
  unfold JSON.hex_digit. revert Hlt. generalize (n mod 16). intros d Hlt.
  destruct (d <? 10) eqn:H1; [apply N.ltb_lt in H1|apply N.ltb_ge in H1];
    rewrite !Hne; first [reflexivity | lia | simpl; lia].
Qed.

Lemma plain_app (a b : string) :
  Fresh.plain (a +:+ b) = Fresh.plain a && Fresh.plain b.
Proof.
  unfold Fresh.plain. induction a as [|c a IH]; [reflexivity|].
  cbn. rewrite IH. now rewrite andb_assoc.
Qed.

Lemma hex_digits_plain (fuel : nat) (n : N) (acc : string) :
  Fresh.plain acc = true -> Fresh.plain (Etag.hex_digits fuel n acc) = true.
Proof.
  revert n acc. induction fuel as [|fuel IH]; intros n acc Hacc; [exact Hacc|].
  simpl.
  assert (Fresh.plain (String (JSON.hex_digit (n mod 16)) acc) = true) as H.
  { unfold Fresh.plain in *. cbn. rewrite hex_digit_plain. exact Hacc. }
  destruct (n <? 16); [exact H | now apply IH].
Qed.

(** The shape of a tag: the length in hexadecimal, a dash and the 27
    characters of the digest, in double quotes; no space and no comma. *)
Lemma entitytag_shape (text : string) :
  exists digest,
    String.length digest = 27%nat
    /\ Fresh.plain digest = true
    /\ Etag.entitytag text
       = String JSON.dquote
           (Etag.to_hex (N.of_nat (String.length text)) +:+ "-" +:+ digest
            +:+ String JSON.dquote "").
Proof.
  unfold Etag.entitytag.
  assert (Hlen : length (Etag.bytes_of_string text) = String.length text).
  { unfold Etag.bytes_of_string. rewrite length_map.
    induction text as [|c t IH]; [reflexivity|]. simpl. now rewrite IH. }
  rewrite Hlen.
  pose proof (sha1_length (Etag.bytes_of_string text)) as H20.
  destruct (Etag.sha1 (Etag.bytes_of_string text)) as [|b1 l]; [discriminate|].
  do 19 (destruct l as [|? l]; [discriminate|]).
  destruct l; [|discriminate].
  replace (String.length text + 20)%nat with (S (S (S (S (S (S (S (String.length text + 13))))))))
    by lia.
  cbn [Etag.base64 substring].
  eexists. split; [|split; [|reflexivity]]; [reflexivity|].
  unfold Fresh.plain. cbn [list_ascii_of_string forallb].
  rewrite !base64_char_plain. reflexivity.
Qed.

Lemma entitytag_plain (text : string) : Fresh.plain (Etag.entitytag text) = true.
Proof.
  destruct (entitytag_shape text) as (digest & _ & Hplain & ->).
  change (String JSON.dquote ?s) with (String JSON.dquote "" +:+ s).
  rewrite !plain_app, Hplain. unfold Etag.to_hex.
  rewrite hex_digits_plain by reflexivity. reflexivity.
Qed.

Lemma entitytag_nonempty (text : string) : String.eqb (Etag.entitytag text) "" = false.
Proof. reflexivity. Qed.

(** A header with no space and no comma is one token. *)
Lemma token_list_plain (s tok : string) :
  Fresh.plain s = true -> Fresh.token_list_from s tok "" = [tok +:+ s].
Proof.
  revert tok. induction s as [|c s IH]; intros tok H.
  - now rewrite append_nil_r.
  - unfold Fresh.plain in H. cbn in H. apply andb_prop in H as [Hc H].
    apply negb_true_iff, orb_false_iff in Hc as [Hs Hcomma].
    cbn [Fresh.token_list_from]. rewrite Hs, Hcomma.
    rewrite IH by exact H. change ("" +:+ String c "") with (String c "").
    now rewrite append_assoc.
Qed.

(** The weak form of the tag of a response makes the request fresh, and
    so does the header [*]. *)
Lemma fresh_weak (tag : string) :
  Fresh.plain tag = true -> String.eqb tag "" = false ->
  Fresh.fresh (Some ("W/" +:+ tag)) (Some tag) = true.
Proof.
  intros Hplain Hne. unfold Fresh.fresh. cbn [String.append String.eqb Ascii.eqb].
  rewrite Hne. unfold Fresh.token_list.
  change (String "W" (String "/" tag)) with ("W/" +:+ tag).
  rewrite token_list_plain by (rewrite plain_app; now rewrite Hplain).
  cbn [existsb]. unfold Fresh.matches.
  change ("" +:+ ("W/" +:+ tag)) with ("W/" +:+ tag).
  rewrite (String.eqb_refl ("W/" +:+ tag)). now rewrite orb_true_r.
Qed.

Lemma fresh_star (etag : option string) : Fresh.fresh (Some "*") etag = true.
Proof. reflexivity. Qed.

(** A header of one token makes the request fresh only in these ways. *)
Lemma fresh_plain (token tag : string) :
  Fresh.plain token = true ->
  Fresh.fresh (Some token) (Some tag) = true ->
  token = "*" \/ token = tag \/ token = "W/" +:+ tag \/ "W/" +:+ token = tag.
Proof.
  intros Hplain. unfold Fresh.fresh.
  destruct (String.eqb token ""); [discriminate|].
  destruct (String.eqb token "*") eqn:Hstar; [left; now apply String.eqb_eq|].
  destruct (String.eqb tag ""); [discriminate|].
  unfold Fresh.token_list. rewrite token_list_plain by exact Hplain.
  cbn [existsb]. unfold Fresh.matches. change ("" +:+ token) with token.
  rewrite orb_false_r. intros H. right.
  apply orb_prop in H as [H|H]; [apply orb_prop in H as [H|H]|];
    apply String.eqb_eq in H; auto.
Qed.

(** No tag is the weak form of a header token: a tag opens with a quote. *)
Lemma entitytag_not_weak (token text : string) : "W/" +:+ token <> Etag.entitytag text.
Proof. unfold Etag.entitytag. cbn. discriminate. Qed.

End Tags.

(** ** The routes on every request *)

Module Cases.
Import Steps Handlers Normalize.

(** POST: a truthy [objectId] that is not a string. The client refuses
    the argument before a command is sent. *)
Lemma create_plan_bad_key (req : Request) (c : Ctx) (v : value) :
  JS.get (body req) "objectId" = Some v ->
  JS.truthy v = true ->
  (forall k, v <> JStr k) ->
  create_plan req c
  = (Ok tt,
     MkCtx (world c)
       (MkResponse 500 (headers (res c))
          (SentJson (JObj [("error", JStr "Error creating plan")])))).
Proof.
  intros Hid Hv Hk. unfold create_plan.
  erewrite try_catch_throw; cycle 1.
  { rewrite Hid. unfold JS.truthy_maybe. rewrite Hv.
    change (negb true) with false. cbv iota.
    apply bind_throw. unfold client_set. apply bind_throw.
    destruct v; try reflexivity. now destruct (Hk s). }
  reflexivity.
Qed.

Lemma serve_POST_bad_key (schema : Ajv.schema) (req : Request) (w : World) (v : value) :
  ready w ->
  readable_date (body req) ->
  Ajv.validate schema (normalized (today w) (body req)) = [] ->
  JS.get (body req) "objectId" = Some v ->
  JS.truthy v = true ->
  (forall k, v <> JStr k) ->
  serve (POST_v1_plan schema) req w
  = (Replied (MkResponse 500 [] (SentJson (JObj [("error", JStr "Error creating plan")]))),
     w).
Proof.
  destruct w as [[rd m fs] td]. unfold ready. simpl. intros -> Hdate Hvalid Hid Hv Hk.
  rewrite serve_POST_normalized by assumption. unfold serve.
  rewrite validateSchema_pass by assumption.
  rewrite (create_plan_bad_key _ _ v); [reflexivity | | assumption | assumption].
  simpl. rewrite normalized_get_other by discriminate. assumption.
Qed.

Lemma serve_POST_set_rejected (schema : Ajv.schema) (req : Request) (k : string)
    (m : gmap string string) (later : list bool) (td : Moment.date) :
  readable_date (body req) ->
  Ajv.validate schema (normalized td (body req)) = [] ->
  JS.get (body req) "objectId" = Some (JStr k) ->
  JS.truthy (JStr k) = true ->
  serve (POST_v1_plan schema) req (MkWorld (MkClient true m (true :: later)) td)
  = (Replied (MkResponse 500 [] (SentJson (JObj [("error", JStr "Error creating plan")]))),
     MkWorld (MkClient true m later) td).
Proof.
  intros Hdate Hvalid Hid Hk. rewrite serve_POST_normalized by assumption. unfold serve.
  rewrite validateSchema_pass by assumption.
  rewrite (create_plan_set_rejected m td fresh_res _ k); [reflexivity | | assumption].
  simpl. rewrite normalized_get_other by discriminate. assumption.
Qed.

Lemma serve_POST_get_rejected (schema : Ajv.schema) (req : Request) (k : string)
    (m : gmap string string) (later : list bool) (td : Moment.date) :
  readable_date (body req) ->
  Ajv.validate schema (normalized td (body req)) = [] ->
  JS.get (body req) "objectId" = Some (JStr k) ->
  JS.truthy (JStr k) = true ->
  serve (POST_v1_plan schema) req (MkWorld (MkClient true m (false :: true :: later)) td)
  = (Replied (MkResponse 500 [] (SentJson (JObj [("error", JStr "Error creating plan")]))),
     MkWorld (MkClient true (<[k := JSON_stringify (normalized td (body req))]> m) later) td).
Proof.
  intros Hdate Hvalid Hid Hk. rewrite serve_POST_normalized by assumption. unfold serve.
  rewrite validateSchema_pass by assumption.
  rewrite (create_plan_get_rejected m td fresh_res _ k); [reflexivity | | assumption].
  simpl. rewrite normalized_get_other by discriminate. assumption.
Qed.

(** The outcomes of the next two commands. *)
Lemma faults_cases2 (fs : list bool) :
  forallb negb (take 2 fs) = true
  \/ (exists later, fs = true :: later)
  \/ (exists later, fs = false :: true :: later).
Proof. destruct fs as [|[] [|[] fs]]; simpl; eauto. Qed.

(** Every POST: the TypeError of [moment] leaves the route; or the
    request is refused with the world as it was; or it is a write under a
    string [objectId], with the three outcomes of its two commands. *)
Lemma serve_POST_cases (schema : Ajv.schema) (req : Request) (w : World) :
  JS.well_formed (body req) = true ->
  let doc := normalized (today w) (body req) in
  let run := serve (POST_v1_plan schema) req w in
  let failed :=
    Replied (MkResponse 500 [] (SentJson (JObj [("error", JStr "Error creating plan")]))) in
  (exists msg, ready w /\ date_error (body req) = Some msg
               /\ run = (Uncaught (TypeError msg), w))
  \/ (exists r, (statusCode r = 400 \/ statusCode r = 500) /\ headers r = []
                /\ (isReady (client w) = false \/ readable_date (body req))
                /\ run = (Replied r, w))
  \/ (exists k,
        JS.get (body req) "objectId" = Some (JStr k) /\ JS.truthy (JStr k) = true
        /\ ready w /\ readable_date (body req) /\ Ajv.validate schema doc = []
        /\ (run = (Replied (MkResponse 201 [("ETag", Etag.entitytag (JSON_stringify doc))]
                                       (SentJson doc)),
                   after_commands 2 (<[k := JSON_stringify doc]> (keys w)) w)
            \/ run = (failed, after_commands 1 (keys w) w)
            \/ run = (failed, after_commands 2 (<[k := JSON_stringify doc]> (keys w)) w))).
Proof.
  intros Hwf doc run failed. subst run failed.
  destruct (isReady (client w)) eqn:Hready.
  2:{ right. left. eexists. split; [|split; [|split]]; cycle 3.
      - destruct w as [[rd m fs] td]. simpl in Hready. subst rd.
        apply (serve_not_ready POST).
      - now right.
      - reflexivity.
      - now left. }
  destruct (date_error (body req)) as [msg|] eqn:Hdate.
  { left. exists msg. split; [exact Hready|]. split; [reflexivity|].
    now apply serve_POST_unreadable. }
  destruct (Ajv.validate schema doc) as [|e es] eqn:Hvalid.
  2:{ right. left. eexists. split; [|split; [|split]]; cycle 3.
      - apply serve_POST_invalid; [exact Hready | exact Hdate |]. fold doc. now rewrite Hvalid.
      - now left.
      - reflexivity.
      - now right. }
  destruct (JS.truthy_maybe (JS.get (body req) "objectId")) eqn:Hid.
  2:{ right. left. eexists. split; [|split; [|split]]; cycle 3.
      - apply serve_POST_missing_id; [exact Hready | exact Hdate | exact Hvalid |].
        rewrite normalized_get_other by discriminate. exact Hid.
      - now left.
      - reflexivity.
      - now right. }
  destruct (JS.get (body req) "objectId") as [v|] eqn:Hget; [|discriminate].
  simpl in Hid.
  assert (Hv : (exists k, v = JStr k) \/ forall k, v <> JStr k).
  { destruct v; try (right; intros; discriminate). left. eauto. }
  destruct Hv as [[k ->] | Hv].
  - right. right. exists k. repeat (split; [first [assumption | reflexivity]|]).
    destruct w as [[rd m fs] td]. simpl in Hready. subst rd.
    unfold after_commands, keys. simpl.
    destruct (faults_cases2 fs) as [Hfs | [[later ->] | [later ->]]].
    + left. apply serve_POST_accepted; try assumption.
      * rewrite normalized_get_other by discriminate. assumption.
      * now apply normalized_well_formed.
    + right. left. apply (serve_POST_set_rejected schema req k); assumption.
    + right. right. apply (serve_POST_get_rejected schema req k); assumption.
  - right. left. eexists. split; [|split; [|split]]; cycle 3.
    + now apply (serve_POST_bad_key schema req w v).
    + now right.
    + reflexivity.
    + now right.
Qed.

(** Every GET: the client is not ready, the command is rejected, or the
    reply is read off what the key holds. *)
Lemma serve_GET_cases (req : Request) (w : World) :
  let run := serve GET_v1_plan req w in
  (exists msg, run = (Replied (MkResponse 500 [] (SentJson (JObj [("error", JStr msg)]))),
                      after_commands (if isReady (client w) then 1 else 0) (keys w) w))
  \/ (ready w /\ calm 1 w
      /\ run = (Replied (read_reply req (keys w !! params_id req)),
                after_commands 1 (keys w) w)).
Proof.
  intros run. subst run.
  destruct w as [[rd m fs] td]. unfold ready, calm, keys, after_commands. simpl.
  destruct rd.
  - destruct (faults_cases fs) as [Hfs | [later ->]].
    + right. split; [reflexivity|]. split; [assumption|].
      rewrite serve_GET_accepted by assumption. now destruct fs.
    + left. eexists. apply serve_GET_rejected.
  - left. eexists. apply (serve_not_ready GET).
Qed.

(** Every DELETE, in the same way. *)
Lemma serve_DELETE_cases (req : Request) (w : World) :
  let run := serve DELETE_v1_plan req w in
  (exists msg, run = (Replied (MkResponse 500 [] (SentJson (JObj [("error", JStr msg)]))),
                      after_commands (if isReady (client w) then 1 else 0) (keys w) w))
  \/ (ready w /\ calm 1 w
      /\ run = (Replied
                  (match keys w !! params_id req with
                   | Some _ =>
                       MkResponse 200 []
                         (SentJson (JObj [("message", JStr "Plan deleted successfully")]))
                   | None =>
                       MkResponse 404 [] (SentJson (JObj [("error", JStr "Plan not found")]))
                   end),
                after_commands 1 (delete (params_id req) (keys w)) w)).
Proof.
  intros run. subst run.
  destruct w as [[rd m fs] td]. unfold ready, calm, keys, after_commands. simpl.
  destruct rd.
  - destruct (faults_cases fs) as [Hfs | [later ->]].
    + right. split; [reflexivity|]. split; [assumption|].
      rewrite serve_DELETE_accepted by assumption. now destruct fs.
    + left. eexists. apply serve_DELETE_rejected.
  - left. eexists. apply (serve_not_ready DELETE).
Qed.

End Cases.

(** ** The plan lifecycle *)

Section Lifecycle.

Variable planSchema : Ajv.schema.

Import Steps Handlers Normalize Cases Tags.

(** A write that gets past validation and has a string [objectId], on a
    connected client whose next two commands are accepted. *)
Lemma create_outcome (req : Request) (w : World) (k : string) :
  ready w -> calm 2 w ->
  readable_date (body req) ->
  JS.well_formed (body req) = true ->
  Ajv.validate planSchema (normalized (today w) (body req)) = [] ->
  JS.get (body req) "objectId" = Some (JStr k) ->
  JS.truthy (JStr k) = true ->
  let doc := normalized (today w) (body req) in
  serve (POST_v1_plan planSchema) req w
  = (Replied (MkResponse 201 [("ETag", Etag.entitytag (JSON_stringify doc))] (SentJson doc)),
     after_commands 2 (<[k := JSON_stringify doc]> (keys w)) w).
Proof.
  destruct w as [[rd m fs] td]. unfold ready, calm, after_commands, keys. simpl.
  intros -> Hfs Hdate Hwf Hvalid Hid Hk.
  apply serve_POST_accepted; try assumption.
  - rewrite normalized_get_other by discriminate. assumption.
  - now apply normalized_well_formed.
Qed.

(** A read of a key that holds a stored record, on a connected client
    whose next command is accepted. *)
Lemma read_outcome (req : Request) (w : World) (doc : value) :
  ready w -> calm 1 w ->
  JS.well_formed doc = true ->
  keys w !! params_id req = Some (JSON_stringify doc) ->
  let tag := Etag.entitytag (JSON_stringify doc) in
  serve GET_v1_plan req w
  = (Replied
       (if bool_decide (if_none_match req = Some tag)
        then MkResponse 304 [] SentEmpty
        else if Fresh.fresh (if_none_match req) (Some tag)
             then MkResponse 304 [("ETag", tag)] SentEmpty
             else MkResponse 200 [("ETag", tag)] (SentJson doc)),
     after_commands 1 (keys w) w).
Proof.
  destruct w as [[rd m fs] td]. unfold ready, calm, after_commands, keys. simpl.
  intros -> Hfs Hwf Hm.
  rewrite serve_GET_accepted by assumption. rewrite Hm. unfold read_reply.
  unfold JS.truthy_text, JSON_stringify, JS.text_to_string.
  rewrite stringify_nonempty. simpl negb. cbv iota.
  rewrite JSONFacts.parse_stringify by assumption.
  destruct fs; reflexivity.
Qed.

Lemma calm_after (n k : nat) (m : gmap string string) (w : World) :
  calm (n + k) w -> calm k (after_commands n m w).
Proof.
  unfold calm, after_commands. simpl. generalize (faults (client w)). clear.
  induction n as [|n IH]; intros fs H; [exact H|].
  destruct fs as [|f fs]; [now destruct k|].
  simpl in H. apply andb_prop in H as [_ H]. apply IH, H.
Qed.

Lemma calm_le (n k : nat) (w : World) : (k <= n)%nat -> calm n w -> calm k w.
Proof.
  unfold calm. generalize (faults (client w)). revert k.
  induction n as [|n IH]; intros k fs Hle H.
  - now replace k with 0%nat by lia.
  - destruct k as [|k]; [reflexivity|]. destruct fs as [|f fs]; [reflexivity|].
    simpl in *. apply andb_prop in H as [Hf H]. rewrite Hf. simpl.
    apply IH; [lia | assumption].
Qed.

Lemma ready_after (n : nat) (m : gmap string string) (w : World) :
  ready w -> ready (after_commands n m w).
Proof. exact id. Qed.

(** C3 (create algorithm steps). A write whose normalized body passes
    validation and whose [objectId] is a non-empty string [k], on a
    connected client, sends two commands. The first is the SET of the
    serialized body under [k]: if the server rejects it, the reply is 500
    and the keys are as they were. The second is the GET of [k], sent
    once the text is stored, whatever the key held: if the server rejects
    it, the reply is 500 although the text is stored. When both are
    accepted, the reply is 201, its [ETag] is the fingerprint of the text
    the GET returned (its length in hexadecimal, a dash and 27 characters
    of digest, in quotes), and its body is that text decoded; the text is
    the one written, and decodes to the normalized body. *)
Theorem create_algorithm_steps (req : Request) (w : World) (k : string) :
  ready w ->
  readable_date (body req) ->
  JS.well_formed (body req) = true ->
  Ajv.validate planSchema (normalized (today w) (body req)) = [] ->
  JS.get (body req) "objectId" = Some (JStr k) ->
  JS.truthy (JStr k) = true ->
  let doc := normalized (today w) (body req) in
  let text := JSON_stringify doc in
  let run := serve (POST_v1_plan planSchema) req w in
  let failed :=
    Replied (MkResponse 500 [] (SentJson (JObj [("error", JStr "Error creating plan")]))) in
  (forall later, faults (client w) = true :: later ->
     run = (failed, after_commands 1 (keys w) w))
  /\ (forall later, faults (client w) = false :: true :: later ->
      run = (failed, after_commands 2 (<[k := text]> (keys w)) w))
  /\ (calm 2 w ->
      snd run = after_commands 2 (<[k := text]> (keys w)) w
      /\ exists fetched decoded fingerprint,
           fst (client_get (Some (JStr k))
                  (MkCtx (after_commands 1 (<[k := text]> (keys w)) w) fresh_res))
           = Ok (Some fetched)
           /\ Etag.etag (Some fetched) = Some fingerprint
           /\ JSON.parse fetched = Some decoded
           /\ fst run = Replied (MkResponse 201 [("ETag", fingerprint)] (SentJson decoded))
           /\ fetched = text /\ decoded = doc
           /\ exists digest,
                String.length digest = 27%nat
                /\ fingerprint
                   = String JSON.dquote
                       (Etag.to_hex (N.of_nat (String.length fetched)) +:+ "-" +:+ digest
                        +:+ String JSON.dquote "")).
Proof.
  intros Hready Hdate Hwf Hvalid Hid Hk doc text run failed. subst run failed.
  split; [|split].
  - intros later Hfs.
    destruct w as [[rd m fs] td]. unfold ready, after_commands, keys in *.
    simpl in *. subst rd fs. now apply (serve_POST_set_rejected planSchema req k).
  - intros later Hfs.
    destruct w as [[rd m fs] td]. unfold ready, after_commands, keys in *.
    simpl in *. subst rd fs. now apply (serve_POST_get_rejected planSchema req k).
  - intros Hcalm. rewrite (create_outcome req w k) by assumption.
    fold doc. fold text. split; [reflexivity|].
    exists text, doc, (Etag.entitytag text). simpl fst.
    split.
    { destruct w as [[rd m fs] td]. unfold ready, calm, after_commands, keys in *.
      simpl in *. subst rd.
      rewrite (client_get_accept _ _ td fresh_res k).
      - simpl. now rewrite lookup_insert_eq.
      - destruct fs as [|a [|b fs]]; try reflexivity. simpl in *.
        apply andb_prop in Hcalm as [_ Hb]. exact Hb. }
    split; [reflexivity|].
    split; [apply JSONFacts.parse_stringify; now apply normalized_well_formed|].
    split; [reflexivity|]. split; [reflexivity|]. split; [reflexivity|].
    destruct (entitytag_shape text) as (digest & Hlen & _ & Htag).
    now exists digest.
Qed.

(** C1 (round trip). After a successful write of a valid document with a
    non-empty string [objectId], a read of that key with no conditional
    token returns the document with [creationDate] normalized, every other
    property as written and the properties in the order written, under the
    fingerprint the write returned. A valid document is one whose date
    [moment] reads and whose normalized body passes validation. *)
Theorem create_read_round_trip (post get : Request) (w : World) (k : string) :
  ready w -> calm 3 w ->
  readable_date (body post) ->
  JS.well_formed (body post) = true ->
  Ajv.validate planSchema (normalized (today w) (body post)) = [] ->
  JS.get (body post) "objectId" = Some (JStr k) ->
  JS.truthy (JStr k) = true ->
  params_id get = k ->
  if_none_match get = None ->
  let doc := normalized (today w) (body post) in
  let created := serve (POST_v1_plan planSchema) post w in
  let read := serve GET_v1_plan get (snd created) in
  exists fingerprint,
    fst created = Replied (MkResponse 201 [("ETag", fingerprint)] (SentJson doc))
    /\ fst read = Replied (MkResponse 200 [("ETag", fingerprint)] (SentJson doc))
    /\ (forall f, f <> "creationDate" -> JS.get doc f = JS.get (body post) f)
    /\ (forall props, body post = JObj props ->
        exists props', doc = JObj props' /\ map fst props' = map fst props).
Proof.
  intros Hready Hcalm Hdate Hwf Hvalid Hid Hk Hget Hinm doc created read.
  subst created read.
  rewrite (create_outcome post w k)
    by first [assumption | apply (calm_le 3); [lia | assumption]].
  fold doc. simpl snd. simpl fst.
  rewrite (read_outcome get _ doc).
  - rewrite Hinm. rewrite bool_decide_eq_false_2 by discriminate.
    eexists. split; [reflexivity|]. split; [reflexivity|]. split.
    + intros f Hf. now apply normalized_get_other.
    + intros props Hbody. subst doc. rewrite Hbody. apply normalized_keys.
  - now apply ready_after.
  - now apply (calm_after 2 1).
  - now apply normalized_well_formed.
  - rewrite Hget. unfold keys, after_commands. simpl. apply lookup_insert_eq.
Qed.

(** A weak form of a tag is another string than the tag. *)
Lemma weak_tag_differs (tag : string) : "W/" +:+ tag <> tag.
Proof.
  intros H. apply (f_equal String.length) in H. rewrite length_append in H.
  simpl in H. lia.
Qed.

(** C2, as amended (read case analysis). On a connected client that
    accepts the command: a read of an absent key answers 404. A read of a
    key that holds a stored record answers 304 with no body and no header
    when the supplied token is, character for character, the fingerprint
    of the stored text: that is the comparison the handler makes. For any
    other token the handler sends 200 with the decoded document and the
    fingerprint as [ETag], and [res.json] then compares once more, by
    Express's rule for a fresh request: the weak form of the fingerprint,
    the header [*] and a list that holds the fingerprint get a 304 with
    no body, which still carries the [ETag]. With no token, or with a
    single token that is none of these, the reply is the 200. The keys
    are left as they were. *)
Theorem read_case_analysis (req : Request) (w : World) :
  ready w -> calm 1 w ->
  let run := serve GET_v1_plan req w in
  keys (snd run) = keys w
  /\ (keys w !! params_id req = None ->
      fst run = Replied (MkResponse 404 [] (SentJson (JObj [("error", JStr "Plan not found")]))))
  /\ (forall doc,
        JS.well_formed doc = true ->
        keys w !! params_id req = Some (JSON_stringify doc) ->
        let fingerprint := Etag.entitytag (JSON_stringify doc) in
        let full := Replied (MkResponse 200 [("ETag", fingerprint)] (SentJson doc)) in
        let revalidated := Replied (MkResponse 304 [("ETag", fingerprint)] SentEmpty) in
        (if_none_match req = Some fingerprint ->
         fst run = Replied (MkResponse 304 [] SentEmpty))
        /\ (if_none_match req <> Some fingerprint ->
            fst run = if Fresh.fresh (if_none_match req) (Some fingerprint)
                      then revalidated else full)
        /\ (if_none_match req = None -> fst run = full)
        /\ (if_none_match req = Some ("W/" +:+ fingerprint) -> fst run = revalidated)
        /\ (if_none_match req = Some "*" -> fst run = revalidated)
        /\ (forall token,
              if_none_match req = Some token -> Fresh.plain token = true ->
              token <> fingerprint -> token <> "W/" +:+ fingerprint -> token <> "*" ->
              fst run = full)).
Proof.
  intros Hready Hcalm run. subst run. split; [|split].
  - destruct w as [[rd m fs] td]. unfold ready, calm, keys in *. simpl in *. subst rd.
    now rewrite serve_GET_accepted.
  - intros Habsent.
    destruct w as [[rd m fs] td]. unfold ready, calm, keys in *. simpl in *. subst rd.
    rewrite serve_GET_accepted by assumption. now rewrite Habsent.
  - intros doc Hwf Hm fingerprint full revalidated.
    rewrite (read_outcome req w doc) by assumption. fold fingerprint. simpl fst.
    assert (Hother : if_none_match req <> Some fingerprint ->
                     Replied
                       (if bool_decide (if_none_match req = Some fingerprint)
                        then MkResponse 304 [] SentEmpty
                        else if Fresh.fresh (if_none_match req) (Some fingerprint)
                             then MkResponse 304 [("ETag", fingerprint)] SentEmpty
                             else MkResponse 200 [("ETag", fingerprint)] (SentJson doc))
                     = if Fresh.fresh (if_none_match req) (Some fingerprint)
                       then revalidated else full).
    { intros Htok. rewrite bool_decide_eq_false_2 by exact Htok.
      now destruct (Fresh.fresh _ _). }
    split; [|split; [|split; [|split; [|split]]]].
    + intros Htok. now rewrite bool_decide_eq_true_2.
    + exact Hother.
    + intros Htok. rewrite Hother by (rewrite Htok; discriminate).
      now rewrite Htok.
    + intros Htok. rewrite Hother.
      * rewrite Htok, fresh_weak; [reflexivity | apply entitytag_plain | reflexivity].
      * rewrite Htok. intros H. apply (weak_tag_differs fingerprint). congruence.
    + intros Htok. rewrite Hother by (rewrite Htok; discriminate).
      now rewrite Htok.
    + intros token Htok Hplain Hne Hweak Hstar.
      rewrite Hother by (rewrite Htok; congruence).
      rewrite Htok.
      destruct (Fresh.fresh (Some token) (Some fingerprint)) eqn:Hfresh; [|reflexivity].
      apply fresh_plain in Hfresh; [|exact Hplain].
      destruct Hfresh as [H | [H | [H | H]]]; try contradiction.
      now apply entitytag_not_weak in H.
Qed.

(** C10, as amended (the 304 of the handler is bare). A read never
    changes the keys. On a connected client that accepts the command, a
    token equal to the fingerprint of the stored text gets a 304 with no
    header and no body. Every 304 is without a body. Where every key
    holds a stored record, a reply that carries an [ETag] carries the
    fingerprint of the stored text, for a token that is not that
    fingerprint, and it is the 200 with the document, or the 304 Express
    sends in its place when the token makes the request fresh. *)
Theorem not_modified_is_bare (req : Request) (w : World) :
  let run := serve GET_v1_plan req w in
  keys (snd run) = keys w
  /\ (forall text,
        ready w -> calm 1 w ->
        keys w !! params_id req = Some text ->
        JS.truthy_text (Some text) = true ->
        if_none_match req = Some (Etag.entitytag text) ->
        run = (Replied (MkResponse 304 [] SentEmpty), after_commands 1 (keys w) w))
  /\ (forall r, fst run = Replied r -> statusCode r = 304 -> sent r = SentEmpty)
  /\ (stored_records (keys w) ->
      forall r tag,
        fst run = Replied r -> get_header "ETag" (headers r) = Some tag ->
        exists doc,
          keys w !! params_id req = Some (JSON_stringify doc)
          /\ tag = Etag.entitytag (JSON_stringify doc)
          /\ if_none_match req <> Some tag
          /\ (if Fresh.fresh (if_none_match req) (Some tag)
              then r = MkResponse 304 [("ETag", tag)] SentEmpty
              else r = MkResponse 200 [("ETag", tag)] (SentJson doc))).
Proof.
  intros run. subst run.
  destruct w as [[[] m fs] td]; unfold ready, calm, keys, after_commands; simpl client;
    simpl db; simpl isReady; simpl faults; simpl today.
  2: { change (serve GET_v1_plan req) with (serve (fun rq => ensure_ready GET rq read_plan) req).
       rewrite serve_not_ready. simpl.
       split; [reflexivity|]. split; [|split].
       - intros text Hr. discriminate Hr.
       - intros r Hr Hs. injection Hr as <-. discriminate Hs.
       - intros _ r tag [= <-]. discriminate. }
  destruct (faults_cases fs) as [Hfs | [later ->]].
  2: { rewrite serve_GET_rejected. simpl.
       split; [reflexivity|]. split; [|split].
       - intros text _ Hc. discriminate Hc.
       - intros r Hr Hs. injection Hr as <-. discriminate Hs.
       - intros _ r tag [= <-]. discriminate. }
  rewrite serve_GET_accepted by assumption. simpl fst. simpl snd. simpl db. simpl client.
  split; [reflexivity|]. split; [|split].
  - intros text _ _ Hm Htruthy Htok. rewrite Hm. unfold read_reply.
    rewrite Htruthy. change (negb true) with false. cbv iota.
    change (JS.text_to_string (Some text)) with text.
    rewrite bool_decide_eq_true_2 by assumption.
    now destruct fs.
  - intros r [= <-]. unfold read_reply.
    destruct (negb _); [discriminate|].
    destruct (bool_decide _); [reflexivity|].
    destruct (JSON.parse _); [|discriminate].
    destruct (Fresh.fresh _ _); [reflexivity | discriminate].
  - intros Hstored r tag [= <-]. unfold read_reply.
    destruct (m !! params_id req) as [text|] eqn:Hm; simpl; [|discriminate].
    destruct (Hstored _ _ Hm) as (doc & Hwf & ->).
    rewrite stringify_nonempty. simpl negb. cbv iota.
    rewrite JSONFacts.parse_stringify by assumption.
    case_bool_decide as Htok; [discriminate|].
    destruct (Fresh.fresh (if_none_match req) _) eqn:Hfresh; simpl;
      intros [= <-]; exists doc; rewrite Hfresh; auto.
Qed.

(** C5 (delete semantics). On a connected client that accepts the
    commands: deleting a key that holds a text answers 200, removes the
    key, and a read of the key then answers 404; deleting an absent key
    answers 404 and leaves the keys as they were. The handler tells the two
    apart by the count [client.del] returns, 1 or 0. *)
Theorem delete_semantics (req : Request) (w : World) :
  ready w -> calm 2 w ->
  let k := params_id req in
  let run := serve DELETE_v1_plan req w in
  (is_Some (keys w !! k) ->
   run = (Replied (MkResponse 200 []
                     (SentJson (JObj [("message", JStr "Plan deleted successfully")]))),
          after_commands 1 (delete k (keys w)) w)
   /\ keys (snd run) !! k = None
   /\ fst (client_del (Some (JStr k)) (MkCtx w fresh_res)) = Ok 1
   /\ forall get, params_id get = k ->
        fst (serve GET_v1_plan get (snd run))
        = Replied (MkResponse 404 [] (SentJson (JObj [("error", JStr "Plan not found")]))))
  /\ (keys w !! k = None ->
      run = (Replied (MkResponse 404 [] (SentJson (JObj [("error", JStr "Plan not found")]))),
             after_commands 1 (keys w) w)
      /\ fst (client_del (Some (JStr k)) (MkCtx w fresh_res)) = Ok 0).
Proof.
  intros Hready Hcalm k run. subst run.
  destruct w as [[rd m fs] td]. unfold ready, calm, keys, after_commands in *.
  simpl in Hready, Hcalm. subst rd. simpl client; simpl db; simpl isReady;
    simpl faults; simpl today.
  assert (forallb negb (take 1 fs) = true) as Hone by now apply calm_weaken.
  rewrite serve_DELETE_accepted by assumption. fold k.
  rewrite (client_del_accept m fs td fresh_res k Hone). simpl fst. simpl snd.
  simpl client; simpl db.
  replace (tail fs) with (drop 1 fs) by now destruct fs.
  split.
  - intros [text Hm]. rewrite Hm. split; [reflexivity|].
    split; [apply lookup_delete_eq|]. split; [reflexivity|].
    intros get Hget. rewrite serve_GET_accepted.
    + rewrite Hget. fold k. now rewrite lookup_delete_eq.
    + replace (drop 1 fs) with (tail fs) by now destruct fs.
      now apply calm_tail.
  - intros Hm. rewrite Hm. split; [|reflexivity].
    now rewrite delete_id.
Qed.

(** C6 (overwrite semantics). Two successful writes of valid documents
    under the same [objectId]: the key then holds the text of the second
    document alone, the keys are what they would be had the first write not
    happened, and a read returns the second document. A key holds one
    text. A valid document is one whose date [moment] reads and whose
    normalized body passes validation. *)
Theorem overwrite_semantics (first second : Request) (w : World) (k : string) :
  ready w -> calm 5 w ->
  readable_date (body first) ->
  readable_date (body second) ->
  JS.well_formed (body first) = true ->
  JS.well_formed (body second) = true ->
  Ajv.validate planSchema (normalized (today w) (body first)) = [] ->
  Ajv.validate planSchema (normalized (today w) (body second)) = [] ->
  JS.get (body first) "objectId" = Some (JStr k) ->
  JS.get (body second) "objectId" = Some (JStr k) ->
  JS.truthy (JStr k) = true ->
  let doc' := normalized (today w) (body second) in
  let w1 := snd (serve (POST_v1_plan planSchema) first w) in
  let w2 := snd (serve (POST_v1_plan planSchema) second w1) in
  keys w2 !! k = Some (JSON_stringify doc')
  /\ keys w2 = <[k := JSON_stringify doc']> (keys w)
  /\ keys w2 = keys (snd (serve (POST_v1_plan planSchema) second w))
  /\ forall get, params_id get = k -> if_none_match get = None ->
       fst (serve GET_v1_plan get w2)
       = Replied (MkResponse 200 [("ETag", Etag.entitytag (JSON_stringify doc'))]
                             (SentJson doc')).
Proof.
  intros Hready Hcalm Hdate1 Hdate2 Hwf1 Hwf2 Hv1 Hv2 Hid1 Hid2 Hk doc' w1 w2.
  assert (calm 2 w) as Hcalm2 by (apply (calm_le 5); [lia | assumption]).
  assert (w1 = after_commands 2 (<[k := JSON_stringify (normalized (today w) (body first))]>
                                   (keys w)) w) as Hw1.
  { subst w1. now rewrite (create_outcome first w k). }
  assert (calm 3 w1) as Hcalm3 by (rewrite Hw1; now apply (calm_after 2 3)).
  assert (ready w1) as Hready1 by (rewrite Hw1; now apply ready_after).
  assert (today w1 = today w) as Htoday by now rewrite Hw1.
  assert (w2 = after_commands 2 (<[k := JSON_stringify doc']> (keys w1)) w1) as Hw2.
  { subst w2 doc'. rewrite <- Htoday.
    apply (f_equal snd (create_outcome second w1 k Hready1
             ltac:(apply (calm_le 3); [lia | assumption]) Hdate2 Hwf2
             ltac:(rewrite Htoday; assumption) Hid2 Hk)). }
  assert (keys w2 = <[k := JSON_stringify doc']> (keys w)) as Hkeys.
  { rewrite Hw2, Hw1. unfold keys, after_commands. simpl. apply insert_insert_eq. }
  split; [rewrite Hkeys; apply lookup_insert_eq|]. split; [exact Hkeys|]. split.
  - rewrite Hkeys. now rewrite (create_outcome second w k).
  - intros get Hget Hinm.
    rewrite (read_outcome get w2 doc').
    + rewrite Hinm. now rewrite bool_decide_eq_false_2 by discriminate.
    + rewrite Hw2. now apply ready_after.
    + rewrite Hw2. now apply (calm_after 2 1).
    + now apply normalized_well_formed.
    + rewrite Hget, Hkeys. apply lookup_insert_eq.
Qed.

(** C8 (idempotent fingerprint). Reads of a key that holds a stored
    record, one after the other on a connected client that accepts the
    commands, leave the keys as they were, and every reply that carries a
    fingerprint carries that of the stored text: the 200 of a read with
    no token, and for a token other than the fingerprint the 200 or the
    304 Express sends in its place; a token equal to the fingerprint gets
    the bare 304. The reply to a read is a function of the request and of
    the text the key holds: two processes that hold the same text under
    the key give the same reply. *)
Theorem fingerprint_idempotent (reqs : list Request) (w : World) (k text : string) :
  ready w -> calm (length reqs) w ->
  keys w !! k = Some text ->
  stored_record text ->
  Forall (fun rq => params_id rq = k) reqs ->
  let run := serve_all GET_v1_plan reqs w in
  let tag := Etag.entitytag text in
  keys (snd run) = keys w
  /\ Forall2 (fun rq o =>
                if bool_decide (if_none_match rq = Some tag)
                then o = Replied (MkResponse 304 [] SentEmpty)
                else header "ETag" o = Some tag
                     /\ status o = Some (if Fresh.fresh (if_none_match rq) (Some tag)
                                         then 304 else 200))
             reqs (fst run)
  /\ (Forall (fun rq => if_none_match rq = None) reqs ->
      Forall (fun o => status o = Some 200 /\ header "ETag" o = Some tag) (fst run))
  /\ (forall w' rq,
        calm 1 w -> ready w' -> calm 1 w' ->
        keys w' !! params_id rq = keys w !! params_id rq ->
        fst (serve GET_v1_plan rq w') = fst (serve GET_v1_plan rq w)).
Proof.
  intros Hready Hcalm Hm (doc & Hwf & ->) Hreqs run tag. subst run.
  set (reply := fun rq : Request =>
         Replied (if bool_decide (if_none_match rq = Some tag)
                  then MkResponse 304 [] SentEmpty
                  else if Fresh.fresh (if_none_match rq) (Some tag)
                       then MkResponse 304 [("ETag", tag)] SentEmpty
                       else MkResponse 200 [("ETag", tag)] (SentJson doc))).
  assert (forall w0,
            ready w0 -> calm (length reqs) w0 -> keys w0 = keys w ->
            keys (snd (serve_all GET_v1_plan reqs w0)) = keys w
            /\ fst (serve_all GET_v1_plan reqs w0) = map reply reqs) as Hall.
  { clear Hcalm.
    induction Hreqs as [|rq reqs Hid Hrest IH]; intros w0 Hr0 Hc0 Hk0.
    - simpl. auto.
    - simpl serve_all.
      rewrite (read_outcome rq w0 doc);
        [ | assumption | apply (calm_le (length (rq :: reqs))); [simpl; lia | assumption]
          | assumption | rewrite Hid, Hk0; exact Hm ].
      destruct (IH (after_commands 1 (keys w0) w0)) as (IHk & IHo).
      + now apply ready_after.
      + now apply (calm_after 1 (length reqs)).
      + exact Hk0.
      + destruct (serve_all GET_v1_plan reqs (after_commands 1 (keys w0) w0)) as [os w3].
        simpl in *. split; [assumption|]. now rewrite IHo. }
  destruct (Hall w Hready Hcalm eq_refl) as (H1 & H2).
  split; [exact H1|]. rewrite H2. split; [|split].
  - clear. induction reqs as [|rq reqs IH]; constructor; [|exact IH].
    unfold reply. destruct (bool_decide _); [reflexivity|].
    destruct (Fresh.fresh _ _); split; reflexivity.
  - intros Hnone. clear -Hnone.
    induction Hnone as [|rq reqs Hrq _ IH]; constructor; [|exact IH].
    unfold reply. rewrite Hrq. rewrite bool_decide_eq_false_2 by discriminate.
    split; reflexivity.
  - intros w' rq Hc Hr' Hc' Hsame.
    destruct w as [[rd m fs] td], w' as [[rd' m' fs'] td'].
    unfold ready, calm, keys in *. simpl in *. subst rd rd'.
    rewrite !serve_GET_accepted by assumption. simpl. now rewrite Hsame.
Qed.

(** *** Every request is answered *)

Lemma replies_bind {A} (m : M A) (k : A -> M unit) :
  (forall a, replies (k a)) -> replies (bind m k).
Proof.
  intros H c. unfold bind. destruct (m c) as [[a|e] c']; [apply H | exact I].
Qed.

Lemma replies_json (method : Method) (req : Request) (v : value) :
  replies (res_json method req v).
Proof. intros c. simpl. destruct (_ || _); discriminate. Qed.

Lemma replies_end : replies res_end.
Proof. intros c. simpl. discriminate. Qed.

Lemma answers_status_json (method : Method) (req : Request) (code : Z) (v : value) :
  answers (res_status code ;; res_json method req v)%js.
Proof.
  intros c. eexists. split; [reflexivity|]. simpl. destruct (_ || _); discriminate.
Qed.

Lemma answers_replies (m : M unit) : answers m -> replies m.
Proof. intros H c. now destruct (H c) as (c' & -> & Hs). Qed.

Lemma answers_catch (m : M unit) (h : exn -> M unit) :
  replies m -> (forall e, answers (h e)) -> answers (try_catch m h).
Proof.
  intros Hm Hh c. unfold try_catch. specialize (Hm c).
  destruct (m c) as [[[]|e] c']; [eauto | apply Hh].
Qed.

Lemma create_plan_answers (req : Request) : answers (create_plan req).
Proof.
  unfold create_plan.
  apply answers_catch; [|intros; apply answers_status_json].
  destruct (negb _); [apply answers_replies, answers_status_json|].
  repeat (apply replies_bind; intros). apply replies_json.
Qed.

Lemma read_plan_answers (req : Request) : answers (read_plan req).
Proof.
  unfold read_plan.
  apply answers_catch; [|intros; apply answers_status_json].
  apply replies_bind. intros stored.
  destruct (negb _); [apply answers_replies, answers_status_json|].
  apply replies_bind. intros tag.
  destruct (bool_decide _).
  - apply replies_bind. intros. apply replies_end.
  - repeat (apply replies_bind; intros). apply replies_json.
Qed.

Lemma delete_plan_answers (req : Request) : answers (delete_plan req).
Proof.
  unfold delete_plan.
  apply answers_catch; [|intros; apply answers_status_json].
  apply replies_bind. intros count.
  destruct (count =? 0); apply answers_replies, answers_status_json.
Qed.

Lemma ensure_ready_answers (method : Method) (req : Request) (next : Request -> M unit) :
  answers (next req) -> answers (ensure_ready method req next).
Proof.
  intros H c. unfold ensure_ready, bind, get_client.
  destruct (negb _); [apply answers_status_json | apply H].
Qed.

(** [transformDate] goes on to [next] when [moment] reads the date. *)
Lemma transformDate_answers (req : Request) (next : Request -> M unit) :
  readable_date (body req) ->
  (forall rq, answers (next rq)) -> answers (transformDate req next).
Proof. intros Hdate H c. rewrite transformDate_normalized by exact Hdate. apply H. Qed.

Lemma validateSchema_answers (schema : Ajv.schema) (method : Method) (req : Request)
    (next : Request -> M unit) :
  (forall rq, answers (next rq)) -> answers (validateSchema schema method req next).
Proof.
  intros H. unfold validateSchema.
  destruct (Ajv.validate schema (body req)); [apply H | apply answers_status_json].
Qed.

Lemma serve_answers (route : Request -> M unit) (req : Request) (w : World) :
  answers (route req) -> exists r, fst (serve route req w) = Replied r.
Proof.
  intros H. unfold serve. destruct (H (MkCtx w fresh_res)) as (c' & -> & Hs).
  simpl. destruct (sent (res c')); [contradiction | eauto | eauto].
Qed.

(** C9 (error containment). Every read and every delete is answered by
    its route. Every write is answered by its route, with one exception:
    on a connected client, a write whose [creationDate] makes [moment]
    throw ends in that TypeError, which leaves the middleware before
    anything is sent to the server; Express catches it and answers, and
    the process goes on as it was. When the client is not ready the
    answer of every route is 500 and nothing is sent to the server. When
    the server rejects a command the answer is the 500 of the route with
    its fixed message. After a write that ended in the TypeError the
    requests that follow are served as if it had not come. *)
Theorem error_containment (req : Request) (w : World) :
  ((exists r, fst (serve GET_v1_plan req w) = Replied r)
   /\ (exists r, fst (serve DELETE_v1_plan req w) = Replied r)
   /\ ((exists r, fst (serve (POST_v1_plan planSchema) req w) = Replied r)
       \/ (exists msg, ready w /\ ~ readable_date (body req)
                       /\ serve (POST_v1_plan planSchema) req w
                          = (Uncaught (TypeError msg), w)))
   /\ (isReady (client w) = false \/ readable_date (body req) ->
       exists r, fst (serve (POST_v1_plan planSchema) req w) = Replied r))
  /\ (isReady (client w) = false ->
      let unavailable :=
        (Replied (MkResponse 500 []
                    (SentJson (JObj [("error", JStr "Redis client is not connected")]))), w) in
      serve (POST_v1_plan planSchema) req w = unavailable
      /\ serve GET_v1_plan req w = unavailable
      /\ serve DELETE_v1_plan req w = unavailable)
  /\ (forall later,
        ready w -> faults (client w) = true :: later ->
        let failed (msg : string) :=
          (Replied (MkResponse 500 [] (SentJson (JObj [("error", JStr msg)]))),
           after_commands 1 (keys w) w) in
        serve GET_v1_plan req w = failed "Error retrieving plan"
        /\ serve DELETE_v1_plan req w = failed "Error deleting plan"
        /\ (forall k,
              readable_date (body req) ->
              Ajv.validate planSchema (normalized (today w) (body req)) = [] ->
              JS.get (body req) "objectId" = Some (JStr k) ->
              JS.truthy (JStr k) = true ->
              serve (POST_v1_plan planSchema) req w = failed "Error creating plan"))
  /\ (forall later k,
        ready w -> faults (client w) = false :: true :: later ->
        readable_date (body req) ->
        Ajv.validate planSchema (normalized (today w) (body req)) = [] ->
        JS.get (body req) "objectId" = Some (JStr k) ->
        JS.truthy (JStr k) = true ->
        fst (serve (POST_v1_plan planSchema) req w)
        = Replied (MkResponse 500 [] (SentJson (JObj [("error", JStr "Error creating plan")]))))
  /\ (forall calls,
        ready w -> ~ readable_date (body req) ->
        exists msg,
          serve_calls planSchema ((POST_plan, req) :: calls) w
          = (Uncaught (TypeError msg) :: fst (serve_calls planSchema calls w),
             snd (serve_calls planSchema calls w))).
Proof.
  assert (Hunavailable :
            isReady (client w) = false ->
            serve (POST_v1_plan planSchema) req w
            = (Replied (MkResponse 500 []
                          (SentJson (JObj [("error", JStr "Redis client is not connected")]))),
               w)).
  { destruct w as [[rd m fs] td]. simpl. intros ->. apply (serve_not_ready POST). }
  assert (Hreadable :
            readable_date (body req) ->
            exists r, fst (serve (POST_v1_plan planSchema) req w) = Replied r).
  { intros Hdate. apply serve_answers.
    apply ensure_ready_answers, transformDate_answers; [exact Hdate|].
    intros rq. apply validateSchema_answers, create_plan_answers. }
  split; [|split; [|split; [|split]]].
  - split; [|split; [|split]].
    + apply serve_answers, ensure_ready_answers, read_plan_answers.
    + apply serve_answers, ensure_ready_answers, delete_plan_answers.
    + destruct (isReady (client w)) eqn:Hready.
      * destruct (date_error (body req)) as [msg|] eqn:Hdate.
        -- right. exists msg. split; [exact Hready|].
           split; [unfold readable_date; congruence|].
           now apply serve_POST_unreadable.
        -- left. now apply Hreadable.
      * left. rewrite Hunavailable by reflexivity. eauto.
    + intros [Hdown | Hdate]; [|now apply Hreadable].
      rewrite Hunavailable by exact Hdown. eauto.
  - intros Hdown. split; [now apply Hunavailable|].
    destruct w as [[rd m fs] td]. simpl in Hdown. subst rd.
    split; [apply (serve_not_ready GET) | apply (serve_not_ready DELETE)].
  - intros later Hready Hfaults.
    destruct w as [[rd m fs] td]. unfold ready, after_commands, keys in *.
    simpl in *. subst rd fs. simpl.
    split; [apply serve_GET_rejected|]. split; [apply serve_DELETE_rejected|].
    intros k Hdate Hvalid Hid Hk.
    now apply (serve_POST_set_rejected planSchema req k).
  - intros later k Hready Hfaults Hdate Hvalid Hid Hk.
    destruct w as [[rd m fs] td]. unfold ready in *. simpl in *. subst rd fs.
    now rewrite (serve_POST_get_rejected planSchema req k).
  - intros calls Hready Hdate. unfold readable_date in Hdate.
    destruct (date_error (body req)) as [msg|] eqn:Hmsg; [|congruence].
    exists msg. simpl.
    rewrite (serve_POST_unreadable planSchema req w msg) by assumption.
    now destruct (serve_calls planSchema calls w).
Qed.

End Lifecycle.

(** ** Schema validation *)

Module AjvFacts.
Import Ajv.

Lemma first_missing_in (required : list string) (data : instance) (f : string) :
  In f required -> read data f = None -> first_missing required data <> None.
Proof.
  induction required as [|k required IH]; simpl; [tauto|].
  intros [-> | Hin] Hf.
  - now rewrite Hf.
  - destruct (read data k); [now apply IH | discriminate].
Qed.

Lemma first_missing_some (required : list string) (data : instance) (k : string) :
  first_missing required data = Some k -> In k required /\ read data k = None.
Proof.
  induction required as [|f required IH]; simpl; [discriminate|].
  destruct (read data f) eqn:Hf.
  - intros H. destruct (IH H). auto.
  - intros [= <-]. auto.
Qed.

Lemma first_errors_some {A} (check : A -> list error) (xs : list A) (x : A) :
  In x xs -> check x <> [] -> first_errors check xs <> [].
Proof.
  induction xs as [|y xs IH]; simpl; [tauto|].
  intros [-> | Hin] Hx.
  - now destruct (check x).
  - destruct (check y); [now apply IH | discriminate].
Qed.

Lemma first_errors_inv {A} (check : A -> list error) (xs : list A) :
  first_errors check xs <> [] -> exists x, In x xs /\ check x <> [].
Proof.
  induction xs as [|y xs IH]; simpl; [tauto|].
  destruct (check y) eqn:Hy.
  - intros H. destruct (IH H) as (x & Hin & Hx). eauto.
  - intros _. exists y. split; [now left | now rewrite Hy].
Qed.

Lemma indexed_in (x : value) (l : list value) (n : N) :
  In x l <-> exists i, In (i, x) (indexed n l).
Proof.
  revert n. induction l as [|y l IH]; intros n; simpl.
  - split; [tauto | now intros [i H]].
  - split.
    + intros [-> | Hin]; [eauto|].
      apply (IH (n + 1)%N) in Hin as [i Hi]. eauto.
    + intros [i [[= _ ->] | Hi]]; [now left|].
      right. apply (IH (n + 1)%N). eauto.
Qed.

(** The validator on an object, and on an array. *)
Lemma validate_at_object (type : option jtype) (required : list string)
    (properties : list (string * schema)) (items : option schema)
    (ipath spath : string) (data : instance) :
  is_object data = true ->
  validate_at (Schema type required properties items) ipath spath data
  = let by_kind :=
      match first_missing required data with
      | Some k => [required_error ipath spath k]
      | None =>
          first_errors
            (fun '(k, sub) =>
               match read data k with
               | None => []
               | Some x =>
                   validate_at sub (ipath +:+ "/" +:+ escape_json_pointer k)
                     (spath +:+ "/properties/" +:+ escape_fragment k) x
               end)
            properties
      end in
    match type with
    | Some t => if has_type t data then by_kind else [type_error ipath spath t]
    | None => by_kind
    end.
Proof. destruct data as [[]| |]; try discriminate; reflexivity. Qed.

Lemma validate_at_array (type : option jtype) (required : list string)
    (properties : list (string * schema)) (items : option schema)
    (ipath spath : string) (elems : list value) :
  validate_at (Schema type required properties items) ipath spath (Data (JArr elems))
  = let by_kind :=
      match items with
      | None => []
      | Some sub =>
          first_errors
            (fun '(i, x) =>
               validate_at sub (ipath +:+ "/" +:+ JS.string_of_N i)
                 (spath +:+ "/items") (Data x))
            (indexed 0 elems)
      end in
    match type with
    | Some t => if has_type t (Data (JArr elems)) then by_kind
                else [type_error ipath spath t]
    | None => by_kind
    end.
Proof. reflexivity. Qed.

Lemma validate_at_other (type : option jtype) (required : list string)
    (properties : list (string * schema)) (items : option schema)
    (ipath spath : string) (data : instance) :
  is_object data = false -> (forall elems, data <> Data (JArr elems)) ->
  validate_at (Schema type required properties items) ipath spath data
  = match type with
    | Some t => if has_type t data then [] else [type_error ipath spath t]
    | None => []
    end.
Proof.
  intros Hobj Harr. destruct data as [[]| |]; try discriminate; try reflexivity.
  now destruct (Harr items0).
Qed.

(** A violated schema leaves an error. *)
Lemma violates_invalid (s : schema) (data : instance) :
  violates s data -> forall ipath spath, validate_at s ipath spath data <> [].
Proof.
  induction 1 as [s data t Ht Hno | s data k Hobj Hin Hread
                 | s data k sub x Hobj Hin Hread Hsub IH
                 | s elems sub x Hitems Hin Hsub IH]; intros ipath spath;
    destruct s as [type required properties items];
    cbn [schema_type schema_required schema_properties schema_items] in *.
  - subst type.
    destruct data as [[]| |]; cbn; rewrite ?Hno; cbn in Hno; try rewrite Hno;
      discriminate.
  - rewrite validate_at_object by exact Hobj. cbv zeta.
    pose proof (first_missing_in required data k Hin Hread) as Hmiss.
    destruct (first_missing required data); [|congruence].
    destruct type as [t|]; [destruct (has_type t data)|]; discriminate.
  - rewrite validate_at_object by exact Hobj. cbv zeta.
    assert (Hloop :
              first_errors
                (fun '(k0, sub0) =>
                   match read data k0 with
                   | None => []
                   | Some x0 =>
                       validate_at sub0 (ipath +:+ "/" +:+ escape_json_pointer k0)
                         (spath +:+ "/properties/" +:+ escape_fragment k0) x0
                   end) properties <> []).
    { apply (first_errors_some _ _ (k, sub)); [exact Hin|]. rewrite Hread. apply IH. }
    destruct (first_missing required data);
      (destruct type as [t|]; [destruct (has_type t data)|]);
      try discriminate; exact Hloop.
  - rewrite validate_at_array. cbv zeta. subst items.
    assert (Hloop :
              first_errors
                (fun '(i, x0) =>
                   validate_at sub (ipath +:+ "/" +:+ JS.string_of_N i)
                     (spath +:+ "/items") (Data x0)) (indexed 0 elems) <> []).
    { apply (indexed_in x elems 0%N) in Hin as [i Hi].
      apply (first_errors_some _ _ (i, x)); [exact Hi | apply IH]. }
    destruct type as [t|]; [destruct (has_type t _)|]; try discriminate; exact Hloop.
Qed.

(** An error comes from a violation. *)
Lemma invalid_violates (s : schema) :
  forall ipath spath data, validate_at s ipath spath data <> [] -> violates s data.
Proof.
  induction s as [type required properties items IHprops IHitems] using schema_ind.
  intros ipath spath data Herr.
  destruct type as [t|] eqn:Htype.
  - destruct (has_type t data) eqn:Ht.
    2:{ now apply (violates_type _ _ t). }
    assert (Herr' : validate_at (Schema None required properties items) ipath spath data
                    <> []).
    { intros H. apply Herr. revert H.
      destruct data as [[]| |]; cbn; rewrite ?Ht; cbn in Ht; try rewrite Ht; auto. }
    clear Herr.
    destruct (is_object data) eqn:Hobj.
    + rewrite validate_at_object in Herr' by exact Hobj. cbv zeta in Herr'.
      destruct (first_missing required data) as [k|] eqn:Hmiss.
      * apply first_missing_some in Hmiss as [Hin Hread].
        now apply (violates_required _ _ k).
      * apply first_errors_inv in Herr' as ([k sub] & Hin & Hx).
        destruct (read data k) as [x|] eqn:Hread; [|congruence].
        apply (violates_property _ _ k sub x); try assumption.
        pose proof (proj1 (List.Forall_forall _ _) IHprops _ Hin) as IHsub.
        apply (IHsub _ _ _ Hx).
    + destruct data as [[| | | |elems|]| |]; try discriminate Hobj;
        try (now cbn in Herr').
      rewrite validate_at_array in Herr'. cbv zeta in Herr'.
      destruct items as [sub|]; [|congruence].
      apply first_errors_inv in Herr' as ([i x] & Hin & Hx).
      apply (violates_item _ _ sub x); [reflexivity | | now apply (IHitems _ _ _ Hx)].
      apply (indexed_in x elems 0%N). eauto.
  - destruct (is_object data) eqn:Hobj.
    + rewrite validate_at_object in Herr by exact Hobj. cbv zeta in Herr.
      destruct (first_missing required data) as [k|] eqn:Hmiss.
      * apply first_missing_some in Hmiss as [Hin Hread].
        now apply (violates_required _ _ k).
      * apply first_errors_inv in Herr as ([k sub] & Hin & Hx).
        destruct (read data k) as [x|] eqn:Hread; [|congruence].
        apply (violates_property _ _ k sub x); try assumption.
        pose proof (proj1 (List.Forall_forall _ _) IHprops _ Hin) as IHsub.
        apply (IHsub _ _ _ Hx).
    + destruct data as [[| | | |elems|]| |]; try discriminate Hobj;
        try (now cbn in Herr).
      rewrite validate_at_array in Herr. cbv zeta in Herr.
      destruct items as [sub|]; [|congruence].
      apply first_errors_inv in Herr as ([i x] & Hin & Hx).
      apply (violates_item _ _ sub x); [reflexivity | | now apply (IHitems _ _ _ Hx)].
      apply (indexed_in x elems 0%N). eauto.
Qed.

(** The validator rejects the data exactly when they violate the schema. *)
Lemma validate_violates (s : schema) (data : value) :
  validate s data <> [] <-> violates s (Data data).
Proof.
  split; [apply invalid_violates | intros H; now apply violates_invalid].
Qed.

End AjvFacts.

(** ** Dates *)

Module MomentFacts.
Import Moment.

Lemma is_digit_in (c : ascii) : is_digit c = true -> In c digit_chars.
Proof.
  destruct c as [[] [] [] [] [] [] [] []]; intros H;
    first [discriminate H | simpl; tauto].
Qed.

Lemma zero_fill_two_all :
  forallb (fun a => forallb (fun b =>
    String.eqb (zero_fill 2 (to_int (two a b))) (two a b)) digit_chars) digit_chars = true.
Proof. vm_compute. reflexivity. Qed.

Lemma zero_fill_four_all :
  forallb (fun a => forallb (fun b => forallb (fun c => forallb (fun d =>
    String.eqb (zero_fill 4 (to_int (four a b c d))) (four a b c d))
    digit_chars) digit_chars) digit_chars) digit_chars = true.
Proof. vm_compute. reflexivity. Qed.

(** Two digits print back as they were written. *)
Lemma zero_fill_two (a b : ascii) :
  is_digit a = true -> is_digit b = true ->
  zero_fill 2 (to_int (two a b)) = two a b.
Proof.
  intros Ha Hb. apply is_digit_in in Ha, Hb.
  pose proof zero_fill_two_all as H.
  rewrite forallb_forall in H. specialize (H a Ha).
  rewrite forallb_forall in H. specialize (H b Hb).
  now apply String.eqb_eq in H.
Qed.

(** Four digits print back as they were written. *)
Lemma zero_fill_four (a b c d : ascii) :
  is_digit a = true -> is_digit b = true -> is_digit c = true -> is_digit d = true ->
  zero_fill 4 (to_int (four a b c d)) = four a b c d.
Proof.
  intros Ha Hb Hc Hd. apply is_digit_in in Ha, Hb, Hc, Hd.
  pose proof zero_fill_four_all as H.
  rewrite forallb_forall in H. specialize (H a Ha).
  rewrite forallb_forall in H. specialize (H b Hb).
  rewrite forallb_forall in H. specialize (H c Hc).
  rewrite forallb_forall in H. specialize (H d Hd).
  now apply String.eqb_eq in H.
Qed.

Lemma is_digit_not_dash (c : ascii) : is_digit c = true -> Ascii.eqb c "-" = false.
Proof.
  intros H. apply is_digit_in in H. simpl in H.
  repeat (destruct H as [<- | H]; [reflexivity|]). destruct H.
Qed.

(** [moment] throws on no string: it parses the string itself. *)
Lemma moment_of_string (td : date) (s : string) :
  moment_DD_MM_YYYY td (JStr s) = Read (parse_DD_MM_YYYY td s).
Proof. reflexivity. Qed.

(** The forgiving parser reads a text of the form DD-MM-YYYY as the date
    it writes, when that date exists. *)
Lemma parse_written (td : date) (d1 d2 m1 m2 y1 y2 y3 y4 : ascii) :
  is_digit d1 = true -> is_digit d2 = true ->
  is_digit m1 = true -> is_digit m2 = true ->
  is_digit y1 = true -> is_digit y2 = true ->
  is_digit y3 = true -> is_digit y4 = true ->
  overflows (written_date d1 d2 m1 m2 y1 y2 y3 y4) = false ->
  parse_DD_MM_YYYY td (dd_mm_yyyy d1 d2 m1 m2 y1 y2 y3 y4)
  = Some (written_date d1 d2 m1 m2 y1 y2 y3 y4).
Proof.
  intros Hd1 Hd2 Hm1 Hm2 Hy1 Hy2 Hy3 Hy4 Hvalid.
  unfold parse_DD_MM_YYYY, dd_mm_yyyy.
  cbn [find_digits take_digits]. rewrite Hd1, Hd2.
  unfold skip_dash. cbn [find_dash]. simpl Ascii.eqb. cbv iota.
  cbn [find_digits take_digits]. rewrite Hm1, Hm2.
  cbn [find_dash]. simpl Ascii.eqb. cbv iota.
  cbn [find_digits take_digits]. rewrite Hy1, Hy2, Hy3, Hy4.
  unfold parse_year. simpl String.length. simpl Nat.eqb. cbv iota.
  unfold written_date in Hvalid. rewrite Hvalid. reflexivity.
Qed.

Lemma moment_written (td : date) (d1 d2 m1 m2 y1 y2 y3 y4 : ascii) :
  is_digit d1 = true -> is_digit d2 = true ->
  is_digit m1 = true -> is_digit m2 = true ->
  is_digit y1 = true -> is_digit y2 = true ->
  is_digit y3 = true -> is_digit y4 = true ->
  overflows (written_date d1 d2 m1 m2 y1 y2 y3 y4) = false ->
  moment_DD_MM_YYYY td (JStr (dd_mm_yyyy d1 d2 m1 m2 y1 y2 y3 y4))
  = Read (Some (written_date d1 d2 m1 m2 y1 y2 y3 y4)).
Proof.
  intros. rewrite moment_of_string. now rewrite parse_written.
Qed.

Lemma format_written (d1 d2 m1 m2 y1 y2 y3 y4 : ascii) :
  is_digit d1 = true -> is_digit d2 = true ->
  is_digit m1 = true -> is_digit m2 = true ->
  is_digit y1 = true -> is_digit y2 = true ->
  is_digit y3 = true -> is_digit y4 = true ->
  format_YYYY_MM_DD (Some (written_date d1 d2 m1 m2 y1 y2 y3 y4))
  = yyyy_mm_dd d1 d2 m1 m2 y1 y2 y3 y4.
Proof.
  intros Hd1 Hd2 Hm1 Hm2 Hy1 Hy2 Hy3 Hy4.
  unfold format_YYYY_MM_DD, written_date. simpl year. simpl month. simpl day.
  fold (two d1 d2). fold (two m1 m2). fold (four y1 y2 y3 y4).
  rewrite zero_fill_four, !zero_fill_two by assumption. reflexivity.
Qed.

End MomentFacts.

(** ** Normalization and validation of a write *)

Module Rewritten.
Import Normalize.

(** A string is a date [moment] reads. *)
Lemma string_readable (doc : value) (s : string) :
  JS.get doc "creationDate" = Some (JStr s) -> readable_date doc.
Proof.
  intros Hget. unfold readable_date, date_error. rewrite Hget.
  now destruct (JS.truthy (JStr s)).
Qed.

Lemma absent_readable (doc : value) :
  JS.get doc "creationDate" = None -> readable_date doc.
Proof. intros Hget. unfold readable_date, date_error. now rewrite Hget. Qed.

Lemma normalized_absent (now : Moment.date) (doc : value) :
  JS.get doc "creationDate" = None -> normalized now doc = doc.
Proof. intros Hget. unfold normalized. now rewrite Hget. Qed.

Lemma normalized_falsy (now : Moment.date) (doc v : value) :
  JS.get doc "creationDate" = Some v -> JS.truthy v = false -> normalized now doc = doc.
Proof. intros Hget Hv. unfold normalized. now rewrite Hget, Hv. Qed.

Lemma normalized_string (now : Moment.date) (doc : value) (s : string) :
  JS.get doc "creationDate" = Some (JStr s) -> s <> "" ->
  normalized now doc
  = JS.set doc "creationDate"
      (JStr (Moment.format_YYYY_MM_DD (Moment.parse_DD_MM_YYYY now s))).
Proof.
  intros Hget Hs. unfold normalized. rewrite Hget. simpl JS.truthy.
  apply String.eqb_neq in Hs. now rewrite Hs.
Qed.

(** The validator reads the same under every other name. *)
Lemma normalized_read_other (now : Moment.date) (doc : value) (k : string) :
  k <> "creationDate" ->
  Ajv.read (Ajv.Data (normalized now doc)) k = Ajv.read (Ajv.Data doc) k.
Proof.
  intros Hk. destruct doc as [| | | | |props]; try reflexivity.
  pose proof (normalized_get_other now (JObj props) k Hk) as Hget.
  destruct (normalized_keys now props) as (props' & Hn & _).
  rewrite Hn in *. simpl in *. now rewrite Hget.
Qed.

Lemma normalized_is_object (now : Moment.date) (doc : value) :
  Ajv.is_object (Ajv.Data (normalized now doc)) = Ajv.is_object (Ajv.Data doc).
Proof.
  destruct doc as [| | | | |props]; try reflexivity.
  destruct (normalized_keys now props) as (props' & -> & _). reflexivity.
Qed.

Lemma normalized_has_type (now : Moment.date) (doc : value) (t : Ajv.jtype) :
  Ajv.has_type t (Ajv.Data (normalized now doc)) = Ajv.has_type t (Ajv.Data doc).
Proof.
  destruct doc as [| | | | |props]; try reflexivity.
  destruct (normalized_keys now props) as (props' & -> & _). now destruct t.
Qed.

(** What the validator reads under [creationDate] is the own property. *)
Lemma read_creationDate (doc : value) :
  Ajv.read (Ajv.Data doc) "creationDate"
  = match JS.get doc "creationDate" with
    | Some v => Some (Ajv.Data v)
    | None => None
    end.
Proof.
  destruct doc; reflexivity.
Qed.

(** Where the schema declares [creationDate] a string, a body that
    passes validation has a date [moment] reads. *)
Lemma valid_date_is_readable (s sub : Ajv.schema) (now : Moment.date) (doc : value) :
  In ("creationDate", sub) (Ajv.schema_properties s) ->
  Ajv.schema_type sub = Some Ajv.TString ->
  Ajv.validate s (normalized now doc) = [] ->
  readable_date doc.
Proof.
  intros Hin Hsub Hvalid. unfold readable_date.
  destruct (date_error doc) as [msg|] eqn:Hdate; [|reflexivity].
  exfalso. revert Hvalid. apply AjvFacts.validate_violates.
  unfold date_error in Hdate. unfold normalized, Moment.moment_DD_MM_YYYY.
  destruct (JS.get doc "creationDate") as [v|] eqn:Hget; [|discriminate].
  destruct (JS.truthy v); [|discriminate].
  destruct (Moment.config_input v) eqn:Hv; [|discriminate].
  apply (Ajv.violates_property _ _ "creationDate" sub (Ajv.Data v)).
  - destruct doc; try discriminate Hget. reflexivity.
  - exact Hin.
  - rewrite read_creationDate. now rewrite Hget.
  - apply (Ajv.violates_type _ _ Ajv.TString); [exact Hsub|].
    destruct v; try reflexivity. discriminate Hv.
Qed.

End Rewritten.

Section Writes.

Variable planSchema : Ajv.schema.

Import Steps Handlers Normalize Rewritten.

(** C4, as amended (validation and identifier rejection). Take a write on
    a connected client, and let [doc] be its body after date
    normalization. If [moment] throws on the [creationDate] of the body,
    the TypeError leaves the route and nothing is sent to the server.
    Otherwise: if [doc] violates the schema, at any depth, the write is
    answered 400 with the validator's non-empty error list; if the body
    has no usable [objectId], it is answered 400; and in both cases
    nothing is sent to the server. [doc] violates the schema whenever the
    body is not of the declared type, a required name reads [undefined]
    in it, an item of it violates the schema of the items, or a declared
    property violates its schema, unless that property is a truthy
    [creationDate], which normalization has by then replaced by a
    string. *)
Theorem invalid_write_is_rejected (req : Request) (w : World) :
  ready w ->
  let doc := normalized (today w) (body req) in
  let run := serve (POST_v1_plan planSchema) req w in
  (~ readable_date (body req) -> exists msg, run = (Uncaught (TypeError msg), w))
  /\ (readable_date (body req) ->
      (Ajv.violates planSchema (Ajv.Data doc) ->
       run = (Replied
                (MkResponse 400 []
                   (SentJson
                      (JObj [("message", JStr "Validation failed");
                             ("errors",
                              JArr (map Ajv.error_value (Ajv.validate planSchema doc)))]))),
              w)
       /\ error_list (fst run) <> [])
      /\ (JS.truthy_maybe (JS.get (body req) "objectId") = false ->
          status (fst run) = Some 400 /\ snd run = w
          /\ (Ajv.validate planSchema doc = [] ->
              fst run
              = Replied
                  (MkResponse 400 []
                     (SentJson
                        (JObj [("message", JStr "Missing objectId in the request body.")]))))))
  /\ (forall t,
        Ajv.schema_type planSchema = Some t ->
        Ajv.has_type t (Ajv.Data (body req)) = false ->
        Ajv.violates planSchema (Ajv.Data doc))
  /\ (forall props k,
        body req = JObj props ->
        In k (Ajv.schema_required planSchema) ->
        Ajv.read (Ajv.Data (body req)) k = None ->
        Ajv.violates planSchema (Ajv.Data doc))
  /\ (forall k sub x,
        In (k, sub) (Ajv.schema_properties planSchema) ->
        Ajv.read (Ajv.Data (body req)) k = Some x ->
        Ajv.violates sub x ->
        k <> "creationDate" \/ (exists v, x = Ajv.Data v /\ JS.truthy v = false) ->
        Ajv.violates planSchema (Ajv.Data doc))
  /\ (forall elems sub x,
        body req = JArr elems ->
        Ajv.schema_items planSchema = Some sub ->
        In x elems ->
        Ajv.violates sub (Ajv.Data x) ->
        Ajv.violates planSchema (Ajv.Data doc)).
Proof.
  intros Hready doc run. subst run.
  split; [|split; [|split; [|split; [|split]]]].
  - intros Hdate. unfold readable_date in Hdate.
    destruct (date_error (body req)) as [msg|] eqn:Hmsg; [|congruence].
    exists msg. now apply serve_POST_unreadable.
  - intros Hdate. split.
    + intros Hviolates.
      assert (Hinvalid : Ajv.validate planSchema doc <> []).
      { now apply AjvFacts.validate_violates. }
      rewrite serve_POST_invalid by assumption. fold doc.
      split; [reflexivity|]. simpl.
      destruct (Ajv.validate planSchema doc); [congruence | discriminate].
    + intros Hid.
      assert (JS.truthy_maybe (JS.get doc "objectId") = false) as Hid'.
      { subst doc. rewrite normalized_get_other by discriminate. assumption. }
      destruct (Ajv.validate planSchema doc) as [|e es] eqn:Hvalid.
      * rewrite serve_POST_missing_id by assumption. repeat split; reflexivity.
      * rewrite serve_POST_invalid
          by (try assumption; fold doc; rewrite Hvalid; discriminate).
        repeat split; try reflexivity. discriminate.
  - intros t Htype Ht. apply (Ajv.violates_type _ _ t); [assumption|].
    subst doc. now rewrite normalized_has_type.
  - intros props k Hbody Hin Hread. apply (Ajv.violates_required _ _ k).
    + subst doc. rewrite normalized_is_object, Hbody. reflexivity.
    + assumption.
    + destruct (String.eqb_spec k "creationDate") as [-> | Hne].
      * subst doc. rewrite normalized_absent; [assumption|].
        rewrite read_creationDate in Hread.
        now destruct (JS.get (body req) "creationDate").
      * subst doc. now rewrite normalized_read_other.
  - intros k sub x Hin Hread Hsub Hcase.
    assert (Hobj : Ajv.is_object (Ajv.Data (body req)) = true).
    { destruct (body req); try discriminate Hread. reflexivity. }
    apply (Ajv.violates_property _ _ k sub x); try assumption.
    + subst doc. now rewrite normalized_is_object.
    + destruct (String.eqb_spec k "creationDate") as [-> | Hne].
      * destruct Hcase as [Hc | (v & -> & Hfalsy)]; [congruence|].
        subst doc. rewrite (normalized_falsy _ _ v); try assumption.
        rewrite read_creationDate in Hread.
        destruct (JS.get (body req) "creationDate"); congruence.
      * subst doc. now rewrite normalized_read_other.
  - intros elems sub x Hbody Hitems Hin Hsub. subst doc. rewrite Hbody.
    now apply (Ajv.violates_item _ _ sub x).
Qed.

(** C7 (date normalization and its place). A [creationDate] that is a
    string of two digits, a dash, two digits, a dash and four digits, and
    writes an existing date as day, month and year, is rewritten in place
    as the same date as year, month and day: [transformDate] hands on the
    request with that property assigned, all other properties and the
    order of the keys as they were. Every [creationDate] that is a
    non-empty string is replaced in place by a string, what [moment]
    prints for it. A body with no [creationDate] is handed on as it is.
    On a connected client the POST route is validation and the handler run
    on the request [transformDate] hands on: normalization comes first,
    and validation sees the rewritten date. *)
Theorem date_normalization_contract (req : Request) (w : World)
    (d1 d2 m1 m2 y1 y2 y3 y4 : ascii) :
  ready w ->
  let validation := fun rq => validateSchema planSchema POST rq create_plan in
  let assigned (text : string) := JS.set (body req) "creationDate" (JStr text) in
  (Forall (fun c => Moment.is_digit c = true) [d1; d2; m1; m2; y1; y2; y3; y4] ->
   Moment.overflows (written_date d1 d2 m1 m2 y1 y2 y3 y4) = false ->
   JS.get (body req) "creationDate" = Some (JStr (dd_mm_yyyy d1 d2 m1 m2 y1 y2 y3 y4)) ->
   let rewritten := assigned (yyyy_mm_dd d1 d2 m1 m2 y1 y2 y3 y4) in
   (forall next c, transformDate req next c = next (with_body req rewritten) c)
   /\ serve (POST_v1_plan planSchema) req w = serve validation (with_body req rewritten) w
   /\ JS.get rewritten "creationDate"
      = Some (JStr (yyyy_mm_dd d1 d2 m1 m2 y1 y2 y3 y4)))
  /\ (forall s, JS.get (body req) "creationDate" = Some (JStr s) -> s <> "" ->
      let printed (now : Moment.date) :=
        Moment.format_YYYY_MM_DD (Moment.parse_DD_MM_YYYY now s) in
      (forall next c,
         transformDate req next c
         = next (with_body req (assigned (printed (today (world c))))) c)
      /\ serve (POST_v1_plan planSchema) req w
         = serve validation (with_body req (assigned (printed (today w)))) w)
  /\ (JS.get (body req) "creationDate" = None ->
      (forall next c, transformDate req next c = next req c)
      /\ serve (POST_v1_plan planSchema) req w = serve validation req w)
  /\ (forall text,
        (forall f, f <> "creationDate" -> JS.get (assigned text) f = JS.get (body req) f)
        /\ (forall props, body req = JObj props ->
            JS.lookup_prop "creationDate" props <> None ->
            exists props', assigned text = JObj props'
                           /\ map fst props' = map fst props
                           /\ JS.lookup_prop "creationDate" props' = Some (JStr text))).
Proof.
  intros Hready validation assigned.
  assert (Hstring :
            forall s, JS.get (body req) "creationDate" = Some (JStr s) -> s <> "" ->
            (forall next c,
               transformDate req next c
               = next (with_body req
                         (assigned (Moment.format_YYYY_MM_DD
                                      (Moment.parse_DD_MM_YYYY (today (world c)) s)))) c)
            /\ serve (POST_v1_plan planSchema) req w
               = serve validation
                   (with_body req
                      (assigned (Moment.format_YYYY_MM_DD
                                   (Moment.parse_DD_MM_YYYY (today w) s)))) w).
  { intros s Hget Hs. split.
    - intros next c.
      rewrite transformDate_normalized by (now apply (string_readable _ s)).
      now rewrite (normalized_string _ _ s).
    - destruct w as [[rd m fs] td]. unfold ready in Hready. simpl in Hready. subst rd.
      rewrite serve_POST_normalized by (now apply (string_readable _ s)).
      now rewrite (normalized_string _ _ s). }
  split; [|split; [|split]].
  - intros Hdigits Hvalid Hget rewritten.
    repeat match goal with
           | H : Forall _ (_ :: _) |- _ => apply Forall_cons in H as [? H]
           end.
    assert (Hprinted :
              forall now,
                Moment.format_YYYY_MM_DD
                  (Moment.parse_DD_MM_YYYY now (dd_mm_yyyy d1 d2 m1 m2 y1 y2 y3 y4))
                = yyyy_mm_dd d1 d2 m1 m2 y1 y2 y3 y4).
    { intros now.
      rewrite MomentFacts.parse_written, MomentFacts.format_written by assumption.
      reflexivity. }
    destruct (Hstring _ Hget ltac:(discriminate)) as [Hnext Hroute].
    split; [|split].
    + intros next c. rewrite Hnext, Hprinted. reflexivity.
    + rewrite Hroute, Hprinted. reflexivity.
    + subst rewritten assigned. cbv beta.
      destruct (body req) as [| | | | |props]; try discriminate Hget.
      simpl. apply lookup_define_same.
  - intros s Hget Hs printed. subst printed. now apply Hstring.
  - intros Hget. split.
    + intros next c.
      rewrite transformDate_normalized by (now apply absent_readable).
      rewrite normalized_absent by assumption. now destruct req.
    + destruct w as [[rd m fs] td]. unfold ready in Hready. simpl in Hready. subst rd.
      rewrite serve_POST_normalized by (now apply absent_readable).
      rewrite normalized_absent by assumption. now destruct req.
  - intros text. split.
    + intros f Hf. subst assigned. cbv beta.
      destruct (body req) as [| | | | |props]; try reflexivity.
      simpl. now apply lookup_define_other.
    + intros props Hbody Hhas. subst assigned. cbv beta. rewrite Hbody. simpl.
      eexists. split; [reflexivity|]. split.
      * now apply define_existing_keys.
      * apply lookup_define_same.
Qed.

End Writes.

(** ** The example scenario *)

Example example_normalized :
  normalized (today exampleWorld) exampleDoc = exampleNormalized.
Proof. reflexivity. Qed.

Example example_stored_keys :
  keys exampleStored = {[ "abc123" := JSON_stringify exampleNormalized ]}.
Proof. vm_compute. reflexivity. Qed.

Example example_unreadable :
  date_error exampleUnreadable = Some "Cannot convert object to primitive value"
  /\ date_error exampleMomentLike
     = Some "Cannot read properties of undefined (reading 'invalidDate')".
Proof. split; reflexivity. Qed.

Lemma create_algorithm_steps_example :
  let req := MkRequest exampleDoc "" None in
  let text := JSON_stringify exampleNormalized in
  let failed :=
    Replied (MkResponse 500 [] (SentJson (JObj [("error", JStr "Error creating plan")]))) in
  (snd (serve (POST_v1_plan examplePlanSchema) req exampleWorld)
   = after_commands 2 (<["abc123" := text]> (keys exampleWorld)) exampleWorld
   /\ exists fetched decoded fingerprint,
        fst (client_get (Some (JStr "abc123"))
               (MkCtx (after_commands 1 (<["abc123" := text]> (keys exampleWorld))
                         exampleWorld) fresh_res))
        = Ok (Some fetched)
        /\ Etag.etag (Some fetched) = Some fingerprint
        /\ JSON.parse fetched = Some decoded
        /\ fst (serve (POST_v1_plan examplePlanSchema) req exampleWorld)
           = Replied (MkResponse 201 [("ETag", fingerprint)] (SentJson decoded))
        /\ fetched = text /\ decoded = exampleNormalized
        /\ exists digest,
             String.length digest = 27%nat
             /\ fingerprint
                = String JSON.dquote
                    (Etag.to_hex (N.of_nat (String.length fetched)) +:+ "-" +:+ digest
                     +:+ String JSON.dquote ""))
  /\ serve (POST_v1_plan examplePlanSchema) req exampleFailing
     = (failed, after_commands 1 (keys exampleFailing) exampleFailing)
  /\ serve (POST_v1_plan examplePlanSchema) req exampleTorn
     = (failed, after_commands 2 (<["abc123" := text]> (keys exampleTorn)) exampleTorn).
Proof.
  split; [|split].
  - apply (create_algorithm_steps examplePlanSchema (MkRequest exampleDoc "" None)
             exampleWorld "abc123"); vm_compute; reflexivity.
  - refine (proj1 (create_algorithm_steps examplePlanSchema (MkRequest exampleDoc "" None)
                     exampleFailing "abc123" _ _ _ _ _ _) [] _);
      vm_compute; reflexivity.
  - refine (proj1 (proj2 (create_algorithm_steps examplePlanSchema
                            (MkRequest exampleDoc "" None)
                            exampleTorn "abc123" _ _ _ _ _ _)) [] _);
      vm_compute; reflexivity.
Defined.

Lemma create_read_round_trip_example :
  let created :=
    serve (POST_v1_plan examplePlanSchema) (MkRequest exampleDoc "" None) exampleWorld in
  let read := serve GET_v1_plan (exampleGet None) (snd created) in
  exists fingerprint,
    fst created = Replied (MkResponse 201 [("ETag", fingerprint)] (SentJson exampleNormalized))
    /\ fst read = Replied (MkResponse 200 [("ETag", fingerprint)] (SentJson exampleNormalized))
    /\ (forall f, f <> "creationDate" -> JS.get exampleNormalized f = JS.get exampleDoc f)
    /\ (forall props, exampleDoc = JObj props ->
        exists props', exampleNormalized = JObj props' /\ map fst props' = map fst props).
Proof.
  apply (create_read_round_trip examplePlanSchema (MkRequest exampleDoc "" None)
           (exampleGet None) exampleWorld "abc123"); vm_compute; reflexivity.
Defined.

(** C2, counterexample. The key of the scenario holds the stored record.
    A read whose token is the weak form of the fingerprint, which is
    another string than the fingerprint, is not answered 200 with the
    document: the reply is a 304 with no body. So it is for the token [*]
    and for a list that holds the fingerprint. *)
Lemma weak_token_is_not_modified :
  let reply (token : string) :=
    fst (serve GET_v1_plan (exampleGet (Some token)) exampleStored) in
  let revalidated := Replied (MkResponse 304 [("ETag", exampleTag)] SentEmpty) in
  keys exampleStored !! "abc123" = Some (JSON_stringify exampleNormalized)
  /\ exampleTag = Etag.entitytag (JSON_stringify exampleNormalized)
  /\ String.eqb exampleWeakTag exampleTag = false
  /\ reply exampleWeakTag = revalidated
  /\ reply "*" = revalidated
  /\ reply (String.append "W/stale, " exampleTag) = revalidated.
Proof. repeat split; vm_compute; reflexivity. Qed.

Lemma read_case_analysis_example :
  let reply (token : option string) :=
    fst (serve GET_v1_plan (exampleGet token) exampleStored) in
  let full := Replied (MkResponse 200 [("ETag", exampleTag)] (SentJson exampleNormalized)) in
  let revalidated := Replied (MkResponse 304 [("ETag", exampleTag)] SentEmpty) in
  fst (serve GET_v1_plan (exampleGet None) exampleWorld)
  = Replied (MkResponse 404 [] (SentJson (JObj [("error", JStr "Plan not found")])))
  /\ reply None = full
  /\ reply (Some exampleTag) = Replied (MkResponse 304 [] SentEmpty)
  /\ reply (Some exampleWeakTag) = revalidated
  /\ reply (Some "*") = revalidated
  /\ reply (Some "W/stale") = full
  /\ keys (snd (serve GET_v1_plan (exampleGet None) exampleStored)) = keys exampleStored.
Proof.
  assert (Hkey : keys exampleStored !! "abc123" = Some (JSON_stringify exampleNormalized)).
  { vm_compute. reflexivity. }
  assert (Hready : ready exampleStored) by reflexivity.
  assert (Hcalm : calm 1 exampleStored) by reflexivity.
  split; [|split; [|split; [|split; [|split; [|split]]]]].
  - destruct (read_case_analysis (exampleGet None) exampleWorld eq_refl eq_refl)
      as (_ & Habsent & _).
    apply Habsent. reflexivity.
  - destruct (read_case_analysis (exampleGet None) exampleStored Hready Hcalm)
      as (_ & _ & Hstored).
    destruct (Hstored exampleNormalized eq_refl Hkey) as (_ & _ & H & _).
    apply H. reflexivity.
  - destruct (read_case_analysis (exampleGet (Some exampleTag)) exampleStored Hready Hcalm)
      as (_ & _ & Hstored).
    destruct (Hstored exampleNormalized eq_refl Hkey) as (H & _).
    apply H. reflexivity.
  - destruct (read_case_analysis (exampleGet (Some exampleWeakTag)) exampleStored
                Hready Hcalm) as (_ & _ & Hstored).
    destruct (Hstored exampleNormalized eq_refl Hkey) as (_ & _ & _ & H & _).
    apply H. reflexivity.
  - destruct (read_case_analysis (exampleGet (Some "*")) exampleStored Hready Hcalm)
      as (_ & _ & Hstored).
    destruct (Hstored exampleNormalized eq_refl Hkey) as (_ & _ & _ & _ & H & _).
    apply H. reflexivity.
  - destruct (read_case_analysis (exampleGet (Some "W/stale")) exampleStored Hready Hcalm)
      as (_ & _ & Hstored).
    destruct (Hstored exampleNormalized eq_refl Hkey) as (_ & _ & _ & _ & _ & H).
    apply (H "W/stale"); [reflexivity | reflexivity | | | discriminate];
      vm_compute; discriminate.
  - destruct (read_case_analysis (exampleGet None) exampleStored Hready Hcalm)
      as (H & _).
    exact H.
Defined.

(** C10, counterexample. The fingerprint is sent on other replies than
    the 200. A read whose token is the weak form of the fingerprint is
    answered 304, and that 304 carries the [ETag]. A read of a key that
    holds a text [JSON.parse] rejects is answered 500, and that 500
    carries the [ETag], which the handler sets before it decodes. *)
Lemma revalidated_reply_carries_the_tag :
  let weak := fst (serve GET_v1_plan (exampleGet (Some exampleWeakTag)) exampleStored) in
  let foreign := fst (serve GET_v1_plan (exampleGet None) exampleForeign) in
  weak = Replied (MkResponse 304 [("ETag", exampleTag)] SentEmpty)
  /\ status weak = Some 304
  /\ header "ETag" weak = Some exampleTag
  /\ keys exampleForeign !! "abc123" = Some "gold"
  /\ status foreign = Some 500
  /\ header "ETag" foreign = Some (Etag.entitytag "gold").
Proof. repeat split; vm_compute; reflexivity. Qed.

Lemma not_modified_is_bare_example :
  serve GET_v1_plan (exampleGet (Some exampleTag)) exampleStored
  = (Replied (MkResponse 304 [] SentEmpty),
     after_commands 1 (keys exampleStored) exampleStored)
  /\ keys (snd (serve GET_v1_plan (exampleGet (Some exampleWeakTag)) exampleStored))
     = keys exampleStored
  /\ sent (MkResponse 304 [("ETag", exampleTag)] SentEmpty) = SentEmpty.
Proof.
  destruct (not_modified_is_bare (exampleGet (Some exampleTag)) exampleStored)
    as (_ & H & _).
  destruct (not_modified_is_bare (exampleGet (Some exampleWeakTag)) exampleStored)
    as (Hkeys & _ & Hbare & _).
  split; [|split].
  - apply (H (JSON_stringify exampleNormalized)); vm_compute; reflexivity.
  - exact Hkeys.
  - apply Hbare; [vm_compute; reflexivity | reflexivity].
Defined.

Lemma delete_semantics_example :
  let present := serve DELETE_v1_plan (exampleGet None) exampleStored in
  let absent := serve DELETE_v1_plan (exampleGet None) exampleWorld in
  (present
   = (Replied (MkResponse 200 []
                 (SentJson (JObj [("message", JStr "Plan deleted successfully")]))),
      after_commands 1 (delete "abc123" (keys exampleStored)) exampleStored)
   /\ keys (snd present) !! "abc123" = None
   /\ fst (client_del (Some (JStr "abc123")) (MkCtx exampleStored fresh_res)) = Ok 1
   /\ forall get, params_id get = "abc123" ->
        fst (serve GET_v1_plan get (snd present))
        = Replied (MkResponse 404 [] (SentJson (JObj [("error", JStr "Plan not found")]))))
  /\ (absent
      = (Replied (MkResponse 404 [] (SentJson (JObj [("error", JStr "Plan not found")]))),
         after_commands 1 (keys exampleWorld) exampleWorld)
      /\ fst (client_del (Some (JStr "abc123")) (MkCtx exampleWorld fresh_res)) = Ok 0).
Proof.
  split.
  - refine (proj1 (delete_semantics (exampleGet None) exampleStored _ _) _);
      [reflexivity | reflexivity |].
    exists (JSON_stringify exampleNormalized). vm_compute. reflexivity.
  - refine (proj2 (delete_semantics (exampleGet None) exampleWorld _ _) _); reflexivity.
Defined.

Lemma overwrite_semantics_example :
  let w1 := snd (serve (POST_v1_plan examplePlanSchema)
                   (MkRequest exampleDoc "" None) exampleWorld) in
  let w2 := snd (serve (POST_v1_plan examplePlanSchema)
                   (MkRequest exampleDoc' "" None) w1) in
  keys w2 !! "abc123" = Some (JSON_stringify exampleDoc')
  /\ keys w2 = <["abc123" := JSON_stringify exampleDoc']> (keys exampleWorld)
  /\ keys w2 = keys (snd (serve (POST_v1_plan examplePlanSchema)
                            (MkRequest exampleDoc' "" None) exampleWorld))
  /\ forall get, params_id get = "abc123" -> if_none_match get = None ->
       fst (serve GET_v1_plan get w2)
       = Replied (MkResponse 200 [("ETag", Etag.entitytag (JSON_stringify exampleDoc'))]
                             (SentJson exampleDoc')).
Proof.
  apply (overwrite_semantics examplePlanSchema (MkRequest exampleDoc "" None)
           (MkRequest exampleDoc' "" None) exampleWorld "abc123");
    vm_compute; reflexivity.
Defined.

Lemma fingerprint_idempotent_example :
  let plain := [exampleGet None; exampleGet None; exampleGet None] in
  let mixed := [exampleGet None; exampleGet (Some exampleTag);
                exampleGet (Some exampleWeakTag); exampleGet None] in
  Forall (fun o => status o = Some 200 /\ header "ETag" o = Some exampleTag)
         (fst (serve_all GET_v1_plan plain exampleStored))
  /\ keys (snd (serve_all GET_v1_plan mixed exampleStored)) = keys exampleStored
  /\ Forall2 (fun rq o =>
                if bool_decide (if_none_match rq = Some exampleTag)
                then o = Replied (MkResponse 304 [] SentEmpty)
                else header "ETag" o = Some exampleTag
                     /\ status o = Some (if Fresh.fresh (if_none_match rq) (Some exampleTag)
                                         then 304 else 200))
             mixed (fst (serve_all GET_v1_plan mixed exampleStored)).
Proof.
  assert (Hkey : keys exampleStored !! "abc123" = Some (JSON_stringify exampleNormalized)).
  { vm_compute. reflexivity. }
  assert (Hrecord : stored_record (JSON_stringify exampleNormalized)).
  { exists exampleNormalized. split; reflexivity. }
  destruct (fingerprint_idempotent
              [exampleGet None; exampleGet None; exampleGet None]
              exampleStored "abc123" (JSON_stringify exampleNormalized)
              eq_refl eq_refl Hkey Hrecord ltac:(repeat constructor))
    as (_ & _ & Hplain & _).
  destruct (fingerprint_idempotent
              [exampleGet None; exampleGet (Some exampleTag);
               exampleGet (Some exampleWeakTag); exampleGet None]
              exampleStored "abc123" (JSON_stringify exampleNormalized)
              eq_refl eq_refl Hkey Hrecord ltac:(repeat constructor))
    as (Hkeys & Hmixed & _).
  split; [|split].
  - apply Hplain. repeat constructor.
  - exact Hkeys.
  - exact Hmixed.
Defined.

Lemma error_containment_example :
  let post := MkRequest exampleDoc "" None in
  let get := exampleGet None in
  let unavailable :=
    Replied (MkResponse 500 []
               (SentJson (JObj [("error", JStr "Redis client is not connected")]))) in
  let failed (msg : string) :=
    Replied (MkResponse 500 [] (SentJson (JObj [("error", JStr msg)]))) in
  serve (POST_v1_plan examplePlanSchema) post exampleDown = (unavailable, exampleDown)
  /\ serve GET_v1_plan get exampleDown = (unavailable, exampleDown)
  /\ serve DELETE_v1_plan get exampleDown = (unavailable, exampleDown)
  /\ fst (serve GET_v1_plan get exampleFailing) = failed "Error retrieving plan"
  /\ fst (serve DELETE_v1_plan get exampleFailing) = failed "Error deleting plan"
  /\ fst (serve (POST_v1_plan examplePlanSchema) post exampleFailing)
     = failed "Error creating plan"
  /\ keys (snd (serve (POST_v1_plan examplePlanSchema) post exampleFailing))
     = keys exampleFailing
  /\ fst (serve (POST_v1_plan examplePlanSchema) post exampleTorn)
     = failed "Error creating plan"
  /\ (exists msg,
        serve (POST_v1_plan examplePlanSchema) (MkRequest exampleUnreadable "" None)
          exampleWorld
        = (Uncaught (TypeError msg), exampleWorld))
  /\ (exists r,
        fst (serve (POST_v1_plan examplePlanSchema) (MkRequest exampleUnreadable "" None)
               exampleDown) = Replied r).
Proof.
  destruct (error_containment examplePlanSchema (MkRequest exampleDoc "" None) exampleDown)
    as (_ & Hdown & _).
  destruct (error_containment examplePlanSchema (exampleGet None) exampleDown)
    as (_ & Hdown' & _).
  destruct (error_containment examplePlanSchema (exampleGet None) exampleFailing)
    as (_ & _ & Hget & _).
  destruct (error_containment examplePlanSchema (MkRequest exampleDoc "" None) exampleFailing)
    as (_ & _ & Hpost & _).
  destruct (error_containment examplePlanSchema (MkRequest exampleDoc "" None) exampleTorn)
    as (_ & _ & _ & Htorn & _).
  destruct (error_containment examplePlanSchema (MkRequest exampleUnreadable "" None)
              exampleWorld) as ((_ & _ & Hescapes & _) & _).
  destruct (error_containment examplePlanSchema (MkRequest exampleUnreadable "" None)
              exampleDown) as ((_ & _ & _ & Hanswered) & _).
  destruct (Hdown eq_refl) as (H1 & _ & _).
  destruct (Hdown' eq_refl) as (_ & H2 & H3).
  destruct (Hget [] eq_refl eq_refl) as (H4 & H5 & _).
  destruct (Hpost [] eq_refl eq_refl) as (_ & _ & H6).
  specialize (H6 "abc123" eq_refl ltac:(vm_compute; reflexivity) eq_refl eq_refl).
  specialize (Htorn [] "abc123" eq_refl eq_refl eq_refl ltac:(vm_compute; reflexivity)
                eq_refl eq_refl).
  repeat split;
    first [assumption | now rewrite H4 | now rewrite H5 | now rewrite H6 | idtac].
  - destruct Hescapes as [[r Hr] | (msg & _ & _ & Hrun)].
    + vm_compute in Hr. discriminate Hr.
    + now exists msg.
  - apply Hanswered. now left.
Defined.

(** C4, counterexample. In the example schema [creationDate] is a string.
    A write whose [creationDate] is the number 25, or the boolean [true],
    is not answered 400: normalization has replaced the value by a string
    before validation, the write is answered 201 and the record is stored. *)
Lemma wrong_typed_creationDate_is_accepted :
  let number := JObj [("objectId", JStr "abc123"); ("creationDate", JNum 25)] in
  let boolean := JObj [("objectId", JStr "abc123"); ("creationDate", JBool true)] in
  let run (doc : value) :=
    serve (POST_v1_plan examplePlanSchema) (MkRequest doc "" None) exampleWorld in
  In ("creationDate", Ajv.Schema (Some Ajv.TString) [] [] None)
     (Ajv.schema_properties examplePlanSchema)
  /\ Ajv.has_type Ajv.TString (Ajv.Data (JNum 25)) = false
  /\ Ajv.has_type Ajv.TString (Ajv.Data (JBool true)) = false
  /\ Ajv.validate examplePlanSchema number <> []
  /\ Ajv.validate examplePlanSchema boolean <> []
  /\ status (fst (run number)) = Some 201
  /\ keys (snd (run number)) !! "abc123"
     = Some (JSON_stringify
               (JObj [("objectId", JStr "abc123"); ("creationDate", JStr "2026-11-25")]))
  /\ status (fst (run boolean)) = Some 201
  /\ keys (snd (run boolean)) !! "abc123"
     = Some (JSON_stringify
               (JObj [("objectId", JStr "abc123"); ("creationDate", JStr "Invalid date")])).
Proof.
  split; [simpl; tauto|].
  repeat split; first [discriminate | vm_compute; reflexivity].
Qed.

Lemma invalid_write_is_rejected_example :
  let no_id := JObj [("creationDate", JStr "25-12-2023"); ("plan", JStr "gold")] in
  let bad_plan := JObj [("objectId", JStr "abc123"); ("plan", JNum 7)] in
  let no_name := JObj [("objectId", JStr "abc123"); ("plan", JObj [])] in
  let run (schema : Ajv.schema) (doc : value) :=
    serve (POST_v1_plan schema) (MkRequest doc "" None) exampleWorld in
  (status (fst (run examplePlanSchema no_id)) = Some 400
   /\ error_list (fst (run examplePlanSchema no_id)) <> []
   /\ snd (run examplePlanSchema no_id) = exampleWorld)
  /\ (status (fst (run examplePlanSchema bad_plan)) = Some 400
      /\ error_list (fst (run examplePlanSchema bad_plan)) <> []
      /\ snd (run examplePlanSchema bad_plan) = exampleWorld)
  /\ (status (fst (run exampleNestedSchema no_name)) = Some 400
      /\ error_list (fst (run exampleNestedSchema no_name)) <> []
      /\ snd (run exampleNestedSchema no_name) = exampleWorld)
  /\ (status (fst (run exampleOpenSchema no_id)) = Some 400
      /\ snd (run exampleOpenSchema no_id) = exampleWorld)
  /\ (exists msg,
        run examplePlanSchema exampleUnreadable = (Uncaught (TypeError msg), exampleWorld)).
Proof.
  set (no_id := JObj [("creationDate", JStr "25-12-2023"); ("plan", JStr "gold")]).
  set (bad_plan := JObj [("objectId", JStr "abc123"); ("plan", JNum 7)]).
  set (no_name := JObj [("objectId", JStr "abc123"); ("plan", JObj [])]).
  set (str := Ajv.Schema (Some Ajv.TString) [] [] None).
  destruct (invalid_write_is_rejected examplePlanSchema (MkRequest no_id "" None)
              exampleWorld eq_refl) as (_ & Hreply & _ & Hrequired & _).
  destruct (invalid_write_is_rejected examplePlanSchema (MkRequest bad_plan "" None)
              exampleWorld eq_refl) as (_ & Hreply' & _ & _ & Htyped & _).
  destruct (invalid_write_is_rejected exampleNestedSchema (MkRequest no_name "" None)
              exampleWorld eq_refl) as (_ & Hreply'' & _ & _ & Hnested & _).
  destruct (invalid_write_is_rejected exampleOpenSchema (MkRequest no_id "" None)
              exampleWorld eq_refl) as (_ & Hopen & _).
  destruct (invalid_write_is_rejected examplePlanSchema (MkRequest exampleUnreadable "" None)
              exampleWorld eq_refl) as (Hthrown & _).
  pose proof (Hrequired _ "objectId" eq_refl ltac:(left; reflexivity) eq_refl) as H1.
  pose proof (Htyped "plan" str (Ajv.Data (JNum 7))
                ltac:(right; right; left; reflexivity) eq_refl
                (Ajv.violates_type str (Ajv.Data (JNum 7)) Ajv.TString eq_refl eq_refl)
                ltac:(left; discriminate)) as H2.
  pose proof (Hnested "plan" (Ajv.Schema (Some Ajv.TObject) ["name"] [("name", str)] None)
                (Ajv.Data (JObj []))
                ltac:(right; left; reflexivity) eq_refl
                (Ajv.violates_required
                   (Ajv.Schema (Some Ajv.TObject) ["name"] [("name", str)] None)
                   (Ajv.Data (JObj [])) "name" eq_refl
                   ltac:(left; reflexivity) eq_refl)
                ltac:(left; discriminate)) as H3.
  destruct (Hreply eq_refl) as (Hinvalid & _).
  destruct (Hreply' eq_refl) as (Hinvalid' & _).
  destruct (Hreply'' eq_refl) as (Hinvalid'' & _).
  destruct (Hopen eq_refl) as (_ & Hid).
  destruct (Hinvalid H1) as (Hrun & Herrs).
  destruct (Hinvalid' H2) as (Hrun' & Herrs').
  destruct (Hinvalid'' H3) as (Hrun'' & Herrs'').
  destruct (Hid eq_refl) as (Hst & Hw & _).
  cbv zeta. split; [|split; [|split; [|split]]].
  - split; [now rewrite Hrun | split; [exact Herrs | now rewrite Hrun]].
  - split; [now rewrite Hrun' | split; [exact Herrs' | now rewrite Hrun']].
  - split; [now rewrite Hrun'' | split; [exact Herrs'' | now rewrite Hrun'']].
  - split; [exact Hst | exact Hw].
  - apply Hthrown. discriminate.
Defined.

Lemma date_normalization_contract_example :
  let req := MkRequest exampleDoc "" None in
  let req' := MkRequest exampleDoc' "" None in
  let validation := fun rq => validateSchema examplePlanSchema POST rq create_plan in
  (forall next c, transformDate req next c = next (with_body req exampleNormalized) c)
  /\ serve (POST_v1_plan examplePlanSchema) req exampleWorld
     = serve validation (with_body req exampleNormalized) exampleWorld
  /\ (forall next c, transformDate req' next c = next req' c)
  /\ serve (POST_v1_plan examplePlanSchema) req' exampleWorld
     = serve validation req' exampleWorld.
Proof.
  destruct (date_normalization_contract examplePlanSchema (MkRequest exampleDoc "" None)
              exampleWorld "2" "5" "1" "2" "2" "0" "2" "3" eq_refl)
    as (Hdate & _).
  destruct (date_normalization_contract examplePlanSchema (MkRequest exampleDoc' "" None)
              exampleWorld "0" "0" "0" "0" "0" "0" "0" "0" eq_refl)
    as (_ & _ & Habsent & _).
  destruct (Hdate ltac:(repeat constructor) eq_refl eq_refl) as (Hnext & Hroute & _).
  destruct (Habsent eq_refl) as (Hnext' & Hroute').
  split; [exact Hnext|]. split; [exact Hroute|]. split; [exact Hnext' | exact Hroute'].
Defined.

(** ** What a reply tells, and what a request leaves behind *)

Module Frame.
Import Steps Handlers Normalize Invariant.

Section OneKey.

Variable I : gmap string string -> Prop.

Lemma preserves_client_set (key : JS.maybe) (val : string) :
  (forall k, key = Some (JStr k) -> forall m, I m -> I (<[k := val]> m)) ->
  preserves I (client_set key val).
Proof.
  intros H. destruct key as [[| | |k| |]|]; try (apply preserves_world; reflexivity).
  intros c Hc.
  apply (preserves_command I (fun m => (tt, <[k := val]> m))); [|assumption].
  intros m. now apply H.
Qed.

Lemma create_plan_frame (req : Request) :
  (forall k, JS.get (body req) "objectId" = Some (JStr k) ->
             forall m, I m -> I (<[k := JSON_stringify (body req)]> m)) ->
  preserves I (create_plan req).
Proof.
  intros H. unfold create_plan.
  apply preserves_catch; [|intros; apply preserves_status_json].
  destruct (negb _); [apply preserves_status_json|].
  apply preserves_bind; [now apply preserves_client_set|]. intros _.
  apply preserves_bind; [apply preserves_client_get|]. intros stored.
  apply preserves_bind; [apply preserves_etag|]. intros tag.
  apply preserves_bind; [apply preserves_res|]. intros _.
  apply preserves_bind; [apply preserves_res|]. intros _.
  apply preserves_bind; [apply preserves_parse|]. intros doc.
  apply preserves_res.
Qed.

Lemma delete_plan_frame (req : Request) :
  (forall m, I m -> I (delete (params_id req) m)) ->
  preserves I (delete_plan req).
Proof.
  intros H. unfold delete_plan.
  apply preserves_catch; [|intros; apply preserves_status_json].
  apply preserves_bind.
  { intros c Hc.
    apply (preserves_command I
             (fun m => (match m !! params_id req with Some _ => 1 | None => 0 end,
                        delete (params_id req) m))); assumption. }
  intros count. destruct (count =? 0); apply preserves_status_json.
Qed.

Lemma POST_frame (schema : Ajv.schema) (req : Request) :
  (forall k doc, JS.get (body req) "objectId" = Some (JStr k) ->
                 forall m, I m -> I (<[k := JSON_stringify doc]> m)) ->
  preserves I (POST_v1_plan schema req).
Proof.
  intros H. apply ensure_ready_preserves, transformDate_preserves. intros now.
  unfold validateSchema. simpl body.
  destruct (Ajv.validate schema _); [|now apply preserves_status_json].
  apply create_plan_frame.
  simpl. intros k Hk. apply H.
  rewrite normalized_get_other in Hk by discriminate. exact Hk.
Qed.

End OneKey.

End Frame.

(** ** Texts that are no JSON *)

Module Foreign.

Lemma parse_starts_no_value (text : string) :
  JSON.starts_no_value text = true -> JSON.parse text = None.
Proof.
  unfold JSON.starts_no_value, JSON.parse. cbn [JSON.parse_value].
  destruct (JSON.skip_ws text) as [|c r]; [reflexivity|].
  intros H.
  destruct c as [[] [] [] [] [] [] [] []]; vm_compute in H;
    first [discriminate H | reflexivity].
Qed.

Lemma stored_record_nonempty (text : string) : stored_record text -> text <> "".
Proof.
  intros (doc & _ & ->) H. pose proof (Handlers.stringify_nonempty doc) as Hne.
  rewrite H in Hne. discriminate Hne.
Qed.

End Foreign.

Section Replies.

Variable planSchema : Ajv.schema.

Import Steps Handlers Normalize Invariant Cases Frame Tags Foreign.

(** X1 (what the outcome of a POST tells). Take a body as the JSON parser
    leaves it. On a connected client, when [moment] throws on the
    [creationDate] of the body, the TypeError leaves the route and the
    process is as it was; the route replies in every other case, and in
    no case but those. Its reply is a 201, a 400 or a 500. A 201 is sent
    only when the normalized body has passed validation and has been
    stored under its string [objectId]; it carries the fingerprint of the
    stored text and the normalized body. A 400 means nothing was sent to
    the server. The route sets a header on no reply other than the 201. *)
Theorem created_reply_is_sound (req : Request) (w : World) :
  JS.well_formed (body req) = true ->
  let doc := normalized (today w) (body req) in
  let run := serve (POST_v1_plan planSchema) req w in
  (ready w -> ~ readable_date (body req) ->
   exists msg, run = (Uncaught (TypeError msg), w))
  /\ (forall r, fst run = Replied r ->
        isReady (client w) = false \/ readable_date (body req))
  /\ (isReady (client w) = false \/ readable_date (body req) ->
      exists r,
        fst run = Replied r
        /\ (statusCode r = 201 \/ statusCode r = 400 \/ statusCode r = 500)
        /\ (statusCode r = 201 ->
            Ajv.validate planSchema doc = []
            /\ r = MkResponse 201 [("ETag", Etag.entitytag (JSON_stringify doc))]
                              (SentJson doc)
            /\ exists k, JS.get (body req) "objectId" = Some (JStr k)
                         /\ keys (snd run) = <[k := JSON_stringify doc]> (keys w))
        /\ (statusCode r = 400 -> snd run = w)
        /\ (statusCode r <> 201 -> headers r = [])).
Proof.
  intros Hwf doc run. subst run.
  split; [|split].
  - intros Hready Hdate. unfold readable_date in Hdate.
    destruct (date_error (body req)) as [msg|] eqn:Hmsg; [|congruence].
    exists msg. now apply serve_POST_unreadable.
  - intros r Hr.
    destruct (serve_POST_cases planSchema req w Hwf)
      as [(msg & _ & _ & Hrun) | [(r' & _ & _ & Hwhy & _) | (k & _ & _ & _ & Hdate & _)]].
    + rewrite Hrun in Hr. discriminate Hr.
    + exact Hwhy.
    + now right.
  - intros Hwhy.
    destruct (serve_POST_cases planSchema req w Hwf)
      as [(msg & Hready & Hmsg & Hrun)
         | [(r & Hst & Hh & _ & Hrun) | (k & Hget & Hk & Hready & Hdate & Hvalid & Hrun)]].
    + exfalso. destruct Hwhy as [Hdown | Hdate].
      * unfold ready in Hready. congruence.
      * unfold readable_date in Hdate. congruence.
    + rewrite Hrun. exists r. simpl.
      split; [reflexivity|]. split; [tauto|].
      split; [intros H; rewrite H in Hst; destruct Hst; discriminate|].
      split; auto.
    + fold doc in Hrun, Hvalid.
      destruct Hrun as [Hrun | [Hrun | Hrun]]; rewrite Hrun; eexists; simpl;
        (split; [reflexivity|]); simpl.
      * split; [tauto|]. split; [|split; [discriminate | congruence]].
        intros _. split; [assumption|]. split; [reflexivity|]. now exists k.
      * split; [tauto|]. split; [discriminate|]. split; [discriminate | reflexivity].
      * split; [tauto|]. split; [discriminate|]. split; [discriminate | reflexivity].
Qed.

(** X2 (a failed write may have written). When the server accepts the SET
    of a write and rejects the GET that follows it, the reply is the 500
    of the route, and yet the record is stored: the next read of the key
    answers 200 with the document. The write is one whose date [moment]
    reads. *)
Theorem failed_create_may_have_written (req : Request) (w : World) (k : string)
    (later : list bool) :
  ready w ->
  faults (client w) = false :: true :: later ->
  forallb negb (take 1 later) = true ->
  readable_date (body req) ->
  JS.well_formed (body req) = true ->
  Ajv.validate planSchema (normalized (today w) (body req)) = [] ->
  JS.get (body req) "objectId" = Some (JStr k) ->
  JS.truthy (JStr k) = true ->
  let doc := normalized (today w) (body req) in
  let run := serve (POST_v1_plan planSchema) req w in
  fst run
  = Replied (MkResponse 500 [] (SentJson (JObj [("error", JStr "Error creating plan")])))
  /\ keys (snd run) = <[k := JSON_stringify doc]> (keys w)
  /\ forall get,
       params_id get = k -> if_none_match get = None ->
       fst (serve GET_v1_plan get (snd run))
       = Replied (MkResponse 200 [("ETag", Etag.entitytag (JSON_stringify doc))]
                             (SentJson doc)).
Proof.
  destruct w as [[rd m fs] td]. unfold ready, keys. simpl.
  intros -> -> Hlater Hdate Hwf Hvalid Hid Hk.
  rewrite (serve_POST_get_rejected planSchema req k) by assumption. simpl.
  split; [reflexivity|]. split; [reflexivity|].
  intros get Hget Htok.
  rewrite (read_outcome get _ (normalized td (body req))).
  - rewrite Htok. reflexivity.
  - reflexivity.
  - exact Hlater.
  - now apply normalized_well_formed.
  - unfold keys. simpl. rewrite Hget. apply lookup_insert_eq.
Qed.

(** X3 (an identifier that is not a string). When validation lets through
    a body whose [objectId] is truthy and not a string (a number, [true],
    an array, an object), [client.set] throws on the key before a command
    is sent, the handler catches it, and the reply is the 500 of the
    route, with the process as it was. The write is one whose date
    [moment] reads. *)
Theorem non_string_objectId_is_an_error (req : Request) (w : World) (v : value) :
  ready w ->
  readable_date (body req) ->
  Ajv.validate planSchema (normalized (today w) (body req)) = [] ->
  JS.get (body req) "objectId" = Some v ->
  JS.truthy v = true ->
  (forall k, v <> JStr k) ->
  (forall text c,
     client_set (JS.get (body req) "objectId") text c
     = (Throw (TypeError "Invalid argument type"), c))
  /\ serve (POST_v1_plan planSchema) req w
     = (Replied (MkResponse 500 [] (SentJson (JObj [("error", JStr "Error creating plan")]))),
        w).
Proof.
  intros Hready Hdate Hvalid Hid Hv Hk. split.
  - intros text c. rewrite Hid. unfold client_set.
    apply bind_throw. destruct v; try reflexivity. now destruct (Hk s).
  - now apply (serve_POST_bad_key planSchema req w v).
Qed.

(** X4 (what a GET reply tells). Where every key holds a stored record,
    the reply of the read route is a 200, a 304, a 404 or a 500. A 200 is
    sent only when the key holds a record and the token neither is its
    fingerprint nor makes the request fresh; the reply then carries that
    fingerprint and the document. A 304 is sent only when the key holds a
    record, and it is either the handler's, for a token that is the
    fingerprint, with no header, or the one of [res.json], for another
    token that makes the request fresh, with the fingerprint as [ETag]. A
    404 is sent only on a connected client for an absent key, and a 500
    only when the client is not ready or the server rejects the command;
    it carries no header. *)
Theorem read_reply_is_sound (req : Request) (w : World) :
  stored_records (keys w) ->
  let run := serve GET_v1_plan req w in
  let stored := keys w !! params_id req in
  exists r,
    fst run = Replied r
    /\ (statusCode r = 200 \/ statusCode r = 304 \/ statusCode r = 404 \/ statusCode r = 500)
    /\ (statusCode r = 200 ->
        exists doc,
          JS.well_formed doc = true /\ stored = Some (JSON_stringify doc)
          /\ if_none_match req <> Some (Etag.entitytag (JSON_stringify doc))
          /\ Fresh.fresh (if_none_match req) (Some (Etag.entitytag (JSON_stringify doc)))
             = false
          /\ r = MkResponse 200 [("ETag", Etag.entitytag (JSON_stringify doc))]
                            (SentJson doc))
    /\ (statusCode r = 304 ->
        exists doc,
          JS.well_formed doc = true /\ stored = Some (JSON_stringify doc)
          /\ ((if_none_match req = Some (Etag.entitytag (JSON_stringify doc))
               /\ r = MkResponse 304 [] SentEmpty)
              \/ (if_none_match req <> Some (Etag.entitytag (JSON_stringify doc))
                  /\ Fresh.fresh (if_none_match req)
                       (Some (Etag.entitytag (JSON_stringify doc))) = true
                  /\ r = MkResponse 304 [("ETag", Etag.entitytag (JSON_stringify doc))]
                                    SentEmpty)))
    /\ (statusCode r = 404 -> ready w /\ stored = None)
    /\ (statusCode r = 500 ->
        headers r = []
        /\ (isReady (client w) = false \/ exists later, faults (client w) = true :: later)).
Proof.
  intros Hstored run stored. subst run stored.
  destruct w as [[[] m fs] td]; unfold keys, ready in *;
    cbn [client db isReady faults] in *.
  2:{ change (serve GET_v1_plan req) with (serve (fun rq => ensure_ready GET rq read_plan) req).
      rewrite serve_not_ready. eexists. split; [reflexivity|]. simpl.
      split; [tauto|]. split; [discriminate|]. split; [discriminate|].
      split; [discriminate|]. auto. }
  destruct (faults_cases fs) as [Hfs | [later ->]].
  2:{ rewrite serve_GET_rejected. eexists. split; [reflexivity|]. simpl.
      split; [tauto|]. split; [discriminate|]. split; [discriminate|].
      split; [discriminate|]. eauto. }
  rewrite serve_GET_accepted by assumption.
  eexists. split; [reflexivity|]. unfold read_reply.
  destruct (m !! params_id req) as [text|] eqn:Hm; simpl.
  2:{ split; [tauto|]. split; [discriminate|]. split; [discriminate|].
      split; [auto | discriminate]. }
  destruct (Hstored _ _ Hm) as (doc & Hwf & ->).
  rewrite stringify_nonempty. simpl negb. cbv iota.
  rewrite JSONFacts.parse_stringify by assumption.
  case_bool_decide as Htok; simpl.
  { split; [tauto|]. split; [discriminate|].
    split; [|split; discriminate].
    intros _. exists doc. split; [assumption|]. split; [reflexivity|]. now left. }
  destruct (Fresh.fresh (if_none_match req) _) eqn:Hfresh; simpl.
  - split; [tauto|]. split; [discriminate|].
    split; [|split; discriminate].
    intros _. exists doc. split; [assumption|]. split; [reflexivity|]. right. auto.
  - split; [tauto|]. split; [|split; [discriminate | split; discriminate]].
    intros _. exists doc. auto.
Qed.

(** X5 (keys this application has not written). A read of a key that holds
    the empty text answers 404, as if the key were absent, while a delete
    of that key answers 200. Take a text that is seen not to be JSON at
    its first character, such as a bare word: [JSON.parse] throws on it,
    and a read of a key that holds it answers the 500 of the route, and
    that reply carries the fingerprint of the text as [ETag]: the header
    is set before the text is decoded. The read leaves the keys as they
    were. *)
Theorem read_of_foreign_text (req : Request) (w : World) (text : string) :
  ready w -> calm 1 w ->
  keys w !! params_id req = Some text ->
  let run := serve GET_v1_plan req w in
  (text = "" ->
   fst run = Replied (MkResponse 404 [] (SentJson (JObj [("error", JStr "Plan not found")]))))
  /\ (text <> "" -> JSON.starts_no_value text = true ->
      if_none_match req <> Some (Etag.entitytag text) ->
      JSON.parse text = None
      /\ fst run
         = Replied (MkResponse 500 [("ETag", Etag.entitytag text)]
                               (SentJson (JObj [("error", JStr "Error retrieving plan")]))))
  /\ keys (snd run) = keys w
  /\ fst (serve DELETE_v1_plan req w)
     = Replied (MkResponse 200 []
                  (SentJson (JObj [("message", JStr "Plan deleted successfully")]))).
Proof.
  destruct w as [[rd m fs] td]. unfold ready, calm, keys. simpl.
  intros -> Hfs Hm.
  rewrite serve_GET_accepted, serve_DELETE_accepted by assumption.
  rewrite Hm. unfold read_reply. simpl.
  split; [|split; [|split; reflexivity]].
  - intros ->. reflexivity.
  - intros Hne Hstart Htok. apply parse_starts_no_value in Hstart.
    split; [exact Hstart|].
    apply String.eqb_neq in Hne. rewrite Hne. simpl.
    rewrite bool_decide_eq_false_2 by assumption. now rewrite Hstart.
Qed.

(** X6 (what a DELETE reply tells). The reply of the delete route is a
    200, a 404 or a 500, and the route sets no header on it. A 200 is sent
    only when the key held a text, and the key is then removed; a 404 only
    when the key was absent; after a 404 or a 500 the keys are as they
    were. *)
Theorem delete_reply_is_sound (req : Request) (w : World) :
  let run := serve DELETE_v1_plan req w in
  let k := params_id req in
  exists r,
    fst run = Replied r
    /\ (statusCode r = 200 \/ statusCode r = 404 \/ statusCode r = 500)
    /\ headers r = []
    /\ (statusCode r = 200 ->
        is_Some (keys w !! k) /\ keys (snd run) = delete k (keys w))
    /\ (statusCode r = 404 -> keys w !! k = None /\ keys (snd run) = keys w)
    /\ (statusCode r = 500 -> keys (snd run) = keys w).
Proof.
  intros run k. subst run k.
  destruct (serve_DELETE_cases req w) as [[msg Hrun] | (_ & _ & Hrun)];
    rewrite Hrun; eexists; (split; [reflexivity|]).
  - simpl. split; [tauto|]. split; [reflexivity|].
    split; [discriminate|]. split; [discriminate|]. reflexivity.
  - destruct (keys w !! params_id req) as [text|] eqn:Hm; simpl.
    + split; [tauto|]. split; [reflexivity|].
      split; [eauto|]. split; discriminate.
    + split; [tauto|]. split; [reflexivity|].
      split; [discriminate|]. split; [|discriminate].
      intros _. split; [reflexivity|]. unfold keys. simpl. now apply delete_id.
Qed.

(** X7 (one key at a time). Whatever the request and whatever the server
    does, a write leaves every key other than its string [objectId] as it
    was, and a delete every key other than [params.id]. *)
Theorem other_keys_untouched (req : Request) (w : World) (k : string) :
  (JS.get (body req) "objectId" <> Some (JStr k) ->
   keys (snd (serve (POST_v1_plan planSchema) req w)) !! k = keys w !! k)
  /\ (params_id req <> k ->
      keys (snd (serve DELETE_v1_plan req w)) !! k = keys w !! k).
Proof.
  split; intros Hk;
    apply (serve_preserves (fun m => m !! k = keys w !! k)); try reflexivity.
  - apply POST_frame. intros k' doc Hid m Hm.
    rewrite lookup_insert_ne; [assumption|]. congruence.
  - apply ensure_ready_preserves, delete_plan_frame. intros m Hm.
    rewrite lookup_delete_ne; assumption.
Qed.

(** X8 (write, delete, delete). On a connected client that accepts the
    commands, deleting the key of a successful write answers 200 and
    leaves the keys as a delete of that key alone would have left them,
    whatever the key held before the write; deleting it once more answers
    404 and changes nothing. The write is one whose date [moment]
    reads. *)
Theorem create_then_delete (req del : Request) (w : World) (k : string) :
  ready w -> calm 4 w ->
  readable_date (body req) ->
  JS.well_formed (body req) = true ->
  Ajv.validate planSchema (normalized (today w) (body req)) = [] ->
  JS.get (body req) "objectId" = Some (JStr k) ->
  JS.truthy (JStr k) = true ->
  params_id del = k ->
  let created := snd (serve (POST_v1_plan planSchema) req w) in
  let run := serve DELETE_v1_plan del created in
  let again := serve DELETE_v1_plan del (snd run) in
  fst run
  = Replied (MkResponse 200 [] (SentJson (JObj [("message", JStr "Plan deleted successfully")])))
  /\ keys (snd run) = delete k (keys w)
  /\ fst again
     = Replied (MkResponse 404 [] (SentJson (JObj [("error", JStr "Plan not found")])))
  /\ keys (snd again) = keys (snd run).
Proof.
  intros Hready Hcalm Hdate Hwf Hvalid Hid Hk Hdel created run again.
  subst created run again.
  rewrite (create_outcome planSchema req w k)
    by first [assumption | apply (calm_le 4); [lia | assumption]].
  destruct w as [[rd m fs] td]. unfold ready, calm, keys, after_commands in *.
  simpl in *. subst rd.
  assert (H2 : forallb negb (take 1 (drop 2 fs)) = true).
  { destruct fs as [|a [|b [|c fs]]]; try reflexivity. simpl in *.
    destruct a, b, c; try discriminate; reflexivity. }
  assert (H3 : forallb negb (take 1 (tail (drop 2 fs))) = true).
  { destruct fs as [|a [|b [|c [|d fs]]]]; try reflexivity. simpl in *.
    destruct a, b, c, d; try discriminate; reflexivity. }
  rewrite serve_DELETE_accepted by assumption. simpl.
  rewrite serve_DELETE_accepted by assumption. simpl.
  rewrite Hdel, lookup_insert_eq, lookup_delete_eq, delete_insert_eq.
  repeat split. now rewrite delete_delete_eq.
Qed.

(** X9 (what the application writes it can read). Starting from keys that
    hold stored records, after any sequence of requests to the three
    routes, with bodies as the JSON parser leaves them and whatever the
    server does, every key still holds a stored record; a read that the
    server accepts then answers 200, 304 or 404, never the 500 of a text
    that cannot be decoded. *)
Theorem stored_records_stay_readable (calls : list (Route * Request)) (w : World) :
  Forall (fun call => JS.well_formed (body (snd call)) = true) calls ->
  stored_records (keys w) ->
  let after := snd (serve_calls planSchema calls w) in
  stored_records (keys after)
  /\ length (fst (serve_calls planSchema calls w)) = length calls
  /\ forall get,
       ready after -> calm 1 after ->
       status (fst (serve GET_v1_plan get after)) = Some 200
       \/ status (fst (serve GET_v1_plan get after)) = Some 304
       \/ status (fst (serve GET_v1_plan get after)) = Some 404.
Proof.
  intros Hcalls Hw after. subst after.
  assert (Hinv : stored_records (keys (snd (serve_calls planSchema calls w)))
                 /\ length (fst (serve_calls planSchema calls w)) = length calls).
  { revert w Hw. induction Hcalls as [|[route rq] calls Hwf _ IH]; intros w Hw.
    - now split.
    - simpl. simpl in Hwf.
      destruct (stored_records_preserved planSchema rq w Hwf Hw) as (HP & HG & HD).
      destruct (serve (app planSchema route) rq w) as [o w1] eqn:Hserve.
      assert (Hw1 : stored_records (keys w1)).
      { destruct route; simpl in Hserve; rewrite Hserve in *; assumption. }
      destruct (IH w1 Hw1) as [IH1 IH2].
      destruct (serve_calls planSchema calls w1) as [os w2]. simpl in *.
      split; [assumption | now f_equal]. }
  destruct Hinv as [Hinv Hlen]. split; [assumption|]. split; [assumption|].
  intros get Hready Hcalm.
  destruct (snd (serve_calls planSchema calls w)) as [[rd m fs] td].
  unfold ready, calm, keys in *. simpl in *. subst rd.
  rewrite serve_GET_accepted by assumption. simpl. unfold read_reply.
  destruct (m !! params_id get) as [text|] eqn:Hm; simpl; [|auto].
  destruct (Hinv _ _ Hm) as (doc & Hwf & ->).
  rewrite JSONFacts.parse_stringify by assumption.
  rewrite stringify_nonempty. simpl.
  destruct (bool_decide _); simpl; auto.
  destruct (Fresh.fresh _ _); simpl; auto.
Qed.

(** X11 (the tag of a write revalidates). On a connected client that
    accepts the commands, a read of the key of a successful write whose
    [If-None-Match] is the [ETag] of the 201 reply answers 304, with no
    header set by the route and no body, and leaves the keys as the write
    left them. The write is one whose date [moment] reads. *)
Theorem created_tag_revalidates (post get : Request) (w : World) (k : string) :
  ready w -> calm 3 w ->
  readable_date (body post) ->
  JS.well_formed (body post) = true ->
  Ajv.validate planSchema (normalized (today w) (body post)) = [] ->
  JS.get (body post) "objectId" = Some (JStr k) ->
  JS.truthy (JStr k) = true ->
  params_id get = k ->
  let created := serve (POST_v1_plan planSchema) post w in
  if_none_match get = header "ETag" (fst created) ->
  status (fst created) = Some 201
  /\ serve GET_v1_plan get (snd created)
     = (Replied (MkResponse 304 [] SentEmpty),
        after_commands 1 (keys (snd created)) (snd created)).
Proof.
  intros Hready Hcalm Hdate Hwf Hvalid Hid Hk Hget created. subst created.
  rewrite (create_outcome planSchema post w k)
    by first [assumption | apply (calm_le 3); [lia | assumption]].
  simpl. intros Htok. split; [reflexivity|].
  rewrite (read_outcome get _ (normalized (today w) (body post))).
  - now rewrite bool_decide_eq_true_2.
  - exact Hready.
  - now apply calm_after.
  - now apply normalized_well_formed.
  - unfold keys. simpl. rewrite Hget. apply lookup_insert_eq.
Qed.

End Replies.

(** ** A date that is already YYYY-MM-DD *)

Module Reread.
Import Moment MomentFacts Normalize.

(** The forgiving parser on a text YYYY-MM-DD. *)
Lemma moment_reread (td : date) (d1 d2 m1 m2 y1 y2 y3 y4 : ascii) :
  is_digit d1 = true -> is_digit d2 = true ->
  is_digit m1 = true -> is_digit m2 = true ->
  is_digit y1 = true -> is_digit y2 = true ->
  is_digit y3 = true -> is_digit y4 = true ->
  moment_DD_MM_YYYY td (JStr (yyyy_mm_dd d1 d2 m1 m2 y1 y2 y3 y4))
  = Read (if overflows (reread_date d1 d2 m1 m2 y1 y2) then None
          else Some (reread_date d1 d2 m1 m2 y1 y2)).
Proof.
  intros Hd1 Hd2 Hm1 Hm2 Hy1 Hy2 Hy3 Hy4.
  rewrite moment_of_string. f_equal.
  unfold parse_DD_MM_YYYY, yyyy_mm_dd.
  cbn [find_digits take_digits]. rewrite Hy1, Hy2.
  unfold skip_dash. cbn [find_dash].
  rewrite (is_digit_not_dash y3), (is_digit_not_dash y4) by assumption.
  simpl Ascii.eqb. cbv iota.
  cbn [find_digits take_digits]. rewrite Hm1, Hm2.
  cbn [find_dash]. simpl Ascii.eqb. cbv iota.
  cbn [find_digits take_digits]. rewrite Hd1, Hd2.
  reflexivity.
Qed.

Lemma year_width_all :
  forallb (fun a => forallb (fun b =>
    Nat.eqb (String.length (zero_fill 4 (parse_year (two a b)))) 4)
    digit_chars) digit_chars = true.
Proof. vm_compute. reflexivity. Qed.

(** A two-digit year prints as four characters. *)
Lemma year_width (a b : ascii) :
  is_digit a = true -> is_digit b = true ->
  exists p q r s, zero_fill 4 (parse_year (two a b)) = four p q r s.
Proof.
  intros Ha Hb. apply is_digit_in in Ha, Hb.
  pose proof year_width_all as H.
  rewrite forallb_forall in H. specialize (H a Ha).
  rewrite forallb_forall in H. specialize (H b Hb).
  apply Nat.eqb_eq in H.
  destruct (zero_fill 4 (parse_year (two a b))) as [|p [|q [|r [|s [|t rest]]]]];
    try discriminate H.
  now exists p, q, r, s.
Qed.

(** What is printed for the date read again ends in the first two digits
    of the year. *)
Lemma format_reread_differs (d1 d2 m1 m2 y1 y2 y3 y4 : ascii) :
  is_digit d1 = true -> is_digit d2 = true ->
  is_digit m1 = true -> is_digit m2 = true ->
  is_digit y1 = true -> is_digit y2 = true ->
  two d1 d2 <> two y1 y2 ->
  format_YYYY_MM_DD (if overflows (reread_date d1 d2 m1 m2 y1 y2) then None
                     else Some (reread_date d1 d2 m1 m2 y1 y2))
  <> yyyy_mm_dd d1 d2 m1 m2 y1 y2 y3 y4.
Proof.
  intros Hd1 Hd2 Hm1 Hm2 Hy1 Hy2 Hne.
  destruct (overflows _).
  - unfold format_YYYY_MM_DD, yyyy_mm_dd. intros H. discriminate H.
  - unfold format_YYYY_MM_DD, reread_date. simpl year. simpl month. simpl day.
    fold (two d1 d2). fold (two m1 m2). fold (two y1 y2).
    rewrite !zero_fill_two by assumption.
    destruct (year_width d1 d2 Hd1 Hd2) as (p & q & r & s & ->).
    unfold four, two, yyyy_mm_dd. cbn. intros H.
    apply Hne. unfold two. congruence.
Qed.

End Reread.

Section Again.

Import Moment MomentFacts Normalize Reread.

(** X10 (normalization is not idempotent). [transformDate] reads a
    [creationDate] that is already of the form YYYY-MM-DD under its format
    DD-MM-YYYY: the first two digits of the year become the day, the month
    stays, and the two digits of the day become a two-digit year. So the
    body a read returns, sent again in a write, is stored with another
    date (or with the words Invalid date) whenever the day differs from
    the first two digits of the year. *)
Theorem normalized_date_is_reread (td : Moment.date) (doc : value)
    (d1 d2 m1 m2 y1 y2 y3 y4 : ascii) :
  Forall (fun c => Moment.is_digit c = true) [d1; d2; m1; m2; y1; y2; y3; y4] ->
  JS.get doc "creationDate" = Some (JStr (yyyy_mm_dd d1 d2 m1 m2 y1 y2 y3 y4)) ->
  let reread := reread_date d1 d2 m1 m2 y1 y2 in
  JS.get (normalized td doc) "creationDate"
  = Some (JStr (Moment.format_YYYY_MM_DD
                  (if Moment.overflows reread then None else Some reread)))
  /\ (Moment.two d1 d2 <> Moment.two y1 y2 -> normalized td doc <> doc).
Proof.
  intros Hdigits Hget reread.
  repeat match goal with
         | H : Forall _ (_ :: _) |- _ => apply Forall_cons in H as [? H]
         end.
  assert (Hnew : JS.get (normalized td doc) "creationDate"
                 = Some (JStr (Moment.format_YYYY_MM_DD
                                 (if Moment.overflows reread then None else Some reread)))).
  { unfold normalized. rewrite Hget.
    change (JS.truthy (JStr (yyyy_mm_dd d1 d2 m1 m2 y1 y2 y3 y4))) with true. cbv iota.
    rewrite moment_reread by assumption.
    destruct doc as [| | | | |props]; try discriminate.
    simpl. apply lookup_define_same. }
  split; [exact Hnew|].
  intros Hne Heq. rewrite Heq, Hget in Hnew. injection Hnew as Hnew.
  symmetry in Hnew. revert Hnew. now apply format_reread_differs.
Qed.

End Again.

(** ** The further properties on the example scenario *)

Lemma example_stored_records : stored_records (keys exampleStored).
Proof.
  intros k text H. rewrite example_stored_keys in H.
  apply lookup_singleton_Some in H as [_ <-].
  exists exampleNormalized. split; reflexivity.
Qed.

Lemma created_reply_is_sound_example :
  let req := MkRequest exampleDoc "" None in
  let run := serve (POST_v1_plan examplePlanSchema) req exampleWorld in
  (Ajv.validate examplePlanSchema exampleNormalized = []
   /\ fst run = Replied (MkResponse 201 [("ETag", exampleTag)] (SentJson exampleNormalized))
   /\ exists k, JS.get exampleDoc "objectId" = Some (JStr k)
                /\ keys (snd run)
                   = <[k := JSON_stringify exampleNormalized]> (keys exampleWorld))
  /\ (exists msg,
        serve (POST_v1_plan examplePlanSchema) (MkRequest exampleMomentLike "" None)
          exampleWorld
        = (Uncaught (TypeError msg), exampleWorld)).
Proof.
  destruct (created_reply_is_sound examplePlanSchema (MkRequest exampleDoc "" None)
              exampleWorld eq_refl) as (_ & _ & Hreply).
  destruct (created_reply_is_sound examplePlanSchema (MkRequest exampleMomentLike "" None)
              exampleWorld eq_refl) as (Hthrown & _).
  destruct (Hreply (or_intror eq_refl)) as (r & Hrun & _ & Hcreated & _).
  vm_compute in Hrun. injection Hrun as <-.
  destruct (Hcreated eq_refl) as (Hvalid & Hr & Hstored).
  split; [|apply Hthrown; [reflexivity | discriminate]].
  split; [exact Hvalid|]. split; [vm_compute; reflexivity | exact Hstored].
Defined.

Lemma failed_create_may_have_written_example :
  let req := MkRequest exampleDoc "" None in
  let run := serve (POST_v1_plan examplePlanSchema) req exampleTorn in
  fst run
  = Replied (MkResponse 500 [] (SentJson (JObj [("error", JStr "Error creating plan")])))
  /\ keys (snd run) = <["abc123" := JSON_stringify exampleNormalized]> (keys exampleTorn)
  /\ forall get,
       params_id get = "abc123" -> if_none_match get = None ->
       fst (serve GET_v1_plan get (snd run))
       = Replied (MkResponse 200 [("ETag", Etag.entitytag (JSON_stringify exampleNormalized))]
                             (SentJson exampleNormalized)).
Proof.
  apply (failed_create_may_have_written examplePlanSchema (MkRequest exampleDoc "" None)
           exampleTorn "abc123" []); vm_compute; reflexivity.
Defined.

Lemma non_string_objectId_is_an_error_example :
  serve (POST_v1_plan exampleOpenSchema) (MkRequest exampleNumbered "" None) exampleStored
  = (Replied (MkResponse 500 [] (SentJson (JObj [("error", JStr "Error creating plan")]))),
     exampleStored).
Proof.
  refine (proj2 (non_string_objectId_is_an_error exampleOpenSchema
                   (MkRequest exampleNumbered "" None) exampleStored (JNum 7) _ _ _ _ _ _));
    first [discriminate | vm_compute; reflexivity].
Defined.

Lemma read_reply_is_sound_example :
  (exists doc,
     keys exampleStored !! "abc123" = Some (JSON_stringify doc)
     /\ fst (serve GET_v1_plan (exampleGet None) exampleStored)
        = Replied (MkResponse 200 [("ETag", Etag.entitytag (JSON_stringify doc))]
                              (SentJson doc)))
  /\ (exists doc,
        keys exampleStored !! "abc123" = Some (JSON_stringify doc)
        /\ Fresh.fresh (Some exampleWeakTag) (Some (Etag.entitytag (JSON_stringify doc)))
           = true
        /\ fst (serve GET_v1_plan (exampleGet (Some exampleWeakTag)) exampleStored)
           = Replied (MkResponse 304 [("ETag", Etag.entitytag (JSON_stringify doc))]
                                 SentEmpty)).
Proof.
  split.
  - destruct (read_reply_is_sound (exampleGet None) exampleStored example_stored_records)
      as (r & Hrun & _ & Hok & _).
    rewrite Hrun. vm_compute in Hrun. injection Hrun as <-.
    destruct (Hok eq_refl) as (doc & _ & Hstored & _ & _ & Hr).
    exists doc. split; [exact Hstored|]. now rewrite <- Hr.
  - destruct (read_reply_is_sound (exampleGet (Some exampleWeakTag)) exampleStored
                example_stored_records) as (r & Hrun & _ & _ & Hnot & _).
    rewrite Hrun. vm_compute in Hrun. injection Hrun as <-.
    destruct (Hnot eq_refl) as (doc & _ & Hstored & [[_ Hr] | (_ & Hfresh & Hr)]).
    + discriminate Hr.
    + exists doc. split; [exact Hstored|]. split; [exact Hfresh|]. now rewrite <- Hr.
Defined.

Lemma read_of_foreign_text_example :
  fst (serve GET_v1_plan (MkRequest JNull "blank" None) exampleForeign)
  = Replied (MkResponse 404 [] (SentJson (JObj [("error", JStr "Plan not found")])))
  /\ fst (serve DELETE_v1_plan (MkRequest JNull "blank" None) exampleForeign)
     = Replied (MkResponse 200 []
                  (SentJson (JObj [("message", JStr "Plan deleted successfully")])))
  /\ JSON.parse "gold" = None
  /\ fst (serve GET_v1_plan (exampleGet None) exampleForeign)
     = Replied (MkResponse 500 [("ETag", Etag.entitytag "gold")]
                           (SentJson (JObj [("error", JStr "Error retrieving plan")]))).
Proof.
  destruct (read_of_foreign_text (MkRequest JNull "blank" None) exampleForeign ""
              eq_refl eq_refl eq_refl) as (Hblank & _ & _ & Hdelete).
  split; [apply Hblank; reflexivity|]. split; [exact Hdelete|].
  destruct (read_of_foreign_text (exampleGet None) exampleForeign "gold"
                eq_refl eq_refl eq_refl) as (_ & Hgold & _).
  apply Hgold; [discriminate | reflexivity | discriminate].
Defined.

Lemma delete_reply_is_sound_example :
  is_Some (keys exampleStored !! "abc123")
  /\ keys (snd (serve DELETE_v1_plan (exampleGet None) exampleStored))
     = delete "abc123" (keys exampleStored).
Proof.
  destruct (delete_reply_is_sound (exampleGet None) exampleStored)
    as (r & Hrun & _ & _ & Hok & _).
  vm_compute in Hrun. injection Hrun as <-.
  exact (Hok eq_refl).
Defined.

Lemma other_keys_untouched_example :
  let req := MkRequest exampleDoc "abc123" None in
  keys (snd (serve (POST_v1_plan examplePlanSchema) req exampleForeign)) !! "blank"
  = Some ""
  /\ keys (snd (serve DELETE_v1_plan req exampleForeign)) !! "blank" = Some "".
Proof.
  destruct (other_keys_untouched examplePlanSchema (MkRequest exampleDoc "abc123" None)
              exampleForeign "blank") as [Hwrite Hdelete].
  split.
  - etransitivity; [apply Hwrite; discriminate | reflexivity].
  - etransitivity; [apply Hdelete; discriminate | reflexivity].
Defined.

Lemma create_then_delete_example :
  let created := snd (serve (POST_v1_plan examplePlanSchema)
                        (MkRequest exampleDoc' "" None) exampleStored) in
  let run := serve DELETE_v1_plan (exampleGet None) created in
  let again := serve DELETE_v1_plan (exampleGet None) (snd run) in
  fst run
  = Replied (MkResponse 200 [] (SentJson (JObj [("message", JStr "Plan deleted successfully")])))
  /\ keys (snd run) = delete "abc123" (keys exampleStored)
  /\ fst again
     = Replied (MkResponse 404 [] (SentJson (JObj [("error", JStr "Plan not found")])))
  /\ keys (snd again) = keys (snd run).
Proof.
  apply (create_then_delete examplePlanSchema (MkRequest exampleDoc' "" None)
           (exampleGet None) exampleStored "abc123"); vm_compute; reflexivity.
Defined.

Lemma stored_records_stay_readable_example :
  let calls := [(POST_plan, MkRequest exampleDoc "" None);
                (GET_plan, exampleGet None);
                (POST_plan, MkRequest exampleUnreadable "" None);
                (POST_plan, MkRequest exampleDoc' "" None);
                (DELETE_plan, MkRequest JNull "other" None)] in
  let after := snd (serve_calls examplePlanSchema calls exampleWorld) in
  stored_records (keys after)
  /\ length (fst (serve_calls examplePlanSchema calls exampleWorld)) = length calls
  /\ forall get,
       ready after -> calm 1 after ->
       status (fst (serve GET_v1_plan get after)) = Some 200
       \/ status (fst (serve GET_v1_plan get after)) = Some 304
       \/ status (fst (serve GET_v1_plan get after)) = Some 404.
Proof.
  apply (stored_records_stay_readable examplePlanSchema
           [(POST_plan, MkRequest exampleDoc "" None);
            (GET_plan, exampleGet None);
            (POST_plan, MkRequest exampleUnreadable "" None);
            (POST_plan, MkRequest exampleDoc' "" None);
            (DELETE_plan, MkRequest JNull "other" None)] exampleWorld).
  - repeat constructor.
  - intros k text H. vm_compute in H. discriminate H.
Defined.

Lemma created_tag_revalidates_example :
  let created := serve (POST_v1_plan examplePlanSchema)
                   (MkRequest exampleDoc "" None) exampleWorld in
  status (fst created) = Some 201
  /\ serve GET_v1_plan (exampleGet (Some exampleTag)) (snd created)
     = (Replied (MkResponse 304 [] SentEmpty),
        after_commands 1 (keys (snd created)) (snd created)).
Proof.
  apply (created_tag_revalidates examplePlanSchema (MkRequest exampleDoc "" None)
           (exampleGet (Some exampleTag)) exampleWorld "abc123"); vm_compute; reflexivity.
Defined.

Lemma normalized_date_is_reread_example :
  JS.get (normalized (today exampleWorld) exampleNormalized) "creationDate"
  = Some (JStr "2025-12-20")
  /\ normalized (today exampleWorld) exampleNormalized <> exampleNormalized.
Proof.
  destruct (normalized_date_is_reread (today exampleWorld) exampleNormalized
              "2" "5" "1" "2" "2" "0" "2" "3") as [Hdate Hother].
  - repeat constructor.
  - reflexivity.
  - split; [exact Hdate | apply Hother; discriminate].
Defined.
